(** * css-complexity-analyzer: the analysis core, embedded and verified

    A shallow embedding of the TypeScript core of the analyzer
    (parser.ts, metrics.ts, rules.ts, scoring.ts, analyzer.ts, types.ts).

    Numbers.  A JavaScript [number] that the code only ever uses as a
    count, a depth, a line or a score built from such (sums, products
    and differences of integers) is a [Z]; a number that the code
    divides or multiplies by a decimal constant is a [Q], the constant
    at its decimal value.  Integers are exact in IEEE doubles below
    2^53; the products with the layout-risk multipliers round to the
    same integer in doubles as in [Q] for every score a stylesheet can
    reach (the error of a product is far below the distance of a
    multiple of 1/10 from a half, and a half itself is exact).

    Strings are [string] (sequences of 8-bit characters); [trim],
    [toLowerCase] and the character classes of the regular expressions
    act on the ASCII range.

    A [Map] is kept as an association list in insertion order, since
    the code iterates over its maps and the order of the issues it
    emits follows that iteration order.  A [Set] that is only queried
    with [has] is a [gset].

    The clock is an input: [generateReport] takes the string that
    [new Date().toISOString()] returns.                               *)

From Stdlib Require Import ZArith QArith Qround Qminmax Qabs List String Ascii Lia Lqa DecimalString.
From Stdlib Require Import Sorted Permutation.
From stdpp Require Import base gmap strings list.

#[local] Set Warnings "-register-all".
#[local] Open Scope string_scope.
#[local] Open Scope list_scope.
#[local] Open Scope Z_scope.

(** ** The JavaScript library functions the core calls *)

Module JS.

(** [`${n}`] for an integer-valued number. *)
Definition numberToString (n : Z) : string :=
  NilZero.string_of_int (Z.to_int n).

(** The double-quote character. *)
Definition dquote : string := String (ascii_of_nat 34) EmptyString.

Definition isWhiteSpace (c : ascii) : bool :=
  let n := nat_of_ascii c in
  (Nat.eqb n 32 || (Nat.leb 9 n && Nat.leb n 13))%bool.

Fixpoint trimStart (s : string) : string :=
  match s with
  | String c s' => if isWhiteSpace c then trimStart s' else s
  | EmptyString => EmptyString
  end.

Fixpoint trimEnd (s : string) : string :=
  match s with
  | String c s' =>
      match trimEnd s' with
      | EmptyString => if isWhiteSpace c then EmptyString else String c EmptyString
      | t => String c t
      end
  | EmptyString => EmptyString
  end.

Definition trim (s : string) : string := trimEnd (trimStart s).

Fixpoint mapChars (f : ascii -> ascii) (s : string) : string :=
  match s with
  | String c s' => String (f c) (mapChars f s')
  | EmptyString => EmptyString
  end.

Definition isUpper (c : ascii) : bool :=
  let n := nat_of_ascii c in (Nat.leb 65 n && Nat.leb n 90)%bool.
Definition isLower (c : ascii) : bool :=
  let n := nat_of_ascii c in (Nat.leb 97 n && Nat.leb n 122)%bool.
Definition isDigit (c : ascii) : bool :=
  let n := nat_of_ascii c in (Nat.leb 48 n && Nat.leb n 57)%bool.

Definition toLowerCase (s : string) : string :=
  mapChars (fun c => if isUpper c then ascii_of_nat (nat_of_ascii c + 32) else c) s.

(** [s.startsWith(p)] *)
Definition startsWith (s p : string) : bool := String.prefix p s.

(** [s.includes(sub)] *)
Fixpoint includes (s sub : string) : bool :=
  (String.prefix sub s ||
   match s with
   | String _ s' => includes s' sub
   | EmptyString => false
   end)%bool.

(** [xs.includes(x)] on an array of strings. *)
Definition arrayIncludes (xs : list string) (x : string) : bool :=
  existsb (String.eqb x) xs.

(** [s.split(re)] where [re] matches exactly one character of a class. *)
Fixpoint splitAux (sep : ascii -> bool) (s : string) : string * list string :=
  match s with
  | EmptyString => (EmptyString, [])
  | String c s' =>
      let '(piece, pieces) := splitAux sep s' in
      if sep c then (EmptyString, piece :: pieces) else (String c piece, pieces)
  end.

Definition split (sep : ascii -> bool) (s : string) : list string :=
  let '(piece, pieces) := splitAux sep s in piece :: pieces.

(** [xs.join(sep)] *)
Fixpoint join (sep : string) (xs : list string) : string :=
  match xs with
  | [] => EmptyString
  | [x] => x
  | x :: xs' => x +:+ sep +:+ join sep xs'
  end.

(** A string is truthy when it is not empty. *)
Definition truthy (s : string) : bool :=
  match s with EmptyString => false | _ => true end.

(** [x || d] for a string [x] that may be [undefined]. *)
Definition orElse (x : option string) (d : string) : string :=
  match x with
  | Some s => if truthy s then s else d
  | None => d
  end.

(** [Math.max(...xs)] and [Math.min(...xs)]; the core calls them on
    arrays it knows to hold an element (of no element they are the
    infinities, which [Z] lacks: [0] stands there). *)
Definition Math_max (xs : list Z) : Z :=
  match xs with
  | [] => 0
  | x :: xs' => fold_left Z.max xs' x
  end.

Definition Math_min (xs : list Z) : Z :=
  match xs with
  | [] => 0
  | x :: xs' => fold_left Z.min xs' x
  end.

(** [a / b] on integers: a quotient, an infinity or [NaN]. *)
Module Ratio.
Inductive t := Finite (q : Q) | PosInfinity | NegInfinity | NaN.

(** [r >= q] *)
Definition geb (r : t) (q : Q) : bool :=
  match r with
  | Finite x => Qle_bool q x
  | PosInfinity => true
  | NegInfinity | NaN => false
  end.
End Ratio.

Definition divide (a b : Z) : Ratio.t :=
  if b =? 0 then
    (if a >? 0 then Ratio.PosInfinity
     else if a <? 0 then Ratio.NegInfinity else Ratio.NaN)
  else Ratio.Finite (inject_Z a / inject_Z b)%Q.

(** [x > y] on fractions. *)
Definition Qgtb (x y : Q) : bool := negb (Qle_bool x y).

(** [Math.round]: the nearest integer, a tie going up. *)
Definition Math_round (x : Q) : Z := Qfloor (x + (1 # 2)).

(** [Array.prototype.sort(cmp)]: a stable sort; an element moves in
    front of another exactly when the comparator is negative. *)
Section Sort.
Context {A : Type} (cmp : A -> A -> Z).

Fixpoint insertSorted (x : A) (l : list A) : list A :=
  match l with
  | [] => [x]
  | y :: l' => if cmp x y <=? 0 then x :: l else y :: insertSorted x l'
  end.

Definition sort (l : list A) : list A := fold_right insertSorted [] l.
End Sort.

(** [xs.slice(0, n)] for an integer [n]: a negative [n] counts from
    the end of the array. *)
Definition slice0 {A} (n : Z) (l : list A) : list A :=
  if n <? 0 then firstn (Z.to_nat (Z.of_nat (length l) + n)) l
  else firstn (Z.to_nat n) l.

(** A statement [for (const x of xs) body], the variables the body
    assigns being threaded as [st]. *)
Definition forOf {A St} (xs : list A) (st : St) (body : St -> A -> St) : St :=
  fold_left body xs st.

(** [Map<string, V>], in insertion order. *)
Module Map.
Definition t (V : Type) : Type := list (string * V).

Fixpoint get {V} (m : t V) (k : string) : option V :=
  match m with
  | [] => None
  | (k', v) :: m' => if String.eqb k k' then Some v else get m' k
  end.

(** [m.set(k, v)] keeps the position of a key that is present. *)
Fixpoint set {V} (m : t V) (k : string) (v : V) : t V :=
  match m with
  | [] => [(k, v)]
  | (k', v') :: m' =>
      if String.eqb k k' then (k', v) :: m' else (k', v') :: set m' k v
  end.
End Map.

(** A number that need not be an integer: a finite value, an infinity
    or [NaN] ([parseInt] returns [NaN] for text that does not start with
    a digit). *)
Module Number.
Inductive t := Finite (q : Q) | PosInfinity | NegInfinity | NaN.

Definition ofInteger (z : Z) : t := Finite (inject_Z z).

(** [n > x] for an integer [n]: false when [x] is [NaN]. *)
Definition integerExceeds (n : Z) (x : t) : bool :=
  match x with
  | Finite q => negb (Qle_bool (inject_Z n) q)
  | NegInfinity => true
  | PosInfinity | NaN => false
  end.

Section ToString.
(** The text of a finite number that is not an integer of at most 21
    digits: the digits the engine chooses for it. *)
Variable otherToString : Q -> string.

(** [`${x}`] *)
Definition toString (x : t) : string :=
  match x with
  | Finite q =>
      if (Qeq_bool q (inject_Z (Qfloor q)) && (Z.abs (Qfloor q) <? 10 ^ 21))%bool
      then numberToString (Qfloor q)
      else otherToString q
  | PosInfinity => "Infinity"
  | NegInfinity => "-Infinity"
  | NaN => "NaN"
  end.
End ToString.
End Number.

(** An optional property of an object: the key is absent, or present
    and holding [undefined] or [null] (parsed JSON gives [null]), or
    present and holding a value.  Reading the property gives
    [undefined] or [null] in the first two cases; an object spread
    copies the key in the last two. *)
Module Field.
Inductive t (A : Type) : Type := absent | nullish | value (a : A).
Arguments absent {A}.
Arguments nullish {A}.
Arguments value {A} a.
End Field.

End JS.

(** ** types.ts *)

Module Severity.
Inductive t := low | medium | high | critical.
End Severity.

Module IssueId.
Inductive t :=
| DEEP_SELECTOR
| HIGH_SPECIFICITY
| IMPORTANT_ABUSE
| DUPLICATE_DECLARATIONS
| LAYOUT_RISK_HOTSPOT
| OVERRIDE_PRESSURE
| MISSING_LAYERS.

Definition eqb (a b : t) : bool :=
  match a, b with
  | DEEP_SELECTOR, DEEP_SELECTOR
  | HIGH_SPECIFICITY, HIGH_SPECIFICITY
  | IMPORTANT_ABUSE, IMPORTANT_ABUSE
  | DUPLICATE_DECLARATIONS, DUPLICATE_DECLARATIONS
  | LAYOUT_RISK_HOTSPOT, LAYOUT_RISK_HOTSPOT
  | OVERRIDE_PRESSURE, OVERRIDE_PRESSURE
  | MISSING_LAYERS, MISSING_LAYERS => true
  | _, _ => false
  end.
End IssueId.

Module IssueTag.
Inductive t :=
| specificity | cascade | override | layout_risk | duplication
| maintainability | layer.
End IssueTag.

(** [Specificity]: the three fields are counts in a selector's
    specificity and fractions in an average, hence the parameter. *)
Module Specificity.
Record t (num : Type) := mk { ids : num; classes : num; elements : num }.
Arguments mk {num}.
Arguments ids {num}.
Arguments classes {num}.
Arguments elements {num}.
End Specificity.

Module Evidence.
Record t := mk {
  file : string;
  selector : option string;
  property : option string;
  value : option string;
  line : option Z;
  column : option Z;
  specificity : option (Specificity.t Z);
  depth : option Z;
  count : option Z
}.
End Evidence.

Module Suggestion.
Record t := mk { action : string; description : string }.
End Suggestion.

Module Issue.
Record t := mk {
  id : IssueId.t;
  severity : Severity.t;
  confidence : Q;
  title : string;
  why : string;
  evidence : Evidence.t;
  suggestions : list Suggestion.t;
  tags : list IssueTag.t
}.
End Issue.

Module FileMetrics.
Record t := mk {
  file : string;
  totalRules : Z;
  totalSelectors : Z;
  totalDeclarations : Z;
  maxSelectorDepth : Z;
  avgSelectorDepth : Q;
  maxSpecificity : Specificity.t Z;
  avgSpecificity : Specificity.t Q;
  importantCount : Z;
  duplicateDeclarationCount : Z;
  layoutRiskScore : Z
}.
End FileMetrics.

Module GlobalMetrics.
Record t := mk {
  totalFiles : Z;
  totalRules : Z;
  totalSelectors : Z;
  totalDeclarations : Z;
  maxSelectorDepth : Z;
  avgSelectorDepth : Q;
  maxSpecificity : Specificity.t Z;
  avgSpecificity : Specificity.t Q;
  totalImportantCount : Z;
  totalDuplicateDeclarations : Z;
  overallLayoutRiskScore : Z
}.
End GlobalMetrics.

Module TopSelector.
Record t := mk {
  selector : string;
  file : string;
  line : option Z;
  specificity : Specificity.t Z;
  depth : Z;
  score : Z
}.
End TopSelector.

Module CategoryScores.
Record t := mk {
  specificity : Q;
  cascade : Q;
  duplication : Q;
  layoutRisk : Q
}.
End CategoryScores.

Module Grade.
Inductive t := A | B | C | D | F.
End Grade.

Module SeverityCounts.
(** [Record<Severity, number>] *)
Record t := mk { critical : Z; high : Z; medium : Z; low : Z }.
End SeverityCounts.

Module Summary.
Record t := mk {
  overallScore : Z;
  categoryScores : CategoryScores.t;
  grade : Grade.t;
  totalIssues : Z;
  issuesBySeverity : SeverityCounts.t
}.
End Summary.

Module Priority.
Inductive t := high | medium | low.
End Priority.

Module Recommendation.
Record t := mk {
  category : string;
  title : string;
  description : string;
  priority : Priority.t;
  relatedIssueIds : list IssueId.t
}.
End Recommendation.

Module Report.
Record t := mk {
  version : string;
  timestamp : string;
  summary : Summary.t;
  globalMetrics : GlobalMetrics.t;
  fileMetrics : list FileMetrics.t;
  issues : list Issue.t;
  topSelectors : list TopSelector.t;
  recommendations : list Recommendation.t
}.
End Report.

(** The optional fields of [AnalyzerConfig].  The keys of [thresholds]
    and [rules] are spread by [mergeConfig], which tells a key that is
    absent from a key that holds [undefined] or [null]; the top-level
    fields are only read with [??] and [?.], to which the two are the
    same: [None] is either. *)
Module Thresholds.
Record t := mk {
  maxSelectorDepth : JS.Field.t Z;
  maxSpecificityScore : JS.Field.t Z;
  maxImportantPerFile : JS.Field.t Z;
  maxDuplicateDeclarations : JS.Field.t Z
}.
End Thresholds.

Module RuleToggles.
Record t := mk {
  deepSelectors : JS.Field.t bool;
  highSpecificity : JS.Field.t bool;
  importantAbuse : JS.Field.t bool;
  duplicateDeclarations : JS.Field.t bool;
  layoutRiskHotspot : JS.Field.t bool;
  overridePressure : JS.Field.t bool;
  missingLayers : JS.Field.t bool
}.
End RuleToggles.

Module AnalyzerConfig.
Record t := mk {
  include : option (list string);
  exclude : option (list string);
  thresholds : option Thresholds.t;
  ignorePatterns : option (list string);
  maxScore : option JS.Number.t;
  rules : option RuleToggles.t
}.

(** The object literal [{}]. *)
Definition empty : t := mk None None None None None None.
End AnalyzerConfig.

(** [Required<AnalyzerConfig>]: the six top-level fields are present;
    [Required] does not reach into [thresholds] and [rules], whose own
    fields stay optional. *)
Module RequiredConfig.
Record t := mk {
  include : list string;
  exclude : list string;
  thresholds : Thresholds.t;
  ignorePatterns : list string;
  maxScore : JS.Number.t;
  rules : RuleToggles.t
}.

(** A [Required<AnalyzerConfig>] passed where an [AnalyzerConfig] is
    expected. *)
Definition widen (c : t) : AnalyzerConfig.t :=
  AnalyzerConfig.mk (Some (include c)) (Some (exclude c))
    (Some (thresholds c)) (Some (ignorePatterns c))
    (Some (maxScore c)) (Some (rules c)).
End RequiredConfig.

(** [DEFAULT_CONFIG] *)
Definition DEFAULT_CONFIG : RequiredConfig.t :=
  {| RequiredConfig.include := ["**/*.css"];
     RequiredConfig.exclude := ["**/node_modules/**"; "**/dist/**"; "**/vendor/**"];
     RequiredConfig.thresholds :=
       {| Thresholds.maxSelectorDepth := JS.Field.value 4;
          Thresholds.maxSpecificityScore := JS.Field.value 40;
          Thresholds.maxImportantPerFile := JS.Field.value 5;
          Thresholds.maxDuplicateDeclarations := JS.Field.value 3 |};
     RequiredConfig.ignorePatterns := [];
     RequiredConfig.maxScore := JS.Number.ofInteger 100;
     RequiredConfig.rules :=
       {| RuleToggles.deepSelectors := JS.Field.value true;
          RuleToggles.highSpecificity := JS.Field.value true;
          RuleToggles.importantAbuse := JS.Field.value true;
          RuleToggles.duplicateDeclarations := JS.Field.value true;
          RuleToggles.layoutRiskHotspot := JS.Field.value true;
          RuleToggles.overridePressure := JS.Field.value true;
          RuleToggles.missingLayers := JS.Field.value true |} |}.

Module ParsedSelector.
Record t := mk {
  raw : string;
  depth : Z;
  specificity : Specificity.t Z;
  hasId : bool;
  hasPseudoClass : bool;
  hasPseudoElement : bool;
  hasAttribute : bool
}.
End ParsedSelector.

Module ParsedDeclaration.
Record t := mk { property : string; value : string; important : bool }.
End ParsedDeclaration.

Module ParsedRule.
Record t := mk {
  selectors : list ParsedSelector.t;
  declarations : list ParsedDeclaration.t;
  file : string;
  line : option Z;
  column : option Z;
  layer : option string
}.
End ParsedRule.

Module ParseResult.
Record t := mk {
  file : string;
  rules : list ParsedRule.t;
  errors : list string;
  layers : list string;
  usesLayers : bool
}.
End ParseResult.

(** ** postcss-selector-parser: the tree it hands to the core

    The library is not part of the repository.  What the core relies
    on is the shape of its tree (every node has a [type]; a root, a
    selector and a pseudo node with arguments hold child nodes) and
    its [walk] method, which calls back on every descendant, parents
    before children. *)

Module NodeType.
Inductive t :=
| attribute | class | combinator | comment | id | nesting
| pseudo | root | selector | string | tag | universal.
End NodeType.

Module Node.
Inductive t := mk (type : NodeType.t) (value : String.string) (nodes : list t).

Definition type (n : t) : NodeType.t := let 'mk ty _ _ := n in ty.
Definition value (n : t) : String.string := let 'mk _ v _ := n in v.
Definition nodes (n : t) : list t := let 'mk _ _ ns := n in ns.

(** [container.walk(callback)], as the list of the nodes the callback
    is called on, in call order. *)
Fixpoint walk (n : t) : list t :=
  match n with
  | mk _ _ children => flat_map (fun c => c :: walk c) children
  end.
End Node.

(** ** postcss: the tree it hands to the core

    [postcss.parse] is the library's; the core walks its result.  A
    rule carries its comma-separated selectors as the library splits
    them ([rule.selectors]) and the start of its source range; a
    declaration's [important] is a boolean (absent counts as false). *)

Module Position.
Record t := mk { line : Z; column : Z }.
End Position.

Module Postcss.

Inductive ChildNode :=
| Rule (selectors : list string) (start : option Position.t) (nodes : list ChildNode)
| AtRule (name params : string) (nodes : list ChildNode)
| Declaration (prop value : string) (important : bool)
| Comment (text : string).

(** A [Root] holds the top-level nodes. *)
Definition Root : Type := list ChildNode.

Definition nodes (n : ChildNode) : list ChildNode :=
  match n with
  | Rule _ _ children | AtRule _ _ children => children
  | Declaration _ _ _ | Comment _ => []
  end.

(** [node.walk(callback)]: the nodes the callback is called on, in
    call order, each with its ancestors up to [node], nearest first. *)
Fixpoint walkFrom (ancestors : list ChildNode) (n : ChildNode)
  : list (list ChildNode * ChildNode) :=
  match n with
  | Rule _ _ children | AtRule _ _ children =>
      flat_map (fun c => (n :: ancestors, c) :: walkFrom (n :: ancestors) c) children
  | Declaration _ _ _ | Comment _ => []
  end.

(** [root.walk(callback)]; the ancestors stop below the root. *)
Definition walk (root : Root) : list (list ChildNode * ChildNode) :=
  flat_map (fun c => ([], c) :: walkFrom [] c) root.

(** [root.walkAtRules(name, callback)]: the [params] of the at-rules
    of that name, in call order. *)
Definition walkAtRules (name : string) (root : Root) : list string :=
  flat_map (fun '(_, n) =>
              match n with
              | AtRule name' params _ => if String.eqb name' name then [params] else []
              | _ => []
              end) (walk root).

(** [rule.walkDecls(callback)]: the declarations below a node. *)
Definition walkDecls (n : ChildNode) : list (string * string * bool) :=
  flat_map (fun '(_, d) =>
              match d with
              | Declaration prop value important => [(prop, value, important)]
              | _ => []
              end) (walkFrom [] n).

End Postcss.

(** ** parser.ts *)

Module Parser.

Definition isCombinator (n : Node.t) : bool :=
  match Node.type n with NodeType.combinator => true | _ => false end.

(** The separators of the fallback: [/[\s>+~]/]. *)
Definition isDepthSeparator (c : ascii) : bool :=
  (JS.isWhiteSpace c
   || Ascii.eqb c ">" || Ascii.eqb c "+" || Ascii.eqb c "~")%bool.

Section WithSelectorParser.
(** [processor.processSync]: the tree of a selector, or [None] when
    the library throws. *)
Variable processSync : string -> option Node.t.

Definition calculateSelectorDepth (selector : string) : Z :=
  match processSync selector with
  | Some selectors =>
      JS.forOf (Node.walk selectors) 1
        (fun depth node => if isCombinator node then depth + 1 else depth)
  | None =>
      Z.of_nat (length (List.filter (fun s => JS.truthy (JS.trim s))
                          (JS.split isDepthSeparator selector)))
  end.
End WithSelectorParser.

Definition specificityToScore (specificity : Specificity.t Z) : Z :=
  Specificity.ids specificity * 100
  + Specificity.classes specificity * 10
  + Specificity.elements specificity.

(** [specificityToScore] on an average specificity. *)
Definition specificityToScoreQ (specificity : Specificity.t Q) : Q :=
  (Specificity.ids specificity * 100
   + Specificity.classes specificity * 10
   + Specificity.elements specificity)%Q.

Definition compareSpecificity (a b : Specificity.t Z) : Z :=
  if negb (Specificity.ids a =? Specificity.ids b)
  then Specificity.ids a - Specificity.ids b
  else if negb (Specificity.classes a =? Specificity.classes b)
  then Specificity.classes a - Specificity.classes b
  else Specificity.elements a - Specificity.elements b.

(** The character classes of the fallback patterns: [[a-zA-Z]],
    [[a-zA-Z_-]] and [[\w-]]. *)
Definition isLetter (c : ascii) : bool := (JS.isUpper c || JS.isLower c)%bool.

Definition isNameStart (c : ascii) : bool :=
  (isLetter c || Ascii.eqb c "_" || Ascii.eqb c "-")%bool.

Definition isNameChar (c : ascii) : bool :=
  (isLetter c || JS.isDigit c || Ascii.eqb c "_" || Ascii.eqb c "-")%bool.

(** The next character exists and is in the class. *)
Definition nextIs (class : ascii -> bool) (s : string) : bool :=
  match s with
  | String c _ => class c
  | EmptyString => false
  end.

(** [(s.match(/P[a-zA-Z_-][\w-]*/g) || []).length] for a one-character
    [P] ([#] or [\.]): the matches are found left to right and do not
    overlap; [inMatch] says that the match found last is being
    extended. *)
Fixpoint countNames (prefix : ascii) (inMatch : bool) (s : string) : Z :=
  match s with
  | EmptyString => 0
  | String c rest =>
      if (inMatch && isNameChar c)%bool then countNames prefix true rest
      else if (Ascii.eqb c prefix && nextIs isNameStart rest)%bool
      then 1 + countNames prefix true rest
      else countNames prefix false rest
  end.

(** [/P[a-zA-Z_-][\w-]*/.test(s)] *)
Fixpoint testName (prefix : ascii) (s : string) : bool :=
  match s with
  | EmptyString => false
  | String c rest =>
      ((Ascii.eqb c prefix && nextIs isNameStart rest) || testName prefix rest)%bool
  end.

Fixpoint hasChar (c : ascii) (s : string) : bool :=
  match s with
  | EmptyString => false
  | String d rest => (Ascii.eqb d c || hasChar c rest)%bool
  end.

(** After an opening bracket: [[^\]]+\]] matches here. *)
Definition closesAttribute (s : string) : bool :=
  match s with
  | String c rest => (negb (Ascii.eqb c "]") && hasChar "]" rest)%bool
  | EmptyString => false
  end.

(** [(s.match(/\[[^\]]+\]/g) || []).length] *)
Fixpoint countAttributes (inMatch : bool) (s : string) : Z :=
  match s with
  | EmptyString => 0
  | String c rest =>
      if inMatch
      then (if Ascii.eqb c "]" then countAttributes false rest
            else countAttributes true rest)
      else if (Ascii.eqb c "[" && closesAttribute rest)%bool
      then 1 + countAttributes true rest
      else countAttributes false rest
  end.

(** [/\[[^\]]+\]/.test(s)] *)
Fixpoint testAttribute (s : string) : bool :=
  match s with
  | EmptyString => false
  | String c rest =>
      ((Ascii.eqb c "[" && closesAttribute rest) || testAttribute rest)%bool
  end.

(** The number of matches of the element pattern, a letter and then
    name characters [[a-zA-Z][\w-]*] after the start of the string or
    after a separator [(?:^|[\s>+~])]: past the start of the string a
    match begins with a separator. *)
Fixpoint countElementsFrom (inMatch : bool) (s : string) : Z :=
  match s with
  | EmptyString => 0
  | String c rest =>
      if (inMatch && isNameChar c)%bool then countElementsFrom true rest
      else if (isDepthSeparator c && nextIs isLetter rest)%bool
      then 1 + countElementsFrom true rest
      else countElementsFrom false rest
  end.

Definition countElements (s : string) : Z :=
  if nextIs isLetter s then 1 + countElementsFrom true s
  else countElementsFrom false s.

(** [/:(?!:)/.test(s)] *)
Fixpoint testSingleColon (s : string) : bool :=
  match s with
  | EmptyString => false
  | String c rest =>
      ((Ascii.eqb c ":" && negb (nextIs (Ascii.eqb ":") rest)) || testSingleColon rest)%bool
  end.

(** [value.replace(/^:+/, '')] *)
Fixpoint stripColons (s : string) : string :=
  match s with
  | String c rest => if Ascii.eqb c ":" then stripColons rest else s
  | EmptyString => EmptyString
  end.

(** The test both walks make on a pseudo node. *)
Definition isPseudoElement (node : Node.t) : bool :=
  (JS.startsWith (Node.value node) "::"
   || JS.arrayIncludes
        ["before"; "after"; "first-line"; "first-letter"; "selection"; "placeholder"]
        (stripColons (Node.value node)))%bool.

Module SelectorFlags.
(** The four flags [parseSelector] sets. *)
Record t := mk {
  hasId : bool;
  hasPseudoClass : bool;
  hasPseudoElement : bool;
  hasAttribute : bool
}.
End SelectorFlags.

Module LayerPass.
(** [layers] and [usesLayers] in the first pass of [parseCSS]. *)
Record t := mk { layers : list string; usesLayers : bool }.
End LayerPass.

Section WithParsers.
(** [processor.processSync], as above. *)
Variable processSync : string -> option Node.t.

Definition calculateSpecificity (selector : string) : Specificity.t Z :=
  match processSync selector with
  | Some selectors =>
      JS.forOf (Node.walk selectors) (Specificity.mk 0 0 0) (fun counts node =>
        let ids := Specificity.ids counts in
        let classes := Specificity.classes counts in
        let elements := Specificity.elements counts in
        match Node.type node with
        | NodeType.id => Specificity.mk (ids + 1) classes elements
        | NodeType.class | NodeType.attribute => Specificity.mk ids (classes + 1) elements
        | NodeType.pseudo =>
            (* Pseudo-elements count as elements, pseudo-classes count as classes *)
            if isPseudoElement node
            then Specificity.mk ids classes (elements + 1)
            else if negb (JS.arrayIncludes ["not"; "is"; "where"; "has"]
                            (stripColons (Node.value node)))
            then Specificity.mk ids (classes + 1) elements
            else counts
        | NodeType.tag =>
            if negb (String.eqb (Node.value node) "*")
            then Specificity.mk ids classes (elements + 1)
            else counts
        | _ => counts
        end)
  | None =>
      (* Fallback: simple regex-based estimation *)
      let ids := countNames "#" false selector in
      let classes := countNames "." false selector in
      let classes := classes + countAttributes false selector in
      let elements := countElements selector in
      Specificity.mk ids classes elements
  end.

Definition parseSelector (selectorStr : string) : ParsedSelector.t :=
  let specificity := calculateSpecificity selectorStr in
  let depth := calculateSelectorDepth processSync selectorStr in
  let flags :=
    match processSync selectorStr with
    | Some selectors =>
        JS.forOf (Node.walk selectors) (SelectorFlags.mk false false false false)
          (fun flags node =>
             let hasId := SelectorFlags.hasId flags in
             let hasPseudoClass := SelectorFlags.hasPseudoClass flags in
             let hasPseudoElement := SelectorFlags.hasPseudoElement flags in
             let hasAttribute := SelectorFlags.hasAttribute flags in
             match Node.type node with
             | NodeType.id =>
                 SelectorFlags.mk true hasPseudoClass hasPseudoElement hasAttribute
             | NodeType.attribute =>
                 SelectorFlags.mk hasId hasPseudoClass hasPseudoElement true
             | NodeType.pseudo =>
                 if isPseudoElement node
                 then SelectorFlags.mk hasId hasPseudoClass true hasAttribute
                 else SelectorFlags.mk hasId true hasPseudoElement hasAttribute
             | _ => flags
             end)
    | None =>
        (* Fallback detection using regex when parser fails *)
        {| SelectorFlags.hasId := testName "#" selectorStr;
           SelectorFlags.hasAttribute := testAttribute selectorStr;
           SelectorFlags.hasPseudoElement := JS.includes selectorStr "::";
           SelectorFlags.hasPseudoClass := testSingleColon selectorStr |}
    end in
  {| ParsedSelector.raw := selectorStr;
     ParsedSelector.depth := depth;
     ParsedSelector.specificity := specificity;
     ParsedSelector.hasId := SelectorFlags.hasId flags;
     ParsedSelector.hasPseudoClass := SelectorFlags.hasPseudoClass flags;
     ParsedSelector.hasPseudoElement := SelectorFlags.hasPseudoElement flags;
     ParsedSelector.hasAttribute := SelectorFlags.hasAttribute flags |}.

(** [postcss.parse(css, { from: filename })]: the tree, or the message
    of the error it throws. *)
Variable parse : string -> string -> Postcss.Root + string.

(** [getLayerName], on the ancestors of the rule, nearest first. *)
Fixpoint getLayerName (ancestors : list Postcss.ChildNode) : option string :=
  match ancestors with
  | [] => None
  | Postcss.AtRule name params _ :: parents =>
      if (String.eqb name "layer" && JS.truthy params)%bool
      then Some (JS.trim params)
      else getLayerName parents
  | _ :: parents => getLayerName parents
  end.

(** [processRule], as the rules it pushes. *)
Definition processRule (ancestors : list Postcss.ChildNode)
    (ruleSelectors : list string) (start : option Position.t)
    (rule : Postcss.ChildNode) (file : string) : list ParsedRule.t :=
  (* Parse each selector in the rule *)
  let selectors := map parseSelector ruleSelectors in
  (* Parse each declaration *)
  let declarations :=
    map (fun '(prop, value, important) => ParsedDeclaration.mk prop value important)
      (Postcss.walkDecls rule) in
  if Z.of_nat (length selectors) >? 0
  then
    let layer := getLayerName ancestors in
    [ {| ParsedRule.selectors := selectors;
         ParsedRule.declarations := declarations;
         ParsedRule.file := file;
         ParsedRule.line := option_map Position.line start;
         ParsedRule.column := option_map Position.column start;
         ParsedRule.layer := layer |} ]
  else [].

(** [parseCSS(css, filename = 'input.css')] *)
Definition parseCSS (css : string) (filename : option string) : ParseResult.t :=
  let filename := match filename with Some f => f | None => "input.css" end in
  match parse css filename with
  | inr message =>
      {| ParseResult.file := filename;
         ParseResult.rules := [];
         ParseResult.errors := ["Failed to parse CSS: " +:+ message];
         ParseResult.layers := [];
         ParseResult.usesLayers := false |}
  | inl root =>
      let errors : list string := [] in
      (* First pass: collect all @layer declarations *)
      let pass :=
        JS.forOf (Postcss.walkAtRules "layer" root) (LayerPass.mk [] false)
          (fun pass atRuleParams =>
             let params := JS.trim atRuleParams in
             if JS.truthy params
             then
               let layerNames :=
                 List.filter JS.truthy (map JS.trim (JS.split (Ascii.eqb ",") params)) in
               LayerPass.mk
                 (JS.forOf layerNames (LayerPass.layers pass) (fun layers name =>
                    if negb (JS.arrayIncludes layers name) then layers ++ [name]
                    else layers))
                 true
             else LayerPass.mk (LayerPass.layers pass) true) in
      (* Walk through all rules, including those inside at-rules *)
      let rules :=
        JS.forOf (Postcss.walk root) [] (fun rules '(ancestors, node) =>
          match node with
          | Postcss.Rule ruleSelectors start _ =>
              rules ++ processRule ancestors ruleSelectors start node filename
          | _ => rules
          end) in
      {| ParseResult.file := filename;
         ParseResult.rules := rules;
         ParseResult.errors := errors;
         ParseResult.layers := LayerPass.layers pass;
         ParseResult.usesLayers := LayerPass.usesLayers pass |}
  end.

(** [fs.readFile(filePath, 'utf-8')]: the content of the file, or the
    message of the error it fails with. *)
Variable readFile : string -> string + string.

Definition parseCSSFile (filePath : string) : ParseResult.t :=
  match readFile filePath with
  | inl content => parseCSS content (Some filePath)
  | inr message =>
      {| ParseResult.file := filePath;
         ParseResult.rules := [];
         ParseResult.errors := ["Failed to read file: " +:+ message];
         ParseResult.layers := [];
         ParseResult.usesLayers := false |}
  end.

(** [combineParseResults] *)
Definition combineParseResults (results : list ParseResult.t) : list ParseResult.t :=
  results.

End WithParsers.

Module PairLocation.
(** [{ file, line, selector }] *)
Record t := mk { file : string; line : option Z; selector : string }.
End PairLocation.

Module DeclarationPair.
(** [{ count, locations }] *)
Record t := mk { count : Z; locations : list PairLocation.t }.
End DeclarationPair.

Definition extractDeclarationPairs (result : ParseResult.t)
  : JS.Map.t DeclarationPair.t :=
  JS.forOf (ParseResult.rules result) [] (fun pairs rule =>
    JS.forOf (ParsedRule.declarations rule) pairs (fun pairs decl =>
      let key := ParsedDeclaration.property decl +:+ ":" +:+ ParsedDeclaration.value decl in
      let existing := JS.Map.get pairs key in
      let location :=
        {| PairLocation.file := ParsedRule.file rule;
           PairLocation.line := ParsedRule.line rule;
           PairLocation.selector :=
             JS.orElse (option_map ParsedSelector.raw (head (ParsedRule.selectors rule))) "" |} in
      match existing with
      | Some existing =>
          JS.Map.set pairs key
            (DeclarationPair.mk (DeclarationPair.count existing + 1)
               (DeclarationPair.locations existing ++ [location]))
      | None => JS.Map.set pairs key (DeclarationPair.mk 1 [location])
      end)).

End Parser.

(** ** metrics.ts *)

Module RiskyCombination.
Record t := mk { properties : list string; riskMultiplier : Q }.
End RiskyCombination.

Module Location.
(** [{ file, line, selector }] *)
Record t := mk { file : string; line : option Z; selector : string }.
End Location.

Module DeclarationGroup.
(** [{ count, locations }] *)
Record t := mk { count : Z; locations : list Location.t }.
End DeclarationGroup.

Module SelectorInfo.
(** [{ selector, file, line, specificity }] *)
Record t := mk {
  selector : string;
  file : string;
  line : option Z;
  specificity : Specificity.t Z
}.
End SelectorInfo.

Module OverrideGroup.
(** [{ property, overrideCount, selectors }] *)
Record t := mk {
  property : string;
  overrideCount : Z;
  selectors : list SelectorInfo.t
}.
End OverrideGroup.

Module Metrics.

Definition LAYOUT_PROPERTIES : gset string :=
  list_to_set [
    "width"; "height"; "min-width"; "min-height"; "max-width"; "max-height";
    "top"; "left"; "right"; "bottom";
    "margin"; "margin-top"; "margin-right"; "margin-bottom"; "margin-left";
    "padding"; "padding-top"; "padding-right"; "padding-bottom"; "padding-left";
    "display"; "position"; "float"; "clear";
    "flex"; "flex-basis"; "flex-grow"; "flex-shrink"; "flex-direction"; "flex-wrap";
    "justify-content"; "align-items"; "align-self"; "align-content"; "order";
    "grid"; "grid-template"; "grid-template-columns"; "grid-template-rows";
    "grid-template-areas"; "grid-column"; "grid-row"; "grid-area"; "grid-gap";
    "gap"; "row-gap"; "column-gap";
    "border"; "border-width"; "border-top-width"; "border-right-width";
    "border-bottom-width"; "border-left-width";
    "box-sizing"; "overflow"; "overflow-x"; "overflow-y";
    "white-space"; "word-wrap"; "word-break"; "text-overflow";
    "table-layout"; "vertical-align"; "line-height"; "font-size"; "writing-mode";
    "columns"; "column-count"; "column-width"; "column-span";
    "break-before"; "break-after"; "break-inside" ].

(** [set.has(x)] *)
Definition has (set : gset string) (x : string) : bool := bool_decide (x ∈ set).

Definition RISKY_COMBINATIONS : list RiskyCombination.t := [
  RiskyCombination.mk ["position"; "top"; "left"] (15 # 10);
  RiskyCombination.mk ["position"; "top"; "right"] (15 # 10);
  RiskyCombination.mk ["position"; "bottom"; "left"] (15 # 10);
  RiskyCombination.mk ["position"; "bottom"; "right"] (15 # 10);
  RiskyCombination.mk ["float"; "width"] (13 # 10);
  RiskyCombination.mk ["display"; "position"] (12 # 10) ].

Definition sumQ (numbers : list Q) : Q :=
  fold_left (fun sum n => (sum + n)%Q) numbers 0%Q.

Definition sumZ {A} (f : A -> Z) (xs : list A) : Z :=
  fold_left (fun sum m => sum + f m) xs 0.

Definition lengthQ {A} (xs : list A) : Q := inject_Z (Z.of_nat (length xs)).

Definition calculateAverage (numbers : list Q) : Q :=
  match numbers with
  | [] => 0%Q
  | _ => (sumQ numbers / lengthQ numbers)%Q
  end.

(** [Math.round(x * 100) / 100] *)
Definition round2 (x : Q) : Q := (inject_Z (JS.Math_round (x * 100)) / 100)%Q.

Definition calculateAverageSpecificity (specificities : list (Specificity.t Q))
  : Specificity.t Q :=
  match specificities with
  | [] => Specificity.mk 0%Q 0%Q 0%Q
  | _ =>
      let sumIds := sumQ (map Specificity.ids specificities) in
      let sumClasses := sumQ (map Specificity.classes specificities) in
      let sumElements := sumQ (map Specificity.elements specificities) in
      Specificity.mk
        (round2 (sumIds / lengthQ specificities))
        (round2 (sumClasses / lengthQ specificities))
        (round2 (sumElements / lengthQ specificities))
  end.

(** An integer specificity read as a fractional one. *)
Definition specificityQ (s : Specificity.t Z) : Specificity.t Q :=
  Specificity.mk (inject_Z (Specificity.ids s))
    (inject_Z (Specificity.classes s)) (inject_Z (Specificity.elements s)).

(** [reduce] without an initial value starts from the first element. *)
Definition findMaxSpecificity (specificities : list (Specificity.t Z))
  : Specificity.t Z :=
  match specificities with
  | [] => Specificity.mk 0 0 0
  | first :: rest =>
      fold_left
        (fun max current =>
           if Parser.compareSpecificity current max >? 0 then current else max)
        rest first
  end.

Definition countImportant (declarations : list ParsedDeclaration.t) : Z :=
  Z.of_nat (length (List.filter ParsedDeclaration.important declarations)).

Definition countImportantInRule (rule : ParsedRule.t) : Z :=
  countImportant (ParsedRule.declarations rule).

Definition calculateLayoutRiskForDeclarations
    (declarations : list ParsedDeclaration.t) : Z :=
  let presentProperties : gset string :=
    list_to_set (map ParsedDeclaration.property declarations) in
  (* Base risk from layout properties *)
  let riskScore :=
    JS.forOf declarations 0 (fun riskScore decl =>
      if has LAYOUT_PROPERTIES (ParsedDeclaration.property decl) then
        let riskScore := riskScore + 1 in
        let riskScore :=
          if (String.eqb (ParsedDeclaration.property decl) "position"
              && JS.arrayIncludes ["absolute"; "fixed"] (ParsedDeclaration.value decl))%bool
          then riskScore + 2 else riskScore in
        let riskScore :=
          if (JS.startsWith (ParsedDeclaration.property decl) "margin"
              && JS.includes (ParsedDeclaration.value decl) "-")%bool
          then riskScore + 1 else riskScore in
        riskScore
      else riskScore) in
  (* Check for risky combinations *)
  JS.forOf RISKY_COMBINATIONS riskScore (fun riskScore combo =>
    if forallb (has presentProperties) (RiskyCombination.properties combo)
    then JS.Math_round (inject_Z riskScore * RiskyCombination.riskMultiplier combo)
    else riskScore).

(** The variables the loop of [calculateFileMetrics] assigns. *)
Module FileLoop.
Record t := mk {
  totalSelectors : Z;
  totalDeclarations : Z;
  maxSelectorDepth : Z;
  importantCount : Z;
  layoutRiskScore : Z;
  allDepths : list Z;
  allSpecificities : list (Specificity.t Z)
}.
End FileLoop.

Definition calculateFileMetrics (parseResult : ParseResult.t) : FileMetrics.t :=
  let file := ParseResult.file parseResult in
  let rules := ParseResult.rules parseResult in
  let st :=
    JS.forOf rules (FileLoop.mk 0 0 0 0 0 [] []) (fun st rule =>
      let st :=
        FileLoop.mk
          (FileLoop.totalSelectors st)
          (FileLoop.totalDeclarations st
           + Z.of_nat (length (ParsedRule.declarations rule)))
          (FileLoop.maxSelectorDepth st)
          (FileLoop.importantCount st + countImportantInRule rule)
          (FileLoop.layoutRiskScore st
           + calculateLayoutRiskForDeclarations (ParsedRule.declarations rule))
          (FileLoop.allDepths st)
          (FileLoop.allSpecificities st) in
      JS.forOf (ParsedRule.selectors rule) st (fun st selector =>
        FileLoop.mk
          (FileLoop.totalSelectors st + 1)
          (FileLoop.totalDeclarations st)
          (if ParsedSelector.depth selector >? FileLoop.maxSelectorDepth st
           then ParsedSelector.depth selector
           else FileLoop.maxSelectorDepth st)
          (FileLoop.importantCount st)
          (FileLoop.layoutRiskScore st)
          (FileLoop.allDepths st ++ [ParsedSelector.depth selector])
          (FileLoop.allSpecificities st ++ [ParsedSelector.specificity selector]))) in
  {| FileMetrics.file := file;
     FileMetrics.totalRules := Z.of_nat (length rules);
     FileMetrics.totalSelectors := FileLoop.totalSelectors st;
     FileMetrics.totalDeclarations := FileLoop.totalDeclarations st;
     FileMetrics.maxSelectorDepth := FileLoop.maxSelectorDepth st;
     FileMetrics.avgSelectorDepth :=
       round2 (calculateAverage (map inject_Z (FileLoop.allDepths st)));
     FileMetrics.maxSpecificity := findMaxSpecificity (FileLoop.allSpecificities st);
     FileMetrics.avgSpecificity :=
       calculateAverageSpecificity (map specificityQ (FileLoop.allSpecificities st));
     FileMetrics.importantCount := FileLoop.importantCount st;
     FileMetrics.duplicateDeclarationCount := 0;
     FileMetrics.layoutRiskScore := FileLoop.layoutRiskScore st |}.

Definition calculateGlobalMetrics (fileMetrics : list FileMetrics.t) : GlobalMetrics.t :=
  match fileMetrics with
  | [] =>
      {| GlobalMetrics.totalFiles := 0;
         GlobalMetrics.totalRules := 0;
         GlobalMetrics.totalSelectors := 0;
         GlobalMetrics.totalDeclarations := 0;
         GlobalMetrics.maxSelectorDepth := 0;
         GlobalMetrics.avgSelectorDepth := 0%Q;
         GlobalMetrics.maxSpecificity := Specificity.mk 0 0 0;
         GlobalMetrics.avgSpecificity := Specificity.mk 0%Q 0%Q 0%Q;
         GlobalMetrics.totalImportantCount := 0;
         GlobalMetrics.totalDuplicateDeclarations := 0;
         GlobalMetrics.overallLayoutRiskScore := 0 |}
  | _ =>
      let allAvgDepths := map FileMetrics.avgSelectorDepth fileMetrics in
      let allAvgSpecificities := map FileMetrics.avgSpecificity fileMetrics in
      let allMaxSpecificities := map FileMetrics.maxSpecificity fileMetrics in
      {| GlobalMetrics.totalFiles := Z.of_nat (length fileMetrics);
         GlobalMetrics.totalRules := sumZ FileMetrics.totalRules fileMetrics;
         GlobalMetrics.totalSelectors := sumZ FileMetrics.totalSelectors fileMetrics;
         GlobalMetrics.totalDeclarations := sumZ FileMetrics.totalDeclarations fileMetrics;
         GlobalMetrics.maxSelectorDepth :=
           JS.Math_max (map FileMetrics.maxSelectorDepth fileMetrics);
         GlobalMetrics.avgSelectorDepth := round2 (calculateAverage allAvgDepths);
         GlobalMetrics.maxSpecificity := findMaxSpecificity allMaxSpecificities;
         GlobalMetrics.avgSpecificity := calculateAverageSpecificity allAvgSpecificities;
         GlobalMetrics.totalImportantCount := sumZ FileMetrics.importantCount fileMetrics;
         GlobalMetrics.totalDuplicateDeclarations :=
           sumZ FileMetrics.duplicateDeclarationCount fileMetrics;
         GlobalMetrics.overallLayoutRiskScore :=
           sumZ FileMetrics.layoutRiskScore fileMetrics |}
  end.

Definition extractTopSelectors (parseResults : list ParseResult.t) (limit : Z)
  : list TopSelector.t :=
  let selectors :=
    JS.forOf parseResults [] (fun selectors result =>
      JS.forOf (ParseResult.rules result) selectors (fun selectors rule =>
        JS.forOf (ParsedRule.selectors rule) selectors (fun selectors selector =>
          let score :=
            Parser.specificityToScore (ParsedSelector.specificity selector) * 2
            + ParsedSelector.depth selector * 3 in
          selectors ++ [
            {| TopSelector.selector := ParsedSelector.raw selector;
               TopSelector.file := ParseResult.file result;
               TopSelector.line := ParsedRule.line rule;
               TopSelector.specificity := ParsedSelector.specificity selector;
               TopSelector.depth := ParsedSelector.depth selector;
               TopSelector.score := score |} ]))) in
  (* Sort by score descending and return top N *)
  JS.slice0 limit
    (JS.sort (fun a b => TopSelector.score b - TopSelector.score a) selectors).

(** [rule.selectors[0]?.raw || ''] *)
Definition firstSelectorRaw (rule : ParsedRule.t) : string :=
  JS.orElse (option_map ParsedSelector.raw (head (ParsedRule.selectors rule))) "".

Definition detectDuplicateDeclarations
    (parseResults : list ParseResult.t) (minCount : Z)
  : JS.Map.t DeclarationGroup.t :=
  let declarationMap :=
    JS.forOf parseResults [] (fun declarationMap result =>
      JS.forOf (ParseResult.rules result) declarationMap (fun declarationMap rule =>
        JS.forOf (ParsedRule.declarations rule) declarationMap (fun declarationMap decl =>
          (* Normalize the declaration key *)
          let key :=
            ParsedDeclaration.property decl +:+ ":"
            +:+ JS.toLowerCase (JS.trim (ParsedDeclaration.value decl)) in
          let location :=
            {| Location.file := ParseResult.file result;
               Location.line := ParsedRule.line rule;
               Location.selector := firstSelectorRaw rule |} in
          match JS.Map.get declarationMap key with
          | Some existing =>
              JS.Map.set declarationMap key
                (DeclarationGroup.mk (DeclarationGroup.count existing + 1)
                   (DeclarationGroup.locations existing ++ [location]))
          | None =>
              JS.Map.set declarationMap key (DeclarationGroup.mk 1 [location])
          end))) in
  (* Filter to only include duplicates above threshold *)
  JS.forOf declarationMap [] (fun duplicates '(key, value) =>
    if DeclarationGroup.count value >=? minCount
    then JS.Map.set duplicates key value
    else duplicates).

Module Block.
(** [{ properties, occurrences }] *)
Record t := mk { properties : list string; occurrences : list Location.t }.
End Block.

(** [xs.sort()] on strings: by code units. *)
Definition sortStrings (xs : list string) : list string :=
  JS.sort (fun a b =>
             match String.compare a b with
             | Lt => -1
             | Eq => 0
             | Gt => 1
             end) xs.

(** The values [size] takes in
    [for (let size = minProperties; size <= n; size++)]. *)
Definition sizesFrom (minProperties n : Z) : list Z :=
  map (fun i => minProperties + Z.of_nat i) (seq 0 (Z.to_nat (n - minProperties + 1))).

(** [detectDuplicateBlocks(parseResults, minProperties = 3,
    minOccurrences = 2)] *)
Definition detectDuplicateBlocks
    (parseResults : list ParseResult.t) (minProperties minOccurrences : option Z)
  : list Block.t :=
  let minProperties := match minProperties with Some n => n | None => 3 end in
  let minOccurrences := match minOccurrences with Some n => n | None => 2 end in
  let blockMap :=
    JS.forOf parseResults [] (fun blockMap result =>
      JS.forOf (ParseResult.rules result) blockMap (fun blockMap rule =>
        if Z.of_nat (length (ParsedRule.declarations rule)) <? minProperties
        then blockMap
        else
          (* Create a normalized key from sorted property:value pairs *)
          let pairs :=
            sortStrings
              (map (fun d =>
                      ParsedDeclaration.property d +:+ ":"
                      +:+ JS.toLowerCase (JS.trim (ParsedDeclaration.value d)))
                 (ParsedRule.declarations rule)) in
          (* Check all combinations of minProperties or more *)
          JS.forOf (sizesFrom minProperties (Z.of_nat (length pairs))) blockMap
            (fun blockMap size =>
               let key := JS.join "|" (JS.slice0 size pairs) in
               let occurrence :=
                 {| Location.file := ParseResult.file result;
                    Location.line := ParsedRule.line rule;
                    Location.selector := firstSelectorRaw rule |} in
               let existing := JS.Map.get blockMap key in
               match existing with
               | Some existing =>
                   JS.Map.set blockMap key
                     (Block.mk (Block.properties existing)
                        (Block.occurrences existing ++ [occurrence]))
               | None =>
                   JS.Map.set blockMap key (Block.mk (JS.slice0 size pairs) [occurrence])
               end))) in
  (* Filter and return only duplicated blocks *)
  JS.sort
    (fun a b =>
       Z.of_nat (length (Block.occurrences b)) - Z.of_nat (length (Block.occurrences a)))
    (List.filter
       (fun block => Z.of_nat (length (Block.occurrences block)) >=? minOccurrences)
       (map snd blockMap)).

Definition detectOverridePressure
    (parseResults : list ParseResult.t) (minOverrides : Z)
  : JS.Map.t OverrideGroup.t :=
  let propertyMap :=
    JS.forOf parseResults [] (fun propertyMap result =>
      JS.forOf (ParseResult.rules result) propertyMap (fun propertyMap rule =>
        JS.forOf (ParsedRule.declarations rule) propertyMap (fun propertyMap decl =>
          let existing := JS.Map.get propertyMap (ParsedDeclaration.property decl) in
          let selectorInfo :=
            {| SelectorInfo.selector := firstSelectorRaw rule;
               SelectorInfo.file := ParseResult.file result;
               SelectorInfo.line := ParsedRule.line rule;
               SelectorInfo.specificity :=
                 match head (ParsedRule.selectors rule) with
                 | Some s => ParsedSelector.specificity s
                 | None => Specificity.mk 0 0 0
                 end |} in
          match existing with
          | Some existing =>
              JS.Map.set propertyMap (ParsedDeclaration.property decl)
                (OverrideGroup.mk (OverrideGroup.property existing)
                   (OverrideGroup.overrideCount existing + 1)
                   (OverrideGroup.selectors existing ++ [selectorInfo]))
          | None =>
              JS.Map.set propertyMap (ParsedDeclaration.property decl)
                (OverrideGroup.mk (ParsedDeclaration.property decl) 1 [selectorInfo])
          end))) in
  (* Filter to properties with high override count *)
  JS.forOf propertyMap [] (fun overridePressure '(key, value) =>
    if OverrideGroup.overrideCount value >=? minOverrides
    then JS.Map.set overridePressure key value
    else overridePressure).

End Metrics.

(** ** rules.ts *)

Module FileCount.
(** [{ count, rules }] *)
Record t := mk { count : Z; rules : list ParsedRule.t }.
End FileCount.

Module Rules.

(** [config.thresholds?.field ?? fallback] *)
Definition threshold (config : AnalyzerConfig.t)
    (field : Thresholds.t -> JS.Field.t Z) (fallback : Z) : Z :=
  match AnalyzerConfig.thresholds config with
  | Some thresholds =>
      match field thresholds with
      | JS.Field.value v => v
      | JS.Field.absent | JS.Field.nullish => fallback
      end
  | None => fallback
  end.

Definition getSeverityForDepth (depth maxDepth : Z) : Severity.t :=
  let excess := depth - maxDepth in
  if excess >=? 4 then Severity.critical
  else if excess >=? 2 then Severity.high
  else Severity.medium.

Definition checkDeepSelectors
    (parseResults : list ParseResult.t) (config : AnalyzerConfig.t)
  : list Issue.t :=
  let maxDepth := threshold config Thresholds.maxSelectorDepth 4 in
  JS.forOf parseResults [] (fun issues result =>
    JS.forOf (ParseResult.rules result) issues (fun issues rule =>
      JS.forOf (ParsedRule.selectors rule) issues (fun issues selector =>
        if ParsedSelector.depth selector >? maxDepth then
          let severity := getSeverityForDepth (ParsedSelector.depth selector) maxDepth in
          issues ++ [
            {| Issue.id := IssueId.DEEP_SELECTOR;
               Issue.severity := severity;
               Issue.confidence := 9 # 10;
               Issue.title :=
                 "Deeply nested selector (depth: "
                 +:+ JS.numberToString (ParsedSelector.depth selector) +:+ ")";
               Issue.why :=
                 "Selectors with depth > " +:+ JS.numberToString maxDepth
                 +:+ " are harder to maintain, increase specificity pressure, and create tight coupling to DOM structure. This selector has "
                 +:+ JS.numberToString (ParsedSelector.depth selector)
                 +:+ " levels of nesting.";
               Issue.evidence :=
                 {| Evidence.file := ParseResult.file result;
                    Evidence.selector := Some (ParsedSelector.raw selector);
                    Evidence.property := None;
                    Evidence.value := None;
                    Evidence.line := ParsedRule.line rule;
                    Evidence.column := ParsedRule.column rule;
                    Evidence.specificity := None;
                    Evidence.depth := Some (ParsedSelector.depth selector);
                    Evidence.count := None |};
               Issue.suggestions := [
                 Suggestion.mk "Flatten selector"
                   "Replace with a single class that describes the component/element purpose";
                 Suggestion.mk "Use BEM naming"
                   "Adopt BEM (Block__Element--Modifier) naming to flatten hierarchy" ];
               Issue.tags := [IssueTag.specificity; IssueTag.maintainability] |} ]
        else issues))).

Definition getSeverityForSpecificity
    (specificity : Specificity.t Z) (maxScore : Z) : Severity.t :=
  if Specificity.ids specificity >=? 2 then Severity.critical
  else if Specificity.ids specificity >=? 1 then Severity.high
  else
    let score := Parser.specificityToScore specificity in
    if score >? maxScore * 2 then Severity.high
    else if JS.Qgtb (inject_Z score) (inject_Z maxScore * (15 # 10)) then Severity.medium
    else Severity.low.

Definition formatSpecificity (specificity : Specificity.t Z) : string :=
  JS.numberToString (Specificity.ids specificity) +:+ ","
  +:+ JS.numberToString (Specificity.classes specificity) +:+ ","
  +:+ JS.numberToString (Specificity.elements specificity).

Definition checkHighSpecificity
    (parseResults : list ParseResult.t) (config : AnalyzerConfig.t)
  : list Issue.t :=
  let maxScore := threshold config Thresholds.maxSpecificityScore 40 in
  JS.forOf parseResults [] (fun issues result =>
    JS.forOf (ParseResult.rules result) issues (fun issues rule =>
      JS.forOf (ParsedRule.selectors rule) issues (fun issues selector =>
        let score := Parser.specificityToScore (ParsedSelector.specificity selector) in
        if ((score >? maxScore) || ParsedSelector.hasId selector)%bool then
          let severity :=
            getSeverityForSpecificity (ParsedSelector.specificity selector) maxScore in
          let reasons : list string := [] in
          let reasons :=
            if ParsedSelector.hasId selector
            then reasons ++ ["uses ID selector"] else reasons in
          let reasons :=
            if score >? maxScore
            then reasons ++ [
              "specificity score (" +:+ JS.numberToString score
              +:+ ") exceeds threshold (" +:+ JS.numberToString maxScore +:+ ")" ]
            else reasons in
          issues ++ [
            {| Issue.id := IssueId.HIGH_SPECIFICITY;
               Issue.severity := severity;
               Issue.confidence := 95 # 100;
               Issue.title :=
                 "High specificity selector ("
                 +:+ formatSpecificity (ParsedSelector.specificity selector) +:+ ")";
               Issue.why :=
                 "High specificity selectors " +:+ JS.join " and " reasons
                 +:+ ". This makes styles harder to override without resorting to !important or equally high specificity, leading to specificity wars.";
               Issue.evidence :=
                 {| Evidence.file := ParseResult.file result;
                    Evidence.selector := Some (ParsedSelector.raw selector);
                    Evidence.property := None;
                    Evidence.value := None;
                    Evidence.line := ParsedRule.line rule;
                    Evidence.column := ParsedRule.column rule;
                    Evidence.specificity := Some (ParsedSelector.specificity selector);
                    Evidence.depth := None;
                    Evidence.count := None |};
               Issue.suggestions :=
                 if ParsedSelector.hasId selector then [
                   Suggestion.mk "Replace ID with class"
                     "Convert #id selectors to .class selectors for lower specificity";
                   Suggestion.mk "Use data attributes"
                     ("Consider [data-component=" +:+ JS.dquote +:+ "name" +:+ JS.dquote
                      +:+ "] for JavaScript hooks instead of IDs") ]
                 else [
                   Suggestion.mk "Simplify selector"
                     "Reduce the number of classes/elements in the selector chain";
                   Suggestion.mk "Use single class"
                     "Prefer single-purpose utility classes over complex selector chains" ];
               Issue.tags :=
                 [IssueTag.specificity; IssueTag.cascade; IssueTag.maintainability] |} ]
        else issues))).

Definition getSeverityForImportantCount (count maxPerFile : Z) : Severity.t :=
  let ratio := JS.divide count maxPerFile in
  if JS.Ratio.geb ratio 4 then Severity.critical
  else if JS.Ratio.geb ratio (25 # 10) then Severity.high
  else if JS.Ratio.geb ratio (15 # 10) then Severity.medium
  else Severity.low.

Definition checkImportantAbuse
    (parseResults : list ParseResult.t) (config : AnalyzerConfig.t)
  : list Issue.t :=
  let issues : list Issue.t := [] in
  let maxPerFile := threshold config Thresholds.maxImportantPerFile 5 in
  (* Track per-file counts *)
  let fileCounts : JS.Map.t FileCount.t :=
    JS.forOf parseResults [] (fun fileCounts result =>
      JS.forOf (ParseResult.rules result) fileCounts (fun fileCounts rule =>
        let importantDecls :=
          List.filter ParsedDeclaration.important (ParsedRule.declarations rule) in
        if Z.of_nat (length importantDecls) >? 0 then
          match JS.Map.get fileCounts (ParseResult.file result) with
          | Some existing =>
              JS.Map.set fileCounts (ParseResult.file result)
                (FileCount.mk
                   (FileCount.count existing + Z.of_nat (length importantDecls))
                   (FileCount.rules existing ++ [rule]))
          | None =>
              JS.Map.set fileCounts (ParseResult.file result)
                (FileCount.mk (Z.of_nat (length importantDecls)) [rule])
          end
        else fileCounts)) in
  (* Generate issues for files exceeding threshold *)
  let issues :=
    JS.forOf fileCounts issues (fun issues '(file, entry) =>
      let count := FileCount.count entry in
      let rules := FileCount.rules entry in
      if count >? maxPerFile then
        let severity := getSeverityForImportantCount count maxPerFile in
        let firstRule := head rules in
        issues ++ [
          {| Issue.id := IssueId.IMPORTANT_ABUSE;
             Issue.severity := severity;
             Issue.confidence := 85 # 100;
             Issue.title :=
               "Excessive !important usage (" +:+ JS.numberToString count
               +:+ " occurrences)";
             Issue.why :=
               "This file contains " +:+ JS.numberToString count
               +:+ " !important declarations, exceeding the threshold of "
               +:+ JS.numberToString maxPerFile
               +:+ ". Overuse of !important indicates specificity wars and makes styles unpredictable and hard to maintain.";
             Issue.evidence :=
               {| Evidence.file := file;
                  Evidence.selector :=
                    match firstRule with
                    | Some r => option_map ParsedSelector.raw (head (ParsedRule.selectors r))
                    | None => None
                    end;
                  Evidence.property := None;
                  Evidence.value := None;
                  Evidence.line :=
                    match firstRule with
                    | Some r => ParsedRule.line r
                    | None => None
                    end;
                  Evidence.column := None;
                  Evidence.specificity := None;
                  Evidence.depth := None;
                  Evidence.count := Some count |};
             Issue.suggestions := [
               Suggestion.mk "Reduce base specificity"
                 "Lower the specificity of selectors so !important becomes unnecessary";
               Suggestion.mk "Use CSS layers"
                 "Consider @layer to establish a predictable cascade order without !important";
               Suggestion.mk "Consolidate styles"
                 "Merge competing rules into a single source of truth" ];
             Issue.tags :=
               [IssueTag.cascade; IssueTag.override; IssueTag.maintainability] |} ]
      else issues) in
  (* Also flag individual high-impact !important usages *)
  JS.forOf parseResults issues (fun issues result =>
    JS.forOf (ParseResult.rules result) issues (fun issues rule =>
      JS.forOf (ParsedRule.declarations rule) issues (fun issues decl =>
        if (ParsedDeclaration.important decl
            && Metrics.has Metrics.LAYOUT_PROPERTIES (ParsedDeclaration.property decl))%bool
        then
          issues ++ [
            {| Issue.id := IssueId.IMPORTANT_ABUSE;
               Issue.severity := Severity.medium;
               Issue.confidence := 8 # 10;
               Issue.title :=
                 "!important on layout property: " +:+ ParsedDeclaration.property decl;
               Issue.why :=
                 "Using !important on layout-affecting properties like "
                 +:+ ParsedDeclaration.property decl
                 +:+ " can cause unexpected layout behavior and makes responsive adjustments difficult.";
               Issue.evidence :=
                 {| Evidence.file := ParseResult.file result;
                    Evidence.selector :=
                      option_map ParsedSelector.raw (head (ParsedRule.selectors rule));
                    Evidence.property := Some (ParsedDeclaration.property decl);
                    Evidence.value := Some (ParsedDeclaration.value decl);
                    Evidence.line := ParsedRule.line rule;
                    Evidence.column := None;
                    Evidence.specificity := None;
                    Evidence.depth := None;
                    Evidence.count := None |};
               Issue.suggestions := [
                 Suggestion.mk "Remove !important"
                   ("Fix the cascade issue for " +:+ ParsedDeclaration.property decl
                    +:+ " instead of forcing with !important") ];
               Issue.tags := [IssueTag.cascade; IssueTag.layout_risk] |} ]
        else issues))).

Definition getSeverityForDuplicateCount (count minCount : Z) : Severity.t :=
  if count >=? minCount * 5 then Severity.high
  else if count >=? minCount * 3 then Severity.medium
  else Severity.low.

(** [s.replace(/[^a-z]/gi, '-')] *)
Definition replaceNonLetters (s : string) : string :=
  JS.mapChars (fun c => if (JS.isLower c || JS.isUpper c)%bool then c else "-"%char) s.

(** [s.replace(/[^a-z0-9]/gi, '-')] *)
Definition replaceNonAlphanumerics (s : string) : string :=
  JS.mapChars
    (fun c => if (JS.isLower c || JS.isUpper c || JS.isDigit c)%bool then c else "-"%char) s.

Definition checkDuplicateDeclarations
    (parseResults : list ParseResult.t) (config : AnalyzerConfig.t)
  : list Issue.t :=
  let minCount := threshold config Thresholds.maxDuplicateDeclarations 3 in
  let duplicates := Metrics.detectDuplicateDeclarations parseResults minCount in
  JS.forOf duplicates [] (fun issues '(declaration, group) =>
    let count := DeclarationGroup.count group in
    let locations := DeclarationGroup.locations group in
    let parts := JS.split (Ascii.eqb ":") declaration in
    let property := match head parts with Some p => p | None => "" end in
    let value := JS.orElse (Some (JS.join ":" (tail parts))) "" in
    let severity := getSeverityForDuplicateCount count minCount in
    (* a group is created with one location and only grows *)
    let firstLocation :=
      match head locations with
      | Some l => l
      | None => Location.mk "" None ""
      end in
    issues ++ [
      {| Issue.id := IssueId.DUPLICATE_DECLARATIONS;
         Issue.severity := severity;
         Issue.confidence := 75 # 100;
         Issue.title :=
           "Duplicate declaration: " +:+ property +:+ " ("
           +:+ JS.numberToString count +:+ " times)";
         Issue.why :=
           "The declaration " +:+ JS.dquote +:+ property +:+ ": " +:+ value +:+ JS.dquote
           +:+ " appears " +:+ JS.numberToString count
           +:+ " times across your CSS. This indicates potential for consolidation into a utility class or CSS custom property.";
         Issue.evidence :=
           {| Evidence.file := Location.file firstLocation;
              Evidence.selector := Some (Location.selector firstLocation);
              Evidence.property := Some property;
              Evidence.value := Some value;
              Evidence.line := Location.line firstLocation;
              Evidence.column := None;
              Evidence.specificity := None;
              Evidence.depth := None;
              Evidence.count := Some count |};
         Issue.suggestions := [
           Suggestion.mk "Create utility class"
             ("Extract to a reusable utility class like ." +:+ replaceNonLetters property
              +:+ "-" +:+ replaceNonAlphanumerics value);
           Suggestion.mk "Use CSS custom property"
             ("Define --" +:+ property +:+ ": " +:+ value
              +:+ " and reference with var(--" +:+ property +:+ ")") ];
         Issue.tags := [IssueTag.duplication; IssueTag.maintainability] |} ]).

Definition getSeverityForLayoutRisk (riskScore : Z) : Severity.t :=
  if riskScore >=? 15 then Severity.high
  else if riskScore >=? 10 then Severity.medium
  else Severity.low.

Definition checkLayoutRiskHotspot
    (parseResults : list ParseResult.t) (_config : AnalyzerConfig.t)
  : list Issue.t :=
  let riskThreshold := 5 in
  JS.forOf parseResults [] (fun issues result =>
    JS.forOf (ParseResult.rules result) issues (fun issues rule =>
      let riskScore :=
        Metrics.calculateLayoutRiskForDeclarations (ParsedRule.declarations rule) in
      if riskScore >=? riskThreshold then
        let layoutProps :=
          map ParsedDeclaration.property
            (List.filter
               (fun d => Metrics.has Metrics.LAYOUT_PROPERTIES (ParsedDeclaration.property d))
               (ParsedRule.declarations rule)) in
        let severity := getSeverityForLayoutRisk riskScore in
        let hasPositioning :=
          existsb
            (fun d =>
               (String.eqb (ParsedDeclaration.property d) "position"
                && JS.arrayIncludes ["absolute"; "fixed"] (ParsedDeclaration.value d))%bool)
            (ParsedRule.declarations rule) in
        issues ++ [
          {| Issue.id := IssueId.LAYOUT_RISK_HOTSPOT;
             Issue.severity := severity;
             Issue.confidence := 7 # 10;
             Issue.title :=
               "Layout risk hotspot (risk score: " +:+ JS.numberToString riskScore +:+ ")";
             Issue.why :=
               "This rule contains " +:+ JS.numberToString (Z.of_nat (length layoutProps))
               +:+ " layout-affecting properties"
               +:+ (if hasPositioning then " including absolute/fixed positioning" else "")
               +:+ ". Complex layout rules are fragile and can cause unexpected behavior across different viewport sizes.";
             Issue.evidence :=
               {| Evidence.file := ParseResult.file result;
                  Evidence.selector :=
                    option_map ParsedSelector.raw (head (ParsedRule.selectors rule));
                  Evidence.property := None;
                  Evidence.value := None;
                  Evidence.line := ParsedRule.line rule;
                  Evidence.column := None;
                  Evidence.specificity := None;
                  Evidence.depth := None;
                  Evidence.count := Some (Z.of_nat (length layoutProps)) |};
             Issue.suggestions :=
               if hasPositioning then [
                 Suggestion.mk "Use relative positioning"
                   "Consider using flexbox/grid with relative positioning instead of absolute";
                 Suggestion.mk "Isolate positioning"
                   "Split positioning rules from other layout properties for better maintainability" ]
               else [
                 Suggestion.mk "Simplify layout"
                   "Consider using modern layout techniques (flexbox/grid) to reduce property count";
                 Suggestion.mk "Component isolation"
                   "Ensure layout rules are scoped to specific components" ];
             Issue.tags := [IssueTag.layout_risk; IssueTag.maintainability] |} ]
      else issues)).

Definition getSeverityForOverridePressure (count variance : Z) : Severity.t :=
  if ((count >=? 15) && (variance >=? 50))%bool then Severity.high
  else if ((count >=? 10) || (variance >=? 30))%bool then Severity.medium
  else Severity.low.

Definition checkOverridePressure
    (parseResults : list ParseResult.t) (_config : AnalyzerConfig.t)
  : list Issue.t :=
  let minOverrides := 5 in
  let overridePressure := Metrics.detectOverridePressure parseResults minOverrides in
  JS.forOf overridePressure [] (fun issues '(property, group) =>
    let overrideCount := OverrideGroup.overrideCount group in
    let selectors := OverrideGroup.selectors group in
    (* Calculate specificity variance - high variance indicates specificity wars *)
    let scores :=
      map (fun s => Parser.specificityToScore (SelectorInfo.specificity s)) selectors in
    let minScore := JS.Math_min scores in
    let maxScore := JS.Math_max scores in
    let variance := maxScore - minScore in
    let severity := getSeverityForOverridePressure overrideCount variance in
    (* a group is created with one selector and only grows *)
    let firstSelector :=
      match head selectors with
      | Some s => s
      | None => SelectorInfo.mk "" "" None (Specificity.mk 0 0 0)
      end in
    issues ++ [
      {| Issue.id := IssueId.OVERRIDE_PRESSURE;
         Issue.severity := severity;
         Issue.confidence := 7 # 10;
         Issue.title :=
           "High override pressure: " +:+ property +:+ " ("
           +:+ JS.numberToString overrideCount +:+ " definitions)";
         Issue.why :=
           "The property " +:+ JS.dquote +:+ property +:+ JS.dquote +:+ " is defined "
           +:+ JS.numberToString overrideCount
           +:+ " times across different selectors with specificity ranging from "
           +:+ JS.numberToString minScore +:+ " to " +:+ JS.numberToString maxScore
           +:+ ". This suggests competing styles and potential cascade conflicts.";
         Issue.evidence :=
           {| Evidence.file := SelectorInfo.file firstSelector;
              Evidence.selector := Some (SelectorInfo.selector firstSelector);
              Evidence.property := Some property;
              Evidence.value := None;
              Evidence.line := SelectorInfo.line firstSelector;
              Evidence.column := None;
              Evidence.specificity := None;
              Evidence.depth := None;
              Evidence.count := Some overrideCount |};
         Issue.suggestions := [
           Suggestion.mk "Consolidate base styles"
             ("Define " +:+ property
              +:+ " once in a base rule and use modifiers for variations");
           Suggestion.mk "Review cascade order"
             "Ensure styles follow a logical cascade from general to specific";
           Suggestion.mk "Use CSS custom properties"
             ("Consider using --" +:+ property
              +:+ " custom property that can be overridden at component level") ];
         Issue.tags :=
           [IssueTag.cascade; IssueTag.override; IssueTag.maintainability] |} ]).

Definition getSeverityForMissingLayers (totalRules totalImportant : Z) : Severity.t :=
  if ((totalRules >=? 200) || (totalImportant >=? 20))%bool then Severity.medium
  else if ((totalRules >=? 100) || (totalImportant >=? 10))%bool then Severity.low
  else Severity.low.

(** The variables the loop of [checkMissingLayers] assigns. *)
Module LayerLoop.
Record t := mk { totalRules : Z; totalImportant : Z; filesWithManyRules : Z }.
End LayerLoop.

Definition checkMissingLayers
    (parseResults : list ParseResult.t) (_config : AnalyzerConfig.t)
  : list Issue.t :=
  let issues : list Issue.t := [] in
  (* Check if any file uses layers *)
  let anyUsesLayers := existsb ParseResult.usesLayers parseResults in
  (* Count total rules and !important usage across all files *)
  let st :=
    JS.forOf parseResults (LayerLoop.mk 0 0 0) (fun st result =>
      let totalRules :=
        LayerLoop.totalRules st + Z.of_nat (length (ParseResult.rules result)) in
      let totalImportant :=
        JS.forOf (ParseResult.rules result) (LayerLoop.totalImportant st)
          (fun totalImportant rule =>
             totalImportant
             + Z.of_nat (length (List.filter ParsedDeclaration.important
                                   (ParsedRule.declarations rule)))) in
      let filesWithManyRules :=
        if Z.of_nat (length (ParseResult.rules result)) >=? 20
        then LayerLoop.filesWithManyRules st + 1
        else LayerLoop.filesWithManyRules st in
      LayerLoop.mk totalRules totalImportant filesWithManyRules) in
  let totalRules := LayerLoop.totalRules st in
  let totalImportant := LayerLoop.totalImportant st in
  let filesWithManyRules := LayerLoop.filesWithManyRules st in
  if (negb anyUsesLayers
      && ((totalRules >=? 50) || (totalImportant >=? 5) || (filesWithManyRules >=? 3)))%bool
  then
    let severity := getSeverityForMissingLayers totalRules totalImportant in
    let firstFile :=
      match head parseResults with
      | Some r => ParseResult.file r
      | None => "unknown"
      end in
    issues ++ [
      {| Issue.id := IssueId.MISSING_LAYERS;
         Issue.severity := severity;
         Issue.confidence := 7 # 10;
         Issue.title := "CSS @layer not used for cascade management";
         Issue.why :=
           "Your CSS has " +:+ JS.numberToString totalRules +:+ " rules"
           +:+ (if totalImportant >? 0
                then " and " +:+ JS.numberToString totalImportant
                     +:+ " !important declarations"
                else "")
           +:+ ", but doesn't use @layer for cascade control. CSS Cascade Layers (@layer) provide a cleaner way to manage style precedence without specificity battles or !important.";
         Issue.evidence :=
           {| Evidence.file := firstFile;
              Evidence.selector := None;
              Evidence.property := None;
              Evidence.value := None;
              Evidence.line := None;
              Evidence.column := None;
              Evidence.specificity := None;
              Evidence.depth := None;
              Evidence.count := Some totalRules |};
         Issue.suggestions := [
           Suggestion.mk "Organize styles into layers"
             "Structure CSS with @layer reset, base, components, utilities for predictable cascade order";
           Suggestion.mk "Define layer order upfront"
             "Use @layer reset, base, components, utilities; at the top of your CSS to establish precedence";
           Suggestion.mk "Replace !important with layers"
             "Styles in later layers automatically override earlier layers without needing !important" ];
         Issue.tags := [IssueTag.cascade; IssueTag.layer; IssueTag.maintainability] |} ]
  else issues.

(** [rules.field !== false] *)
Definition enabled (rules : RuleToggles.t) (field : RuleToggles.t -> JS.Field.t bool)
  : bool :=
  match field rules with
  | JS.Field.value false => false
  | _ => true
  end.

Definition severityOrder (s : Severity.t) : Z :=
  match s with
  | Severity.critical => 0
  | Severity.high => 1
  | Severity.medium => 2
  | Severity.low => 3
  end.

Definition runAllRules
    (parseResults : list ParseResult.t) (config : AnalyzerConfig.t)
  : list Issue.t :=
  let issues : list Issue.t := [] in
  let rules :=
    match AnalyzerConfig.rules config with
    | Some rules => rules
    | None =>
        RuleToggles.mk JS.Field.absent JS.Field.absent JS.Field.absent JS.Field.absent
          JS.Field.absent JS.Field.absent JS.Field.absent
    end in
  let issues :=
    if enabled rules RuleToggles.deepSelectors
    then issues ++ checkDeepSelectors parseResults config else issues in
  let issues :=
    if enabled rules RuleToggles.highSpecificity
    then issues ++ checkHighSpecificity parseResults config else issues in
  let issues :=
    if enabled rules RuleToggles.importantAbuse
    then issues ++ checkImportantAbuse parseResults config else issues in
  let issues :=
    if enabled rules RuleToggles.duplicateDeclarations
    then issues ++ checkDuplicateDeclarations parseResults config else issues in
  let issues :=
    if enabled rules RuleToggles.layoutRiskHotspot
    then issues ++ checkLayoutRiskHotspot parseResults config else issues in
  let issues :=
    if enabled rules RuleToggles.overridePressure
    then issues ++ checkOverridePressure parseResults config else issues in
  let issues :=
    if enabled rules RuleToggles.missingLayers
    then issues ++ checkMissingLayers parseResults config else issues in
  (* Sort issues by severity (critical > high > medium > low) *)
  JS.sort
    (fun a b => severityOrder (Issue.severity a) - severityOrder (Issue.severity b))
    issues.

End Rules.

(** ** scoring.ts *)

Module Scoring.

Definition calculateOverallScore (categoryScores : CategoryScores.t) : Z :=
  let weightedSum :=
    (CategoryScores.specificity categoryScores * (3 # 10)
     + CategoryScores.cascade categoryScores * (25 # 100)
     + CategoryScores.duplication categoryScores * (2 # 10)
     + CategoryScores.layoutRisk categoryScores * (25 # 100))%Q in
  JS.Math_round (Qmin 100 (Qmax 0 weightedSum)).

Definition hasId (ids : list IssueId.t) (i : Issue.t) : bool :=
  existsb (IssueId.eqb (Issue.id i)) ids.

(** [Math.max(1, n)] *)
Definition atLeastOne (n : Z) : Q := inject_Z (Z.max 1 n).

Definition calculateSpecificityScore
    (metrics : GlobalMetrics.t) (issues : list Issue.t) : Q :=
  let score := 0%Q in
  (* Base score from average specificity *)
  let avgSpecScore := Parser.specificityToScoreQ (GlobalMetrics.avgSpecificity metrics) in
  let score := (score + Qmin 30 avgSpecScore)%Q in
  (* Penalty for max specificity *)
  let maxSpecScore := Parser.specificityToScore (GlobalMetrics.maxSpecificity metrics) in
  let score :=
    if maxSpecScore >? 100 then (score + 20)%Q
    else if maxSpecScore >? 50 then (score + 10)%Q
    else score in
  (* Penalty for deep selectors *)
  let score :=
    if GlobalMetrics.maxSelectorDepth metrics >? 6 then (score + 20)%Q
    else if GlobalMetrics.maxSelectorDepth metrics >? 4 then (score + 10)%Q
    else score in
  (* Penalty from issues *)
  let specificityIssues :=
    List.filter (hasId [IssueId.HIGH_SPECIFICITY; IssueId.DEEP_SELECTOR]) issues in
  let score := (score + inject_Z (Z.of_nat (length specificityIssues) * 2))%Q in
  Qmin 100 score.

Definition calculateCascadeScore
    (metrics : GlobalMetrics.t) (issues : list Issue.t) : Q :=
  let score := 0%Q in
  (* Penalty for !important usage *)
  let importantRatio :=
    (inject_Z (GlobalMetrics.totalImportantCount metrics)
     / atLeastOne (GlobalMetrics.totalDeclarations metrics))%Q in
  let score := (score + Qmin 40 (importantRatio * 500))%Q in
  (* Penalty from cascade-related issues *)
  let cascadeIssues :=
    List.filter (hasId [IssueId.IMPORTANT_ABUSE; IssueId.OVERRIDE_PRESSURE]) issues in
  let score :=
    JS.forOf cascadeIssues score (fun score issue =>
      match Issue.severity issue with
      | Severity.critical => score + 15
      | Severity.high => score + 10
      | Severity.medium => score + 5
      | Severity.low => score + 2
      end%Q) in
  Qmin 100 score.

Definition calculateDuplicationScore
    (metrics : GlobalMetrics.t) (issues : list Issue.t) : Q :=
  let score := 0%Q in
  (* Base score from duplicate count *)
  let duplicateRatio :=
    (inject_Z (GlobalMetrics.totalDuplicateDeclarations metrics)
     / atLeastOne (GlobalMetrics.totalDeclarations metrics))%Q in
  let score := (score + Qmin 40 (duplicateRatio * 200))%Q in
  (* Penalty from duplication issues *)
  let duplicationIssues :=
    List.filter (hasId [IssueId.DUPLICATE_DECLARATIONS]) issues in
  let score :=
    JS.forOf duplicationIssues score (fun score issue =>
      let count :=
        match Evidence.count (Issue.evidence issue) with
        | Some c => c
        | None => 0
        end in
      (score + Qmin 10 (inject_Z count / 2))%Q) in
  Qmin 100 score.

Definition calculateLayoutRiskScore
    (metrics : GlobalMetrics.t) (issues : list Issue.t) : Q :=
  let score := 0%Q in
  (* Base score from layout risk *)
  let ruleCount := atLeastOne (GlobalMetrics.totalRules metrics) in
  let avgLayoutRisk :=
    (inject_Z (GlobalMetrics.overallLayoutRiskScore metrics) / ruleCount)%Q in
  let score := (score + Qmin 40 (avgLayoutRisk * 10))%Q in
  (* Penalty from layout risk issues *)
  let layoutIssues := List.filter (hasId [IssueId.LAYOUT_RISK_HOTSPOT]) issues in
  let score :=
    JS.forOf layoutIssues score (fun score issue =>
      match Issue.severity issue with
      | Severity.high => score + 15
      | Severity.medium => score + 8
      | _ => score + 3
      end%Q) in
  Qmin 100 score.

Definition calculateCategoryScores
    (metrics : GlobalMetrics.t) (issues : list Issue.t) : CategoryScores.t :=
  {| CategoryScores.specificity := calculateSpecificityScore metrics issues;
     CategoryScores.cascade := calculateCascadeScore metrics issues;
     CategoryScores.duplication := calculateDuplicationScore metrics issues;
     CategoryScores.layoutRisk := calculateLayoutRiskScore metrics issues |}.

Definition scoreToGrade (score : Z) : Grade.t :=
  if score <=? 20 then Grade.A
  else if score <=? 40 then Grade.B
  else if score <=? 60 then Grade.C
  else if score <=? 80 then Grade.D
  else Grade.F.

Definition countIssuesBySeverity (issues : list Issue.t) : SeverityCounts.t :=
  JS.forOf issues (SeverityCounts.mk 0 0 0 0) (fun counts issue =>
    match Issue.severity issue with
    | Severity.critical =>
        SeverityCounts.mk (SeverityCounts.critical counts + 1) (SeverityCounts.high counts)
          (SeverityCounts.medium counts) (SeverityCounts.low counts)
    | Severity.high =>
        SeverityCounts.mk (SeverityCounts.critical counts) (SeverityCounts.high counts + 1)
          (SeverityCounts.medium counts) (SeverityCounts.low counts)
    | Severity.medium =>
        SeverityCounts.mk (SeverityCounts.critical counts) (SeverityCounts.high counts)
          (SeverityCounts.medium counts + 1) (SeverityCounts.low counts)
    | Severity.low =>
        SeverityCounts.mk (SeverityCounts.critical counts) (SeverityCounts.high counts)
          (SeverityCounts.medium counts) (SeverityCounts.low counts + 1)
    end).

Definition generateSummary
    (metrics : GlobalMetrics.t) (issues : list Issue.t) : Summary.t :=
  let categoryScores := calculateCategoryScores metrics issues in
  let overallScore := calculateOverallScore categoryScores in
  {| Summary.overallScore := overallScore;
     Summary.categoryScores := categoryScores;
     Summary.grade := scoreToGrade overallScore;
     Summary.totalIssues := Z.of_nat (length issues);
     Summary.issuesBySeverity := countIssuesBySeverity issues |}.

Module IssueGroups.
Record t := mk {
  highSpecificity : list Issue.t;
  deepSelectors : list Issue.t;
  importantAbuse : list Issue.t;
  overridePressure : list Issue.t;
  duplicateDeclarations : list Issue.t;
  layoutRiskHotspot : list Issue.t
}.
End IssueGroups.

Definition groupIssuesByType (issues : list Issue.t) : IssueGroups.t :=
  {| IssueGroups.highSpecificity := List.filter (hasId [IssueId.HIGH_SPECIFICITY]) issues;
     IssueGroups.deepSelectors := List.filter (hasId [IssueId.DEEP_SELECTOR]) issues;
     IssueGroups.importantAbuse := List.filter (hasId [IssueId.IMPORTANT_ABUSE]) issues;
     IssueGroups.overridePressure := List.filter (hasId [IssueId.OVERRIDE_PRESSURE]) issues;
     IssueGroups.duplicateDeclarations :=
       List.filter (hasId [IssueId.DUPLICATE_DECLARATIONS]) issues;
     IssueGroups.layoutRiskHotspot :=
       List.filter (hasId [IssueId.LAYOUT_RISK_HOTSPOT]) issues |}.

Definition priorityOrder (p : Priority.t) : Z :=
  match p with
  | Priority.high => 0
  | Priority.medium => 1
  | Priority.low => 2
  end.

Definition count {A} (xs : list A) : Z := Z.of_nat (length xs).

Definition generateRecommendations (issues : list Issue.t) : list Recommendation.t :=
  let recommendations : list Recommendation.t := [] in
  let issueGroups := groupIssuesByType issues in
  (* Specificity recommendations *)
  let recommendations :=
    if ((count (IssueGroups.highSpecificity issueGroups) >? 0)
        || (count (IssueGroups.deepSelectors issueGroups) >? 0))%bool
    then recommendations ++ [
      {| Recommendation.category := "Specificity";
         Recommendation.title := "Reduce selector complexity";
         Recommendation.description :=
           "Your CSS has high specificity selectors or deeply nested selectors. Consider adopting a flat, single-class approach like BEM or utility-first CSS.";
         Recommendation.priority :=
           if count (IssueGroups.highSpecificity issueGroups) >? 5
           then Priority.high else Priority.medium;
         Recommendation.relatedIssueIds :=
           [IssueId.HIGH_SPECIFICITY; IssueId.DEEP_SELECTOR] |} ]
    else recommendations in
  (* Cascade recommendations *)
  let recommendations :=
    if count (IssueGroups.importantAbuse issueGroups) >? 0
    then recommendations ++ [
      {| Recommendation.category := "Cascade";
         Recommendation.title := "Reduce !important usage";
         Recommendation.description :=
           "Excessive !important declarations indicate specificity wars. Establish a clear cascade hierarchy using CSS layers or lower-specificity selectors.";
         Recommendation.priority := Priority.high;
         Recommendation.relatedIssueIds := [IssueId.IMPORTANT_ABUSE] |} ]
    else recommendations in
  let recommendations :=
    if count (IssueGroups.overridePressure issueGroups) >? 0
    then recommendations ++ [
      {| Recommendation.category := "Cascade";
         Recommendation.title := "Consolidate override patterns";
         Recommendation.description :=
           "Some properties are defined many times across different selectors. Define base styles once and use modifiers for variations.";
         Recommendation.priority := Priority.medium;
         Recommendation.relatedIssueIds := [IssueId.OVERRIDE_PRESSURE] |} ]
    else recommendations in
  (* Duplication recommendations *)
  let recommendations :=
    if count (IssueGroups.duplicateDeclarations issueGroups) >? 0
    then recommendations ++ [
      {| Recommendation.category := "Duplication";
         Recommendation.title := "Extract repeated declarations";
         Recommendation.description :=
           "Multiple declarations are repeated throughout your CSS. Extract them into utility classes or CSS custom properties for better maintainability.";
         Recommendation.priority :=
           if count (IssueGroups.duplicateDeclarations issueGroups) >? 10
           then Priority.high else Priority.medium;
         Recommendation.relatedIssueIds := [IssueId.DUPLICATE_DECLARATIONS] |} ]
    else recommendations in
  (* Layout risk recommendations *)
  let recommendations :=
    if count (IssueGroups.layoutRiskHotspot issueGroups) >? 0
    then recommendations ++ [
      {| Recommendation.category := "Layout";
         Recommendation.title := "Simplify layout rules";
         Recommendation.description :=
           "Some rules contain many layout-affecting properties. Consider using modern layout techniques (flexbox/grid) and isolating positioning from other layout concerns.";
         Recommendation.priority :=
           if count (IssueGroups.layoutRiskHotspot issueGroups) >? 5
           then Priority.high else Priority.low;
         Recommendation.relatedIssueIds := [IssueId.LAYOUT_RISK_HOTSPOT] |} ]
    else recommendations in
  JS.sort
    (fun a b =>
       priorityOrder (Recommendation.priority a) - priorityOrder (Recommendation.priority b))
    recommendations.

End Scoring.

(** [AnalysisInput] *)
Module InputType.
Inductive t := file | content.
End InputType.

Module AnalysisInput.
Record t := mk {
  type : InputType.t;
  path : option string;
  content : option string;
  filename : option string
}.
End AnalysisInput.

(** ** analyzer.ts *)

Module Analyzer.

(** [{ ...defaults, ...user }], key by key: a key the user object has
    replaces the default, also when it holds [undefined] or [null]. *)
Definition spreadField {A} (default user : JS.Field.t A) : JS.Field.t A :=
  match user with
  | JS.Field.absent => default
  | JS.Field.nullish | JS.Field.value _ => user
  end.

Definition mergeConfig (userConfig : AnalyzerConfig.t) : RequiredConfig.t :=
  let defaultConfig : RequiredConfig.t :=
    {| RequiredConfig.include := ["**/*.css"];
       RequiredConfig.exclude := ["**/node_modules/**"; "**/dist/**"; "**/vendor/**"];
       RequiredConfig.thresholds :=
         {| Thresholds.maxSelectorDepth := JS.Field.value 4;
            Thresholds.maxSpecificityScore := JS.Field.value 40;
            Thresholds.maxImportantPerFile := JS.Field.value 5;
            Thresholds.maxDuplicateDeclarations := JS.Field.value 3 |};
       RequiredConfig.ignorePatterns := [];
       RequiredConfig.maxScore := JS.Number.ofInteger 100;
       RequiredConfig.rules :=
         {| RuleToggles.deepSelectors := JS.Field.value true;
            RuleToggles.highSpecificity := JS.Field.value true;
            RuleToggles.importantAbuse := JS.Field.value true;
            RuleToggles.duplicateDeclarations := JS.Field.value true;
            RuleToggles.layoutRiskHotspot := JS.Field.value true;
            RuleToggles.overridePressure := JS.Field.value true;
            RuleToggles.missingLayers := JS.Field.absent |} |} in
  (* spreading [undefined] or [null] adds no key *)
  let userThresholds :=
    match AnalyzerConfig.thresholds userConfig with
    | Some t => t
    | None => Thresholds.mk JS.Field.absent JS.Field.absent JS.Field.absent JS.Field.absent
    end in
  let userRules :=
    match AnalyzerConfig.rules userConfig with
    | Some r => r
    | None =>
        RuleToggles.mk JS.Field.absent JS.Field.absent JS.Field.absent JS.Field.absent
          JS.Field.absent JS.Field.absent JS.Field.absent
    end in
  let spreadThreshold (field : Thresholds.t -> JS.Field.t Z) :=
    spreadField (field (RequiredConfig.thresholds defaultConfig)) (field userThresholds) in
  let spreadRule (field : RuleToggles.t -> JS.Field.t bool) :=
    spreadField (field (RequiredConfig.rules defaultConfig)) (field userRules) in
  {| RequiredConfig.include :=
       match AnalyzerConfig.include userConfig with
       | Some v => v
       | None => RequiredConfig.include defaultConfig
       end;
     RequiredConfig.exclude :=
       match AnalyzerConfig.exclude userConfig with
       | Some v => v
       | None => RequiredConfig.exclude defaultConfig
       end;
     RequiredConfig.thresholds :=
       {| Thresholds.maxSelectorDepth := spreadThreshold Thresholds.maxSelectorDepth;
          Thresholds.maxSpecificityScore := spreadThreshold Thresholds.maxSpecificityScore;
          Thresholds.maxImportantPerFile := spreadThreshold Thresholds.maxImportantPerFile;
          Thresholds.maxDuplicateDeclarations :=
            spreadThreshold Thresholds.maxDuplicateDeclarations |};
     RequiredConfig.ignorePatterns :=
       match AnalyzerConfig.ignorePatterns userConfig with
       | Some v => v
       | None => RequiredConfig.ignorePatterns defaultConfig
       end;
     RequiredConfig.maxScore :=
       match AnalyzerConfig.maxScore userConfig with
       | Some v => v
       | None => RequiredConfig.maxScore defaultConfig
       end;
     RequiredConfig.rules :=
       {| RuleToggles.deepSelectors := spreadRule RuleToggles.deepSelectors;
          RuleToggles.highSpecificity := spreadRule RuleToggles.highSpecificity;
          RuleToggles.importantAbuse := spreadRule RuleToggles.importantAbuse;
          RuleToggles.duplicateDeclarations := spreadRule RuleToggles.duplicateDeclarations;
          RuleToggles.layoutRiskHotspot := spreadRule RuleToggles.layoutRiskHotspot;
          RuleToggles.overridePressure := spreadRule RuleToggles.overridePressure;
          RuleToggles.missingLayers := spreadRule RuleToggles.missingLayers |} |}.

(** [generateReport]; [now] is what [new Date().toISOString()]
    returns when the report is built. *)
Definition generateReport
    (parseResults : list ParseResult.t) (config : RequiredConfig.t) (now : string)
  : Report.t :=
  (* Calculate file metrics *)
  let fileMetrics := map Metrics.calculateFileMetrics parseResults in
  (* Calculate global metrics *)
  let globalMetrics := Metrics.calculateGlobalMetrics fileMetrics in
  (* Run all rules to find issues *)
  let issues := Rules.runAllRules parseResults (RequiredConfig.widen config) in
  (* Extract top selectors (worst offenders) *)
  let topSelectors := Metrics.extractTopSelectors parseResults 10 in
  (* Generate summary with scores *)
  let summary := Scoring.generateSummary globalMetrics issues in
  (* Generate recommendations *)
  let recommendations := Scoring.generateRecommendations issues in
  {| Report.version := "0.1.0";
     Report.timestamp := now;
     Report.summary := summary;
     Report.globalMetrics := globalMetrics;
     Report.fileMetrics := fileMetrics;
     Report.issues := issues;
     Report.topSelectors := topSelectors;
     Report.recommendations := recommendations |}.

Module ThresholdCheck.
(** [{ passed, reasons }] *)
Record t := mk { passed : bool; reasons : list string }.
End ThresholdCheck.

Section WithNumberText.
(** The text of a [maxScore] that is not an integer, as
    [JS.Number.toString] takes it. *)
Variable otherToString : Q -> string.

Definition checkThresholds (report : Report.t) (config : AnalyzerConfig.t)
  : ThresholdCheck.t :=
  let mergedConfig := mergeConfig config in
  let reasons : list string := [] in
  (* Check overall score *)
  let reasons :=
    if JS.Number.integerExceeds (Summary.overallScore (Report.summary report))
         (RequiredConfig.maxScore mergedConfig)
    then reasons ++ [
      "Overall score (" +:+ JS.numberToString (Summary.overallScore (Report.summary report))
      +:+ ") exceeds maximum allowed ("
      +:+ JS.Number.toString otherToString (RequiredConfig.maxScore mergedConfig) +:+ ")" ]
    else reasons in
  (* Check critical issues *)
  let reasons :=
    if SeverityCounts.critical (Summary.issuesBySeverity (Report.summary report)) >? 0
    then reasons ++ [
      "Found "
      +:+ JS.numberToString
            (SeverityCounts.critical (Summary.issuesBySeverity (Report.summary report)))
      +:+ " critical issue(s)" ]
    else reasons in
  {| ThresholdCheck.passed := Nat.eqb (length reasons) 0;
     ThresholdCheck.reasons := reasons |}.
End WithNumberText.

Section WithParsers.
(** The selector parser, [postcss.parse] and [fs.readFile], as in
    parser.ts. *)
Variable processSync : string -> option Node.t.
Variable parse : string -> string -> Postcss.Root + string.
Variable readFile : string -> string + string.

(** [parseFiles] *)
Definition parseFiles (filePaths : list string) : list ParseResult.t :=
  JS.forOf filePaths [] (fun results filePath =>
    let result := Parser.parseCSSFile processSync parse readFile filePath in
    results ++ [result]).

(** [filename ?? 'input.css'] *)
Definition orInputCss (filename : option string) : string :=
  match filename with Some f => f | None => "input.css" end.

(** [parseContent] *)
Definition parseContent (content : string) (filename : option string) : ParseResult.t :=
  Parser.parseCSS processSync parse content (Some (orInputCss filename)).

(** [config: AnalyzerConfig = {}] *)
Definition orEmpty (config : option AnalyzerConfig.t) : AnalyzerConfig.t :=
  match config with Some c => c | None => AnalyzerConfig.empty end.

(** [analyze]; [now] as in [generateReport]. *)
Definition analyze (inputs : list AnalysisInput.t) (config : option AnalyzerConfig.t)
    (now : string) : Report.t :=
  let mergedConfig := mergeConfig (orEmpty config) in
  let parseResults :=
    JS.forOf inputs [] (fun parseResults input =>
      match AnalysisInput.type input with
      | InputType.file =>
          match AnalysisInput.path input with
          | Some path =>
              if JS.truthy path
              then
                let result := Parser.parseCSSFile processSync parse readFile path in
                parseResults ++ [result]
              else parseResults
          | None => parseResults
          end
      | InputType.content =>
          match AnalysisInput.content input with
          | Some content =>
              if JS.truthy content
              then
                let result :=
                  Parser.parseCSS processSync parse content
                    (Some (orInputCss (AnalysisInput.filename input))) in
                parseResults ++ [result]
              else parseResults
          | None => parseResults
          end
      end) in
  generateReport parseResults mergedConfig now.

(** [analyzeCSS] *)
Definition analyzeCSS (css : string) (config : option AnalyzerConfig.t)
    (filename : option string) (now : string) : Report.t :=
  let mergedConfig := mergeConfig (orEmpty config) in
  let parseResult := Parser.parseCSS processSync parse css (Some (orInputCss filename)) in
  generateReport [parseResult] mergedConfig now.

End WithParsers.

End Analyzer.

(** * What the specification says, as definitions

    The definitions below follow the words of the specification (or
    name a step of the code); the theorems compare the code with them. *)

(** The lexicographic order on (ids, classes, elements), most
    significant field first. *)
Definition lexLe (a b : Specificity.t Z) : Prop :=
  Specificity.ids a < Specificity.ids b
  \/ (Specificity.ids a = Specificity.ids b
      /\ (Specificity.classes a < Specificity.classes b
          \/ (Specificity.classes a = Specificity.classes b
              /\ Specificity.elements a <= Specificity.elements b))).

(** The body of the [reduce] in [findMaxSpecificity]. *)
Definition maxStep (max current : Specificity.t Z) : Specificity.t Z :=
  if Parser.compareSpecificity current max >? 0 then current else max.

(** The combinator tokens at the top level of a selector: those among
    the nodes of the selectors the root holds. *)
Definition countCombinators (ns : list Node.t) : Z :=
  Z.of_nat (length (List.filter Parser.isCombinator ns)).

Definition topLevelCombinators (root : Node.t) : Z :=
  countCombinators (flat_map Node.nodes (Node.nodes root)).

(** A node below another, at any depth. *)
Inductive Descendant : Node.t -> Node.t -> Prop :=
| Descendant_child d n : In d (Node.nodes n) -> Descendant d n
| Descendant_deeper d c n : In c (Node.nodes n) -> Descendant d c -> Descendant d n.

(** The tree of [.x:not(.a .b)]: no combinator at the top level, one
    inside the argument of [:not]. *)
Definition notArgumentTree : Node.t :=
  Node.mk NodeType.root "" [
    Node.mk NodeType.selector "" [
      Node.mk NodeType.class "x" [];
      Node.mk NodeType.pseudo ":not" [
        Node.mk NodeType.selector "" [
          Node.mk NodeType.class "a" [];
          Node.mk NodeType.combinator " " [];
          Node.mk NodeType.class "b" [] ] ] ] ].

(** A parser that knows this one selector. *)
Definition notArgumentParser (selector : string) : option Node.t :=
  if String.eqb selector ".x:not(.a .b)" then Some notArgumentTree else None.

(** The additive pass of the layout-risk score: what one declaration
    adds. *)
Definition layoutRiskOf (d : ParsedDeclaration.t) : Z :=
  if Metrics.has Metrics.LAYOUT_PROPERTIES (ParsedDeclaration.property d) then
    1
    + (if (String.eqb (ParsedDeclaration.property d) "position"
           && (String.eqb (ParsedDeclaration.value d) "absolute"
               || String.eqb (ParsedDeclaration.value d) "fixed"))%bool
       then 2 else 0)
    + (if (JS.startsWith (ParsedDeclaration.property d) "margin"
           && JS.includes (ParsedDeclaration.value d) "-")%bool
       then 1 else 0)
  else 0.

Fixpoint additivePass (declarations : list ParsedDeclaration.t) : Z :=
  match declarations with
  | [] => 0
  | d :: rest => layoutRiskOf d + additivePass rest
  end.

(** Every property of the combination is the property of some
    declaration. *)
Definition combinationPresent
    (declarations : list ParsedDeclaration.t) (combo : RiskyCombination.t) : bool :=
  forallb
    (fun p => existsb (fun d => String.eqb (ParsedDeclaration.property d) p) declarations)
    (RiskyCombination.properties combo).

(** The combinations that apply, one after the other, each on the
    rounded total the one before left. *)
Fixpoint applyCombinations
    (declarations : list ParsedDeclaration.t) (combos : list RiskyCombination.t)
    (total : Z) : Z :=
  match combos with
  | [] => total
  | combo :: rest =>
      applyCombinations declarations rest
        (if combinationPresent declarations combo
         then JS.Math_round (inject_Z total * RiskyCombination.riskMultiplier combo)
         else total)
  end.

(** A selector as it occurs in the input: in a rule of a file. *)
Module Occurrence.
Record t := mk {
  result : ParseResult.t;
  rule : ParsedRule.t;
  selector : ParsedSelector.t
}.
End Occurrence.

(** The selector occurrences of the input, in source order. *)
Definition occurrences (parseResults : list ParseResult.t) : list Occurrence.t :=
  flat_map
    (fun result =>
       flat_map
         (fun rule => map (Occurrence.mk result rule) (ParsedRule.selectors rule))
         (ParseResult.rules result))
    parseResults.

(** The configured [maxSelectorDepth], 4 when the configuration gives
    none. *)
Definition configuredMaxSelectorDepth (config : AnalyzerConfig.t) : Z :=
  match AnalyzerConfig.thresholds config with
  | Some thresholds =>
      match Thresholds.maxSelectorDepth thresholds with
      | JS.Field.value depth => depth
      | JS.Field.absent | JS.Field.nullish => 4
      end
  | None => 4
  end.

Definition isDeep (maxDepth : Z) (o : Occurrence.t) : bool :=
  ParsedSelector.depth (Occurrence.selector o) >? maxDepth.

(** Severity by excess = depth - threshold. *)
Definition severityForExcess (excess : Z) : Severity.t :=
  if excess >=? 4 then Severity.critical
  else if excess >=? 2 then Severity.high
  else Severity.medium.

(** What identifies a deep-selector issue: its id, its severity and
    the file, selector, position and depth in its evidence. *)
Definition deepSelectorFacts (i : Issue.t)
  : IssueId.t * Severity.t * string * option string * option Z * option Z * option Z :=
  (Issue.id i, Issue.severity i,
   Evidence.file (Issue.evidence i), Evidence.selector (Issue.evidence i),
   Evidence.line (Issue.evidence i), Evidence.column (Issue.evidence i),
   Evidence.depth (Issue.evidence i)).

Definition expectedDeepSelectorFacts (maxDepth : Z) (o : Occurrence.t)
  : IssueId.t * Severity.t * string * option string * option Z * option Z * option Z :=
  (IssueId.DEEP_SELECTOR,
   severityForExcess (ParsedSelector.depth (Occurrence.selector o) - maxDepth),
   ParseResult.file (Occurrence.result o),
   Some (ParsedSelector.raw (Occurrence.selector o)),
   ParsedRule.line (Occurrence.rule o), ParsedRule.column (Occurrence.rule o),
   Some (ParsedSelector.depth (Occurrence.selector o))).

(** The parse result of [selector { color: red; }] in [input.css],
    for a selector that is a chain of [depth] classes. *)
Definition classChainFile (selector : string) (depth : Z) : ParseResult.t :=
  {| ParseResult.file := "input.css";
     ParseResult.rules := [
       {| ParsedRule.selectors := [
            {| ParsedSelector.raw := selector;
               ParsedSelector.depth := depth;
               ParsedSelector.specificity := Specificity.mk 0 depth 0;
               ParsedSelector.hasId := false;
               ParsedSelector.hasPseudoClass := false;
               ParsedSelector.hasPseudoElement := false;
               ParsedSelector.hasAttribute := false |} ];
          ParsedRule.declarations := [ParsedDeclaration.mk "color" "red" false];
          ParsedRule.file := "input.css";
          ParsedRule.line := Some 1;
          ParsedRule.column := Some 1;
          ParsedRule.layer := None |} ];
     ParseResult.errors := [];
     ParseResult.layers := [];
     ParseResult.usesLayers := false |}.

Definition depth5File : ParseResult.t := classChainFile ".a .b .c .d .e" 5.
Definition depth8File : ParseResult.t := classChainFile ".a .b .c .d .e .f .g .h" 8.

(** The configuration the analysis runs with when the user gives none. *)
Definition defaultRunConfig : AnalyzerConfig.t :=
  RequiredConfig.widen (Analyzer.mergeConfig AnalyzerConfig.empty).

Definition isDeepSelectorIssue (i : Issue.t) : bool :=
  IssueId.eqb (Issue.id i) IssueId.DEEP_SELECTOR.

(** The counts of the missing-layers rule. *)
Fixpoint sumList (xs : list Z) : Z :=
  match xs with
  | [] => 0
  | x :: rest => x + sumList rest
  end.

Definition rulesIn (result : ParseResult.t) : Z :=
  Z.of_nat (length (ParseResult.rules result)).

Definition importantIn (result : ParseResult.t) : Z :=
  sumList (map (fun rule => Metrics.countImportant (ParsedRule.declarations rule))
             (ParseResult.rules result)).

Definition totalRulesOf (parseResults : list ParseResult.t) : Z :=
  sumList (map rulesIn parseResults).

Definition totalImportantOf (parseResults : list ParseResult.t) : Z :=
  sumList (map importantIn parseResults).

Definition filesWithManyRulesOf (parseResults : list ParseResult.t) : Z :=
  Z.of_nat (length (List.filter (fun result => rulesIn result >=? 20) parseResults)).

(** A file of [n] rules [.a { color: red; }]. *)
Definition plainFile (n : nat) (usesLayers : bool) : ParseResult.t :=
  {| ParseResult.file := "input.css";
     ParseResult.rules := repeat
       {| ParsedRule.selectors := [
            {| ParsedSelector.raw := ".a";
               ParsedSelector.depth := 1;
               ParsedSelector.specificity := Specificity.mk 0 1 0;
               ParsedSelector.hasId := false;
               ParsedSelector.hasPseudoClass := false;
               ParsedSelector.hasPseudoElement := false;
               ParsedSelector.hasAttribute := false |} ];
          ParsedRule.declarations := [ParsedDeclaration.mk "color" "red" false];
          ParsedRule.file := "input.css";
          ParsedRule.line := Some 1;
          ParsedRule.column := Some 1;
          ParsedRule.layer := if usesLayers then Some "base" else None |} n;
     ParseResult.errors := [];
     ParseResult.layers := if usesLayers then ["base"] else [];
     ParseResult.usesLayers := usesLayers |}.



(** The score is not above [maxScore]: it is at most [maxScore], or
    [maxScore] is [NaN], which nothing is above. *)
Definition notAbove (score : Z) (maxScore : JS.Number.t) : Prop :=
  match maxScore with
  | JS.Number.Finite q => (inject_Z score <= q)%Q
  | JS.Number.PosInfinity | JS.Number.NaN => True
  | JS.Number.NegInfinity => False
  end.

(** The key of the user's thresholds: absent when there are no user
    thresholds. *)
Definition userThreshold (userConfig : AnalyzerConfig.t)
    (field : Thresholds.t -> JS.Field.t Z) : JS.Field.t Z :=
  match AnalyzerConfig.thresholds userConfig with
  | Some thresholds => field thresholds
  | None => JS.Field.absent
  end.

(** What a detector reads from the merged configuration. *)
Definition thresholdAfterMerge (userConfig : AnalyzerConfig.t)
    (field : Thresholds.t -> JS.Field.t Z) (default fallback : Z) : Z :=
  match userThreshold userConfig field with
  | JS.Field.value v => v
  | JS.Field.absent => default
  | JS.Field.nullish => fallback
  end.









(** A rendering of fractions, for the examples (none of them prints
    one). *)
Definition fractionText (q : Q) : string := "".

(** The entry of the worst-offenders list for a selector occurrence. *)
Definition topSelectorOf (o : Occurrence.t) : TopSelector.t :=
  {| TopSelector.selector := ParsedSelector.raw (Occurrence.selector o);
     TopSelector.file := ParseResult.file (Occurrence.result o);
     TopSelector.line := ParsedRule.line (Occurrence.rule o);
     TopSelector.specificity := ParsedSelector.specificity (Occurrence.selector o);
     TopSelector.depth := ParsedSelector.depth (Occurrence.selector o);
     TopSelector.score :=
       2 * (100 * Specificity.ids (ParsedSelector.specificity (Occurrence.selector o))
            + 10 * Specificity.classes (ParsedSelector.specificity (Occurrence.selector o))
            + Specificity.elements (ParsedSelector.specificity (Occurrence.selector o)))
       + 3 * ParsedSelector.depth (Occurrence.selector o) |}.

(** The score of an entry recomputed from its own specificity and depth. *)
Definition scoreFormula (t : TopSelector.t) : Z :=
  2 * (100 * Specificity.ids (TopSelector.specificity t)
       + 10 * Specificity.classes (TopSelector.specificity t)
       + Specificity.elements (TopSelector.specificity t))
  + 3 * TopSelector.depth t.

Definition scoreNotBelow (a b : TopSelector.t) : Prop :=
  TopSelector.score a >= TopSelector.score b.

(** Two files, three selectors of different scores. *)
Definition twoFiles : list ParseResult.t :=
  [classChainFile ".a" 1; depth8File; depth5File].

(** The order a comparator stands for: [x] may come before [y]. *)
Definition before {A} (cmp : A -> A -> Z) (x y : A) : Prop := cmp x y <= 0.

(** * Further definitions, for the properties of the rest of the code *)

(** A rule as it occurs in the input: in a file. *)
Module RuleOccurrence.
Record t := mk { result : ParseResult.t; rule : ParsedRule.t }.
End RuleOccurrence.

Definition ruleOccurrences (parseResults : list ParseResult.t) : list RuleOccurrence.t :=
  flat_map
    (fun result => map (RuleOccurrence.mk result) (ParseResult.rules result))
    parseResults.

(** A declaration as it occurs in the input: in a rule of a file. *)
Module DeclOccurrence.
Record t := mk {
  result : ParseResult.t;
  rule : ParsedRule.t;
  declaration : ParsedDeclaration.t
}.
End DeclOccurrence.

Definition declOccurrences (parseResults : list ParseResult.t) : list DeclOccurrence.t :=
  flat_map
    (fun result =>
       flat_map
         (fun rule => map (DeclOccurrence.mk result rule) (ParsedRule.declarations rule))
         (ParseResult.rules result))
    parseResults.

(** The selectors of a file, rule after rule. *)
Definition selectorsOf (result : ParseResult.t) : list ParsedSelector.t :=
  flat_map ParsedRule.selectors (ParseResult.rules result).

Definition declarationsIn (result : ParseResult.t) : Z :=
  sumList (map (fun rule => Z.of_nat (length (ParsedRule.declarations rule)))
             (ParseResult.rules result)).

Definition layoutRiskIn (result : ParseResult.t) : Z :=
  sumList (map (fun rule =>
                  Metrics.calculateLayoutRiskForDeclarations (ParsedRule.declarations rule))
             (ParseResult.rules result)).

Definition isLayoutDeclaration (d : ParsedDeclaration.t) : bool :=
  Metrics.has Metrics.LAYOUT_PROPERTIES (ParsedDeclaration.property d).

(** The metrics the report holds for a list of parse results. *)
Definition globalMetricsOf (parseResults : list ParseResult.t) : GlobalMetrics.t :=
  Metrics.calculateGlobalMetrics (map Metrics.calculateFileMetrics parseResults).

Definition isImportantOccurrence (o : DeclOccurrence.t) : bool :=
  ParsedDeclaration.important (DeclOccurrence.declaration o).

Definition layoutDeclarations (declarations : list ParsedDeclaration.t)
  : list ParsedDeclaration.t :=
  List.filter isLayoutDeclaration declarations.

(** A rule with absolute positioning and offsets, and the same
    declarations in another order. *)
Definition positionedDeclarations : list ParsedDeclaration.t :=
  [ParsedDeclaration.mk "position" "absolute" false;
   ParsedDeclaration.mk "top" "0" false;
   ParsedDeclaration.mk "color" "red" false;
   ParsedDeclaration.mk "left" "0" false].

Definition positionedDeclarationsReordered : list ParsedDeclaration.t :=
  [ParsedDeclaration.mk "left" "0" false;
   ParsedDeclaration.mk "color" "red" false;
   ParsedDeclaration.mk "top" "0" false;
   ParsedDeclaration.mk "position" "absolute" false].

(** Grouping by a string key, as the maps of the code do it: the keys
    in the order of their first occurrence, and with each key a
    summary of the items that have it, in the order they come. *)
Fixpoint firstKeys (keys : list string) : list string :=
  match keys with
  | [] => []
  | k :: rest => k :: List.filter (fun k' => negb (String.eqb k' k)) (firstKeys rest)
  end.

Definition withKey {X} (keyOf : X -> string) (k : string) (xs : list X) : list X :=
  List.filter (fun x => String.eqb (keyOf x) k) xs.

Definition groupsBy {X V} (keyOf : X -> string) (summary : list X -> V) (xs : list X)
  : JS.Map.t V :=
  map (fun k => (k, summary (withKey keyOf k xs))) (firstKeys (map keyOf xs)).

(** The step of the loops that fill a map: update the entry of the
    key when there is one, make it otherwise. *)
Definition upsert {X V} (keyOf : X -> string) (init : X -> V) (update : V -> X -> V)
    (m : JS.Map.t V) (x : X) : JS.Map.t V :=
  match JS.Map.get m (keyOf x) with
  | Some existing => JS.Map.set m (keyOf x) (update existing x)
  | None => JS.Map.set m (keyOf x) (init x)
  end.

Definition keysOf {V} (m : JS.Map.t V) : list string := map fst m.

(** The key of a declaration in the duplicate detection: its property
    and its value, trimmed and in lower case. *)
Definition declarationKey (o : DeclOccurrence.t) : string :=
  ParsedDeclaration.property (DeclOccurrence.declaration o) +:+ ":"
  +:+ JS.toLowerCase (JS.trim (ParsedDeclaration.value (DeclOccurrence.declaration o))).

Definition locationOf (o : DeclOccurrence.t) : Location.t :=
  {| Location.file := ParseResult.file (DeclOccurrence.result o);
     Location.line := ParsedRule.line (DeclOccurrence.rule o);
     Location.selector := Metrics.firstSelectorRaw (DeclOccurrence.rule o) |}.

Definition declarationGroup (os : list DeclOccurrence.t) : DeclarationGroup.t :=
  DeclarationGroup.mk (Z.of_nat (length os)) (map locationOf os).

(** The configured [maxDuplicateDeclarations], 3 when the
    configuration gives none. *)
Definition configuredMinDuplicates (config : AnalyzerConfig.t) : Z :=
  match AnalyzerConfig.thresholds config with
  | Some thresholds =>
      match Thresholds.maxDuplicateDeclarations thresholds with
      | JS.Field.value n => n
      | JS.Field.absent | JS.Field.nullish => 3
      end
  | None => 3
  end.

(** A key up to its first colon, and after it. *)
Fixpoint beforeColon (s : string) : string :=
  match s with
  | EmptyString => EmptyString
  | String c s' => if Ascii.eqb ":" c then EmptyString else String c (beforeColon s')
  end.

Fixpoint afterColon (s : string) : string :=
  match s with
  | EmptyString => EmptyString
  | String c s' => if Ascii.eqb ":" c then s' else afterColon s'
  end.

Fixpoint hasColon (s : string) : bool :=
  match s with
  | EmptyString => false
  | String c s' => (Ascii.eqb ":" c || hasColon s')%bool
  end.

Definition severityForDuplicates (count minCount : Z) : Severity.t :=
  if count >=? 5 * minCount then Severity.high
  else if count >=? 3 * minCount then Severity.medium
  else Severity.low.

Definition duplicateFacts (i : Issue.t)
  : IssueId.t * Severity.t * string * option string * option Z
    * option string * option string * option Z :=
  (Issue.id i, Issue.severity i,
   Evidence.file (Issue.evidence i), Evidence.selector (Issue.evidence i),
   Evidence.line (Issue.evidence i),
   Evidence.property (Issue.evidence i), Evidence.value (Issue.evidence i),
   Evidence.count (Issue.evidence i)).

Definition expectedDuplicateFacts (minCount : Z) (key : string)
    (os : list DeclOccurrence.t)
  : IssueId.t * Severity.t * string * option string * option Z
    * option string * option string * option Z :=
  let first :=
    match os with
    | o :: _ => locationOf o
    | [] => Location.mk "" None ""
    end in
  (IssueId.DUPLICATE_DECLARATIONS,
   severityForDuplicates (Z.of_nat (length os)) minCount,
   Location.file first, Some (Location.selector first), Location.line first,
   Some (beforeColon key), Some (afterColon key),
   Some (Z.of_nat (length os))).

(** The declarations of the input that have a key, and the keys that
    occur often enough, in the order of their first occurrence. *)
Definition declarationsWithKey (parseResults : list ParseResult.t) (key : string)
  : list DeclOccurrence.t :=
  withKey declarationKey key (declOccurrences parseResults).

Definition duplicatedKeys (parseResults : list ParseResult.t) (minCount : Z)
  : list string :=
  List.filter
    (fun key => Z.of_nat (length (declarationsWithKey parseResults key)) >=? minCount)
    (firstKeys (map declarationKey (declOccurrences parseResults))).

(** Three rules that each declare [color: red], the value written in
    three ways. *)
Definition redRule (selector value : string) : ParsedRule.t :=
  {| ParsedRule.selectors := [
       {| ParsedSelector.raw := selector;
          ParsedSelector.depth := 1;
          ParsedSelector.specificity := Specificity.mk 0 1 0;
          ParsedSelector.hasId := false;
          ParsedSelector.hasPseudoClass := false;
          ParsedSelector.hasPseudoElement := false;
          ParsedSelector.hasAttribute := false |} ];
     ParsedRule.declarations := [ParsedDeclaration.mk "color" value false];
     ParsedRule.file := "input.css";
     ParsedRule.line := Some 1;
     ParsedRule.column := Some 1;
     ParsedRule.layer := None |}.

Definition threeReds : list ParseResult.t :=
  [ {| ParseResult.file := "input.css";
       ParseResult.rules := [redRule ".a" "red"; redRule ".b" " RED"; redRule ".c" "Red "];
       ParseResult.errors := [];
       ParseResult.layers := [];
       ParseResult.usesLayers := false |} ].

Definition redOccurrence : DeclOccurrence.t :=
  DeclOccurrence.mk
    {| ParseResult.file := "input.css";
       ParseResult.rules := [redRule ".b" " RED"];
       ParseResult.errors := [];
       ParseResult.layers := [];
       ParseResult.usesLayers := false |}
    (redRule ".b" " RED") (ParsedDeclaration.mk "color" " RED" false).

(** Override pressure: the declarations grouped by property. *)
Definition propertyOfOccurrence (o : DeclOccurrence.t) : string :=
  ParsedDeclaration.property (DeclOccurrence.declaration o).

Definition selectorInfoOf (o : DeclOccurrence.t) : SelectorInfo.t :=
  {| SelectorInfo.selector := Metrics.firstSelectorRaw (DeclOccurrence.rule o);
     SelectorInfo.file := ParseResult.file (DeclOccurrence.result o);
     SelectorInfo.line := ParsedRule.line (DeclOccurrence.rule o);
     SelectorInfo.specificity :=
       match head (ParsedRule.selectors (DeclOccurrence.rule o)) with
       | Some s => ParsedSelector.specificity s
       | None => Specificity.mk 0 0 0
       end |}.

Definition overrideGroup (os : list DeclOccurrence.t) : OverrideGroup.t :=
  OverrideGroup.mk
    (match os with
     | o :: _ => propertyOfOccurrence o
     | [] => ""
     end)
    (Z.of_nat (length os)) (map selectorInfoOf os).

Definition declarationsOfProperty (parseResults : list ParseResult.t) (property : string)
  : list DeclOccurrence.t :=
  withKey propertyOfOccurrence property (declOccurrences parseResults).

Definition overriddenProperties (parseResults : list ParseResult.t) (minOverrides : Z)
  : list string :=
  List.filter
    (fun property =>
       Z.of_nat (length (declarationsOfProperty parseResults property)) >=? minOverrides)
    (firstKeys (map propertyOfOccurrence (declOccurrences parseResults))).

(** The scalar scores of the first selectors of the rules that define
    a property, and their range. *)
Definition definingScores (os : list DeclOccurrence.t) : list Z :=
  map (fun o => Parser.specificityToScore (SelectorInfo.specificity (selectorInfoOf o))) os.

Definition scoreRange (os : list DeclOccurrence.t) : Z :=
  JS.Math_max (definingScores os) - JS.Math_min (definingScores os).

Definition overrideFacts (i : Issue.t)
  : IssueId.t * Severity.t * string * option string * option Z
    * option string * option Z :=
  (Issue.id i, Issue.severity i,
   Evidence.file (Issue.evidence i), Evidence.selector (Issue.evidence i),
   Evidence.line (Issue.evidence i),
   Evidence.property (Issue.evidence i), Evidence.count (Issue.evidence i)).

Definition expectedOverrideFacts (property : string) (os : list DeclOccurrence.t)
  : IssueId.t * Severity.t * string * option string * option Z
    * option string * option Z :=
  let first :=
    match os with
    | o :: _ => selectorInfoOf o
    | [] => SelectorInfo.mk "" "" None (Specificity.mk 0 0 0)
    end in
  (IssueId.OVERRIDE_PRESSURE,
   Rules.getSeverityForOverridePressure (Z.of_nat (length os)) (scoreRange os),
   SelectorInfo.file first, Some (SelectorInfo.selector first), SelectorInfo.line first,
   Some property, Some (Z.of_nat (length os))).

(** High specificity. *)
Definition configuredMaxSpecificityScore (config : AnalyzerConfig.t) : Z :=
  match AnalyzerConfig.thresholds config with
  | Some thresholds =>
      match Thresholds.maxSpecificityScore thresholds with
      | JS.Field.value score => score
      | JS.Field.absent | JS.Field.nullish => 40
      end
  | None => 40
  end.

Definition isHighSpecificity (maxScore : Z) (o : Occurrence.t) : bool :=
  ((Parser.specificityToScore (ParsedSelector.specificity (Occurrence.selector o))
    >? maxScore)
   || ParsedSelector.hasId (Occurrence.selector o))%bool.

(** Severity from the ids and the scalar score, in integers: twice the
    score against three times the threshold stands for 1.5 times. *)
Definition severityForSpecificity (specificity : Specificity.t Z) (maxScore : Z)
  : Severity.t :=
  if Specificity.ids specificity >=? 2 then Severity.critical
  else if Specificity.ids specificity >=? 1 then Severity.high
  else if Parser.specificityToScore specificity >? 2 * maxScore then Severity.high
  else if 2 * Parser.specificityToScore specificity >? 3 * maxScore then Severity.medium
  else Severity.low.

Definition specificityFacts (i : Issue.t)
  : IssueId.t * Severity.t * string * option string * option Z * option Z
    * option (Specificity.t Z) :=
  (Issue.id i, Issue.severity i,
   Evidence.file (Issue.evidence i), Evidence.selector (Issue.evidence i),
   Evidence.line (Issue.evidence i), Evidence.column (Issue.evidence i),
   Evidence.specificity (Issue.evidence i)).

Definition expectedSpecificityFacts (maxScore : Z) (o : Occurrence.t)
  : IssueId.t * Severity.t * string * option string * option Z * option Z
    * option (Specificity.t Z) :=
  (IssueId.HIGH_SPECIFICITY,
   severityForSpecificity (ParsedSelector.specificity (Occurrence.selector o)) maxScore,
   ParseResult.file (Occurrence.result o),
   Some (ParsedSelector.raw (Occurrence.selector o)),
   ParsedRule.line (Occurrence.rule o), ParsedRule.column (Occurrence.rule o),
   Some (ParsedSelector.specificity (Occurrence.selector o))).

(** Layout risk hotspots. *)
Definition riskOf (o : RuleOccurrence.t) : Z :=
  Metrics.calculateLayoutRiskForDeclarations
    (ParsedRule.declarations (RuleOccurrence.rule o)).

Definition isHotspot (o : RuleOccurrence.t) : bool := riskOf o >=? 5.

Definition severityForRisk (risk : Z) : Severity.t :=
  if risk >=? 15 then Severity.high
  else if risk >=? 10 then Severity.medium
  else Severity.low.

Definition hotspotFacts (i : Issue.t)
  : IssueId.t * Severity.t * string * option string * option Z * option Z :=
  (Issue.id i, Issue.severity i,
   Evidence.file (Issue.evidence i), Evidence.selector (Issue.evidence i),
   Evidence.line (Issue.evidence i), Evidence.count (Issue.evidence i)).

Definition expectedHotspotFacts (o : RuleOccurrence.t)
  : IssueId.t * Severity.t * string * option string * option Z * option Z :=
  (IssueId.LAYOUT_RISK_HOTSPOT,
   severityForRisk (riskOf o),
   ParseResult.file (RuleOccurrence.result o),
   option_map ParsedSelector.raw (head (ParsedRule.selectors (RuleOccurrence.rule o))),
   ParsedRule.line (RuleOccurrence.rule o),
   Some (Z.of_nat (length (layoutDeclarations
                             (ParsedRule.declarations (RuleOccurrence.rule o)))))).

(** A rule of five layout declarations, in a file of its own. *)
Definition boxRule : ParsedRule.t :=
  {| ParsedRule.selectors := [];
     ParsedRule.declarations := [
       ParsedDeclaration.mk "width" "10px" false;
       ParsedDeclaration.mk "height" "10px" false;
       ParsedDeclaration.mk "margin" "0" false;
       ParsedDeclaration.mk "padding" "0" false;
       ParsedDeclaration.mk "display" "block" false ];
     ParsedRule.file := "input.css";
     ParsedRule.line := None;
     ParsedRule.column := None;
     ParsedRule.layer := None |}.

Definition boxOccurrence : RuleOccurrence.t :=
  RuleOccurrence.mk
    {| ParseResult.file := "input.css";
       ParseResult.rules := [boxRule];
       ParseResult.errors := [];
       ParseResult.layers := [];
       ParseResult.usesLayers := false |}
    boxRule.

(** !important abuse: the rules with an !important declaration,
    grouped by the file name of their parse result. *)
Definition importantCountOf (o : RuleOccurrence.t) : Z :=
  Metrics.countImportant (ParsedRule.declarations (RuleOccurrence.rule o)).

Definition hasImportant (o : RuleOccurrence.t) : bool := importantCountOf o >? 0.

Definition fileOfRule (o : RuleOccurrence.t) : string :=
  ParseResult.file (RuleOccurrence.result o).

Definition importantRules (parseResults : list ParseResult.t) : list RuleOccurrence.t :=
  List.filter hasImportant (ruleOccurrences parseResults).

Definition fileCount (os : list RuleOccurrence.t) : FileCount.t :=
  FileCount.mk (sumList (map importantCountOf os)) (map RuleOccurrence.rule os).

Definition importantRulesOfFile (parseResults : list ParseResult.t) (file : string)
  : list RuleOccurrence.t :=
  withKey fileOfRule file (importantRules parseResults).

Definition importantTotal (parseResults : list ParseResult.t) (file : string) : Z :=
  sumList (map importantCountOf (importantRulesOfFile parseResults file)).

Definition configuredMaxImportant (config : AnalyzerConfig.t) : Z :=
  match AnalyzerConfig.thresholds config with
  | Some thresholds =>
      match Thresholds.maxImportantPerFile thresholds with
      | JS.Field.value n => n
      | JS.Field.absent | JS.Field.nullish => 5
      end
  | None => 5
  end.

Definition abusiveFiles (parseResults : list ParseResult.t) (maxPerFile : Z)
  : list string :=
  List.filter (fun file => importantTotal parseResults file >? maxPerFile)
    (firstKeys (map fileOfRule (importantRules parseResults))).

Definition isImportantLayout (o : DeclOccurrence.t) : bool :=
  (ParsedDeclaration.important (DeclOccurrence.declaration o)
   && isLayoutDeclaration (DeclOccurrence.declaration o))%bool.

(** Severity by the ratio of the count to the threshold, in integers;
    a threshold of 0 makes the ratio infinite and a negative one makes
    it negative. *)
Definition severityForImportant (count maxPerFile : Z) : Severity.t :=
  if 0 <? maxPerFile then
    if count >=? 4 * maxPerFile then Severity.critical
    else if 2 * count >=? 5 * maxPerFile then Severity.high
    else if 2 * count >=? 3 * maxPerFile then Severity.medium
    else Severity.low
  else if maxPerFile =? 0 then Severity.critical
  else Severity.low.

Definition importantFacts (i : Issue.t)
  : IssueId.t * Severity.t * string * option string * option Z
    * option string * option string * option Z :=
  (Issue.id i, Issue.severity i,
   Evidence.file (Issue.evidence i), Evidence.selector (Issue.evidence i),
   Evidence.line (Issue.evidence i),
   Evidence.property (Issue.evidence i), Evidence.value (Issue.evidence i),
   Evidence.count (Issue.evidence i)).

Definition expectedFileFacts (maxPerFile : Z) (parseResults : list ParseResult.t)
    (file : string)
  : IssueId.t * Severity.t * string * option string * option Z
    * option string * option string * option Z :=
  let first := head (importantRulesOfFile parseResults file) in
  (IssueId.IMPORTANT_ABUSE,
   severityForImportant (importantTotal parseResults file) maxPerFile,
   file,
   match first with
   | Some o => option_map ParsedSelector.raw (head (ParsedRule.selectors (RuleOccurrence.rule o)))
   | None => None
   end,
   match first with
   | Some o => ParsedRule.line (RuleOccurrence.rule o)
   | None => None
   end,
   None, None, Some (importantTotal parseResults file)).

Definition expectedDeclarationFacts (o : DeclOccurrence.t)
  : IssueId.t * Severity.t * string * option string * option Z
    * option string * option string * option Z :=
  (IssueId.IMPORTANT_ABUSE, Severity.medium,
   ParseResult.file (DeclOccurrence.result o),
   option_map ParsedSelector.raw (head (ParsedRule.selectors (DeclOccurrence.rule o))),
   ParsedRule.line (DeclOccurrence.rule o),
   Some (ParsedDeclaration.property (DeclOccurrence.declaration o)),
   Some (ParsedDeclaration.value (DeclOccurrence.declaration o)),
   None).

(** The rule toggles a run reads, and the issues of the enabled
    detectors in the order the detectors run. *)
Definition togglesOf (config : AnalyzerConfig.t) : RuleToggles.t :=
  match AnalyzerConfig.rules config with
  | Some rules => rules
  | None =>
      RuleToggles.mk JS.Field.absent JS.Field.absent JS.Field.absent JS.Field.absent
        JS.Field.absent JS.Field.absent JS.Field.absent
  end.

Definition whenEnabled (config : AnalyzerConfig.t)
    (field : RuleToggles.t -> JS.Field.t bool) (issues : list Issue.t) : list Issue.t :=
  if Rules.enabled (togglesOf config) field then issues else [].

Definition emittedIssues (parseResults : list ParseResult.t) (config : AnalyzerConfig.t)
  : list Issue.t :=
  whenEnabled config RuleToggles.deepSelectors
    (Rules.checkDeepSelectors parseResults config)
  ++ whenEnabled config RuleToggles.highSpecificity
       (Rules.checkHighSpecificity parseResults config)
  ++ whenEnabled config RuleToggles.importantAbuse
       (Rules.checkImportantAbuse parseResults config)
  ++ whenEnabled config RuleToggles.duplicateDeclarations
       (Rules.checkDuplicateDeclarations parseResults config)
  ++ whenEnabled config RuleToggles.layoutRiskHotspot
       (Rules.checkLayoutRiskHotspot parseResults config)
  ++ whenEnabled config RuleToggles.overridePressure
       (Rules.checkOverridePressure parseResults config)
  ++ whenEnabled config RuleToggles.missingLayers
       (Rules.checkMissingLayers parseResults config).

(** The toggle that governs an issue id. *)
Definition toggleOf (id : IssueId.t) : RuleToggles.t -> JS.Field.t bool :=
  match id with
  | IssueId.DEEP_SELECTOR => RuleToggles.deepSelectors
  | IssueId.HIGH_SPECIFICITY => RuleToggles.highSpecificity
  | IssueId.IMPORTANT_ABUSE => RuleToggles.importantAbuse
  | IssueId.DUPLICATE_DECLARATIONS => RuleToggles.duplicateDeclarations
  | IssueId.LAYOUT_RISK_HOTSPOT => RuleToggles.layoutRiskHotspot
  | IssueId.OVERRIDE_PRESSURE => RuleToggles.overridePressure
  | IssueId.MISSING_LAYERS => RuleToggles.missingLayers
  end.

Definition severityRank (i : Issue.t) : Z := Rules.severityOrder (Issue.severity i).

Definition rankNotAbove (a b : Issue.t) : Prop := severityRank a <= severityRank b.

Definition hasRank (rank : Z) (i : Issue.t) : bool := severityRank i =? rank.

(** A user configuration that switches the deep-selector rule off. *)
Definition deepSelectorsOff : AnalyzerConfig.t :=
  {| AnalyzerConfig.include := None;
     AnalyzerConfig.exclude := None;
     AnalyzerConfig.thresholds := None;
     AnalyzerConfig.ignorePatterns := None;
     AnalyzerConfig.maxScore := None;
     AnalyzerConfig.rules :=
       Some (RuleToggles.mk (JS.Field.value false) JS.Field.absent JS.Field.absent
               JS.Field.absent JS.Field.absent JS.Field.absent JS.Field.absent) |}.

(** The issues of one severity, and how many they are. *)
Definition issuesOfSeverity (s : Severity.t) (issues : list Issue.t) : list Issue.t :=
  List.filter (hasRank (Rules.severityOrder s)) issues.

Definition numberOfSeverity (s : Severity.t) (issues : list Issue.t) : Z :=
  Z.of_nat (length (issuesOfSeverity s issues)).

Definition isCritical (i : Issue.t) : bool := hasRank (Rules.severityOrder Severity.critical) i.

(** The rank of a grade, A first. *)
Definition gradeRank (g : Grade.t) : Z :=
  match g with
  | Grade.A => 0
  | Grade.B => 1
  | Grade.C => 2
  | Grade.D => 3
  | Grade.F => 4
  end.

(** A recommendation names the id of the issue. *)
Definition relatesTo (r : Recommendation.t) (i : Issue.t) : bool :=
  Scoring.hasId (Recommendation.relatedIssueIds r) i.

Definition priorityRank (r : Recommendation.t) : Z :=
  Scoring.priorityOrder (Recommendation.priority r).

Definition priorityNotAbove (a b : Recommendation.t) : Prop :=
  priorityRank a <= priorityRank b.

(** Some issue has one of the ids; and a recommendation that is made
    when some issue has one of the ids. *)
Definition found (ids : list IssueId.t) (issues : list Issue.t) : bool :=
  existsb (Scoring.hasId ids) issues.

Definition suggest (ids : list IssueId.t) (issues : list Issue.t) (r : Recommendation.t)
  : list Recommendation.t :=
  if found ids issues then [r] else [].

Definition namesMissingLayers (r : Recommendation.t) : bool :=
  existsb (IssueId.eqb IssueId.MISSING_LAYERS) (Recommendation.relatedIssueIds r).

(** What the two walks of a selector keep true of the counts and the
    flags. *)
Definition selectorInvariant (counts : Specificity.t Z) (flags : Parser.SelectorFlags.t)
  : Prop :=
  0 <= Specificity.ids counts
  /\ 0 <= Specificity.classes counts
  /\ 0 <= Specificity.elements counts
  /\ (Parser.SelectorFlags.hasId flags = true <-> 1 <= Specificity.ids counts)
  /\ (Parser.SelectorFlags.hasAttribute flags = true -> 1 <= Specificity.classes counts)
  /\ (Parser.SelectorFlags.hasPseudoElement flags = true
      -> 1 <= Specificity.elements counts).

(** The file name [parseCSS] works with. *)
Definition fileNameOf (filename : option string) : string :=
  match filename with Some f => f | None => "input.css" end.

Definition isLayerAtRule (n : Postcss.ChildNode) : bool :=
  match n with
  | Postcss.AtRule name _ _ => String.eqb name "layer"
  | _ => false
  end.

Definition isRuleNode (n : Postcss.ChildNode) : bool :=
  match n with
  | Postcss.Rule _ _ _ => true
  | _ => false
  end.

(** The nodes of a tree, in the order [walk] visits them. *)
Definition nodesOf (root : Postcss.Root) : list Postcss.ChildNode :=
  map snd (Postcss.walk root).

(** What [parseCSS] pushes for one visited node. *)
Definition rulesOfNode (processSync : string -> option Node.t) (file : string)
    (visited : list Postcss.ChildNode * Postcss.ChildNode) : list ParsedRule.t :=
  match snd visited with
  | Postcss.Rule ruleSelectors start _ =>
      Parser.processRule processSync (fst visited) ruleSelectors start (snd visited) file
  | _ => []
  end.

(** A tree with a rule inside a layer, and a parser that returns it. *)
Definition layeredTree : Postcss.Root :=
  [ Postcss.AtRule "layer" "base" [
      Postcss.Rule [".x:not(.a .b)"] (Some (Position.mk 1 15)) [
        Postcss.Declaration "color" "red" false ] ] ].

Definition layeredParse (css from : string) : Postcss.Root + string := inl layeredTree.

(** A declaration of a parse result, with the rule it is in. *)
Definition pairItems (result : ParseResult.t) : list (ParsedRule.t * ParsedDeclaration.t) :=
  flat_map (fun rule => map (pair rule) (ParsedRule.declarations rule))
    (ParseResult.rules result).

Definition pairKey (item : ParsedRule.t * ParsedDeclaration.t) : string :=
  ParsedDeclaration.property (snd item) +:+ ":" +:+ ParsedDeclaration.value (snd item).

Definition pairLocation (item : ParsedRule.t * ParsedDeclaration.t) : Parser.PairLocation.t :=
  {| Parser.PairLocation.file := ParsedRule.file (fst item);
     Parser.PairLocation.line := ParsedRule.line (fst item);
     Parser.PairLocation.selector := Metrics.firstSelectorRaw (fst item) |}.

Definition pairGroup (items : list (ParsedRule.t * ParsedDeclaration.t))
  : Parser.DeclarationPair.t :=
  Parser.DeclarationPair.mk (Z.of_nat (length items)) (map pairLocation items).

(** The sorted pairs of a rule, and the prefixes of them that
    [detectDuplicateBlocks] enters: a rule occurrence and a size. *)
Definition pairsOf (rule : ParsedRule.t) : list string :=
  Metrics.sortStrings
    (map (fun d =>
            ParsedDeclaration.property d +:+ ":"
            +:+ JS.toLowerCase (JS.trim (ParsedDeclaration.value d)))
       (ParsedRule.declarations rule)).

Definition orDefault (n : option Z) (d : Z) : Z :=
  match n with Some v => v | None => d end.

Definition blockItemsOf (minProperties : Z) (o : RuleOccurrence.t)
  : list (RuleOccurrence.t * Z) :=
  if Z.of_nat (length (ParsedRule.declarations (RuleOccurrence.rule o))) <? minProperties
  then []
  else map (pair o)
         (Metrics.sizesFrom minProperties
            (Z.of_nat (length (pairsOf (RuleOccurrence.rule o))))).

Definition blockItems (minProperties : Z) (parseResults : list ParseResult.t)
  : list (RuleOccurrence.t * Z) :=
  flat_map (blockItemsOf minProperties) (ruleOccurrences parseResults).

Definition blockProperties (item : RuleOccurrence.t * Z) : list string :=
  JS.slice0 (snd item) (pairsOf (RuleOccurrence.rule (fst item))).

Definition blockKey (item : RuleOccurrence.t * Z) : string :=
  JS.join "|" (blockProperties item).

Definition blockLocation (item : RuleOccurrence.t * Z) : Location.t :=
  {| Location.file := ParseResult.file (RuleOccurrence.result (fst item));
     Location.line := ParsedRule.line (RuleOccurrence.rule (fst item));
     Location.selector := Metrics.firstSelectorRaw (RuleOccurrence.rule (fst item)) |}.

Definition blockOf (items : list (RuleOccurrence.t * Z)) : Metrics.Block.t :=
  Metrics.Block.mk
    (match items with
     | [] => []
     | item :: _ => blockProperties item
     end)
    (map blockLocation items).

Definition occurrencesOf (block : Metrics.Block.t) : Z :=
  Z.of_nat (length (Metrics.Block.occurrences block)).

Definition moreOccurrences (a b : Metrics.Block.t) : Prop :=
  occurrencesOf b <= occurrencesOf a.

(** Two rules with the same three declarations, written in different
    orders. *)
Definition boxA : ParsedRule.t :=
  {| ParsedRule.selectors := [];
     ParsedRule.declarations :=
       [ ParsedDeclaration.mk "color" "red" false;
         ParsedDeclaration.mk "margin" "0" false;
         ParsedDeclaration.mk "padding" "0" false ];
     ParsedRule.file := "a.css";
     ParsedRule.line := Some 1;
     ParsedRule.column := Some 1;
     ParsedRule.layer := None |}.

Definition boxB : ParsedRule.t :=
  {| ParsedRule.selectors := [];
     ParsedRule.declarations :=
       [ ParsedDeclaration.mk "padding" "0" false;
         ParsedDeclaration.mk "color" "RED" false;
         ParsedDeclaration.mk "margin" " 0 " false ];
     ParsedRule.file := "a.css";
     ParsedRule.line := Some 5;
     ParsedRule.column := Some 1;
     ParsedRule.layer := None |}.

Definition twoBoxes : list ParseResult.t :=
  [ {| ParseResult.file := "a.css";
       ParseResult.rules := [boxA; boxB];
       ParseResult.errors := [];
       ParseResult.layers := [];
       ParseResult.usesLayers := false |} ].

(** The file name under which [analyze] takes an input, if it takes
    it. *)
Definition acceptedFile (input : AnalysisInput.t) : list string :=
  match AnalysisInput.type input with
  | InputType.file =>
      match AnalysisInput.path input with
      | Some path => if JS.truthy path then [path] else []
      | None => []
      end
  | InputType.content =>
      match AnalysisInput.content input with
      | Some content =>
          if JS.truthy content
          then [Analyzer.orInputCss (AnalysisInput.filename input)]
          else []
      | None => []
      end
  end.

Definition contentInput (css : string) (filename : option string) : AnalysisInput.t :=
  {| AnalysisInput.type := InputType.content;
     AnalysisInput.path := None;
     AnalysisInput.content := Some css;
     AnalysisInput.filename := filename |}.

(** A [postcss.parse] that rejects every input, and a file system
    without files. *)
Definition failingParse (css from : string) : Postcss.Root + string :=
  inr "Unclosed block".

Definition noFiles (path : string) : string + string := inr "ENOENT".

(** The specificities of the selectors of a file. *)
Definition specificitiesOf (parseResult : ParseResult.t) : list (Specificity.t Z) :=
  map ParsedSelector.specificity (selectorsOf parseResult).

Definition zeroSpecificity : Specificity.t Z := Specificity.mk 0 0 0.

(** A digit of the score: from 0 to 9. *)
Definition isDigitCount (n : Z) : Prop := 0 <= n < 10.

(** * Properties *)

(** ** Loops that only push *)

Lemma forOf_push {A B} (f : A -> list B) (xs : list A) (init : list B) :
  JS.forOf xs init (fun acc x => acc ++ f x) = init ++ flat_map f xs.
Proof.
  unfold JS.forOf. revert init.
  induction xs as [|x xs IH]; intros init; simpl.
  - now rewrite app_nil_r.
  - rewrite IH. now rewrite <- app_assoc.
Qed.

Lemma forOf_cons {A St} (body : St -> A -> St) (x : A) (xs : list A) (st : St) :
  JS.forOf (x :: xs) st body = JS.forOf xs (body st x) body.
Proof. reflexivity. Qed.

Lemma forOf_ext {A St} (body body' : St -> A -> St) (xs : list A) (st : St) :
  (forall s x, body s x = body' s x) ->
  JS.forOf xs st body = JS.forOf xs st body'.
Proof.
  intros Hext. unfold JS.forOf. revert st.
  induction xs as [|x xs IH]; intros st; simpl; [reflexivity|].
  rewrite Hext. apply IH.
Qed.

(** ** Specificity *)

Section SpecificityOrder.

Import Parser.

Lemma compareSpecificity_antisym (a b : Specificity.t Z) :
  compareSpecificity a b = - compareSpecificity b a.
Proof.
  unfold compareSpecificity.
  destruct (Z.eqb_spec (Specificity.ids a) (Specificity.ids b)) as [Hi|Hi];
    destruct (Z.eqb_spec (Specificity.ids b) (Specificity.ids a)) as [Hi'|Hi'];
    simpl; try lia.
  destruct (Z.eqb_spec (Specificity.classes a) (Specificity.classes b)) as [Hc|Hc];
    destruct (Z.eqb_spec (Specificity.classes b) (Specificity.classes a)) as [Hc'|Hc'];
    simpl; lia.
Qed.

Lemma compareSpecificity_le (a b : Specificity.t Z) :
  compareSpecificity a b <= 0 <-> lexLe a b.
Proof.
  unfold compareSpecificity, lexLe.
  destruct (Z.eqb_spec (Specificity.ids a) (Specificity.ids b)) as [Hi|Hi]; simpl.
  - destruct (Z.eqb_spec (Specificity.classes a) (Specificity.classes b)) as [Hc|Hc];
      simpl; lia.
  - lia.
Qed.

Lemma lexLe_refl a : lexLe a a.
Proof. unfold lexLe. lia. Qed.

Lemma lexLe_trans a b c : lexLe a b -> lexLe b c -> lexLe a c.
Proof. unfold lexLe. lia. Qed.

Lemma lexLe_total a b : lexLe a b \/ lexLe b a.
Proof. unfold lexLe. lia. Qed.

Lemma maxStep_spec max current :
  (maxStep max current = max \/ maxStep max current = current)
  /\ lexLe max (maxStep max current) /\ lexLe current (maxStep max current).
Proof.
  unfold maxStep.
  destruct (Z.gtb_spec (compareSpecificity current max) 0) as [H|H].
  - split; [now right|]. split; [|apply lexLe_refl].
    destruct (lexLe_total max current) as [Hle|Hle]; [exact Hle|].
    apply compareSpecificity_le in Hle. lia.
  - split; [now left|]. split; [apply lexLe_refl|].
    apply compareSpecificity_le. lia.
Qed.

Lemma fold_maxStep rest : forall first,
  let m := fold_left maxStep rest first in
  In m (first :: rest) /\ lexLe first m /\ Forall (fun x => lexLe x m) rest.
Proof.
  induction rest as [|c rest IH]; intros first; simpl.
  - split; [now left|]. split; [apply lexLe_refl|constructor].
  - destruct (IH (maxStep first c)) as (Hin & Hle & Hall).
    destruct (maxStep_spec first c) as (Hcase & Hf & Hc).
    split; [|split].
    + simpl in Hin. destruct Hin as [Hin|Hin]; [|right; now right].
      destruct Hcase as [E|E]; [left|right; left]; congruence.
    + eapply lexLe_trans; eassumption.
    + constructor; [eapply lexLe_trans; eassumption|exact Hall].
Qed.

End SpecificityOrder.

(** C2.  [compareSpecificity] is antisymmetric and lexicographic on
    (ids, classes, elements): more ids compare greater whatever the
    classes and elements, and with equal ids more classes compare
    greater whatever the elements.  [findMaxSpecificity] returns an
    element of a non-empty list that no element exceeds in this order;
    it does not follow the scalar score ids*100 + classes*10 +
    elements, as the list [(1,0,0); (0,11,0)] shows. *)
Theorem compareSpecificity_lexicographic
    (a b first : Specificity.t Z) (rest : list (Specificity.t Z)) :
  Parser.compareSpecificity a b = - Parser.compareSpecificity b a
  /\ (Specificity.ids a > Specificity.ids b -> Parser.compareSpecificity a b > 0)
  /\ (Specificity.ids a = Specificity.ids b ->
      Specificity.classes a > Specificity.classes b ->
      Parser.compareSpecificity a b > 0)
  /\ (Specificity.ids a = Specificity.ids b ->
      Specificity.classes a = Specificity.classes b ->
      Parser.compareSpecificity a b = Specificity.elements a - Specificity.elements b)
  /\ In (Metrics.findMaxSpecificity (first :: rest)) (first :: rest)
  /\ Forall (fun x => Parser.compareSpecificity x (Metrics.findMaxSpecificity (first :: rest)) <= 0)
       (first :: rest)
  /\ Metrics.findMaxSpecificity [Specificity.mk 1 0 0; Specificity.mk 0 11 0]
     = Specificity.mk 1 0 0
  /\ Parser.specificityToScore (Specificity.mk 1 0 0)
     < Parser.specificityToScore (Specificity.mk 0 11 0).
Proof.
  split; [apply compareSpecificity_antisym|].
  split.
  { intros H. unfold Parser.compareSpecificity.
    destruct (Z.eqb_spec (Specificity.ids a) (Specificity.ids b)); simpl; lia. }
  split.
  { intros Hi Hc. unfold Parser.compareSpecificity.
    destruct (Z.eqb_spec (Specificity.ids a) (Specificity.ids b)); simpl; [|lia].
    destruct (Z.eqb_spec (Specificity.classes a) (Specificity.classes b)); simpl; lia. }
  split.
  { intros Hi Hc. unfold Parser.compareSpecificity.
    destruct (Z.eqb_spec (Specificity.ids a) (Specificity.ids b)); simpl; [|lia].
    destruct (Z.eqb_spec (Specificity.classes a) (Specificity.classes b)); simpl; lia. }
  destruct (fold_maxStep rest first) as (Hin & Hle & Hall).
  split; [exact Hin|].
  split.
  { constructor.
    - apply compareSpecificity_le. exact Hle.
    - eapply Forall_impl; [exact Hall|].
      intros x Hx. apply compareSpecificity_le. exact Hx. }
  split; [reflexivity|].
  unfold Parser.specificityToScore; simpl; lia.
Qed.

Lemma compareSpecificity_lexicographic_witness :
  Parser.compareSpecificity (Specificity.mk 1 0 0) (Specificity.mk 0 11 9) > 0
  /\ Parser.compareSpecificity (Specificity.mk 2 3 0) (Specificity.mk 2 1 7) > 0.
Proof.
  split.
  - destruct (compareSpecificity_lexicographic
                (Specificity.mk 1 0 0) (Specificity.mk 0 11 9) (Specificity.mk 0 0 0) [])
      as (_ & Hids & _).
    apply Hids. simpl. lia.
  - destruct (compareSpecificity_lexicographic
                (Specificity.mk 2 3 0) (Specificity.mk 2 1 7) (Specificity.mk 0 0 0) [])
      as (_ & _ & Hclasses & _).
    apply Hclasses; simpl; [reflexivity|lia].
Defined.

(** ** Selector depth *)

Lemma Node_nested_ind (P : Node.t -> Prop) :
  (forall ty v children, Forall P children -> P (Node.mk ty v children)) ->
  forall n, P n.
Proof.
  intros H. fix IH 1. intros [ty v children]. apply H.
  induction children as [|c children IHc]; constructor; [apply IH|exact IHc].
Qed.

Lemma walk_Descendant (n d : Node.t) : In d (Node.walk n) <-> Descendant d n.
Proof.
  split.
  - revert d. induction n as [ty v children IH] using Node_nested_ind.
    intros d Hin. simpl in Hin. apply in_flat_map in Hin.
    destruct Hin as (c & Hc & Hd). destruct Hd as [->|Hd].
    + now apply Descendant_child.
    + apply Descendant_deeper with c; [exact Hc|].
      rewrite Forall_forall in IH. apply IH; [|exact Hd].
      apply list_elem_of_In. exact Hc.
  - induction 1 as [d n Hin|d c n Hin Hdesc IH];
      destruct n as [ty v children]; simpl in *; apply in_flat_map.
    + exists d. split; [exact Hin|now left].
    + exists c. split; [exact Hin|now right].
Qed.

Lemma forOf_count {A} (p : A -> bool) (xs : list A) (init : Z) :
  JS.forOf xs init (fun n x => if p x then n + 1 else n)
  = init + Z.of_nat (length (List.filter p xs)).
Proof.
  unfold JS.forOf. revert init.
  induction xs as [|x xs IH]; intros init; simpl; [lia|].
  rewrite IH. destruct (p x); simpl; lia.
Qed.

(** C3, amended.  For a selector the structural parser accepts,
    [calculateSelectorDepth] is 1 plus the number of combinator nodes
    among all the descendants of the parsed root, those inside the
    arguments of functional pseudo-classes such as :not(...) included. *)
Theorem calculateSelectorDepth_counts_all_combinators
    (processSync : string -> option Node.t) (selector : string) (root : Node.t) :
  processSync selector = Some root ->
  Parser.calculateSelectorDepth processSync selector
  = 1 + countCombinators (Node.walk root)
  /\ (forall d, In d (Node.walk root) <-> Descendant d root).
Proof.
  intros Hparse. split.
  - unfold Parser.calculateSelectorDepth. rewrite Hparse.
    apply forOf_count.
  - intros d. apply walk_Descendant.
Qed.

Lemma calculateSelectorDepth_counts_all_combinators_witness :
  Parser.calculateSelectorDepth notArgumentParser ".x:not(.a .b)"
  = 1 + countCombinators (Node.walk notArgumentTree).
Proof.
  apply (calculateSelectorDepth_counts_all_combinators
           notArgumentParser ".x:not(.a .b)" notArgumentTree).
  reflexivity.
Defined.

(** C3 as stated fails: the combinator inside :not(...) is counted. *)
Lemma calculateSelectorDepth_not_top_level_only :
  ~ (forall (processSync : string -> option Node.t) selector root,
        processSync selector = Some root ->
        Parser.calculateSelectorDepth processSync selector
        = 1 + topLevelCombinators root).
Proof.
  intros H.
  specialize (H notArgumentParser ".x:not(.a .b)" notArgumentTree eq_refl).
  vm_compute in H. discriminate H.
Qed.

(** ** Layout risk *)

Lemma has_list_to_set (xs : list string) (x : string) :
  Metrics.has (list_to_set xs) x = existsb (String.eqb x) xs.
Proof.
  unfold Metrics.has.
  destruct (existsb (String.eqb x) xs) eqn:E.
  - apply bool_decide_eq_true. apply elem_of_list_to_set.
    apply existsb_exists in E. destruct E as (y & Hy & Heq).
    apply String.eqb_eq in Heq. subst y. now apply list_elem_of_In.
  - apply bool_decide_eq_false. intros Hin.
    apply elem_of_list_to_set in Hin. apply list_elem_of_In in Hin.
    assert (existsb (String.eqb x) xs = true) as E'.
    { apply existsb_exists. exists x. split; [exact Hin|apply String.eqb_refl]. }
    congruence.
Qed.

Lemma present_property (declarations : list ParsedDeclaration.t) (p : string) :
  Metrics.has (list_to_set (map ParsedDeclaration.property declarations)) p
  = existsb (fun d => String.eqb (ParsedDeclaration.property d) p) declarations.
Proof.
  rewrite has_list_to_set.
  induction declarations as [|d ds IH]; simpl; [reflexivity|].
  rewrite IH. f_equal. apply String.eqb_sym.
Qed.

Lemma additive_loop (declarations : list ParsedDeclaration.t) (init : Z) :
  JS.forOf declarations init (fun riskScore decl =>
    if Metrics.has Metrics.LAYOUT_PROPERTIES (ParsedDeclaration.property decl) then
      let riskScore := riskScore + 1 in
      let riskScore :=
        if (String.eqb (ParsedDeclaration.property decl) "position"
            && JS.arrayIncludes ["absolute"; "fixed"] (ParsedDeclaration.value decl))%bool
        then riskScore + 2 else riskScore in
      let riskScore :=
        if (JS.startsWith (ParsedDeclaration.property decl) "margin"
            && JS.includes (ParsedDeclaration.value decl) "-")%bool
        then riskScore + 1 else riskScore in
      riskScore
    else riskScore)
  = init + additivePass declarations.
Proof.
  unfold JS.forOf. revert init.
  induction declarations as [|d ds IH]; intros init; simpl; [lia|].
  rewrite IH. unfold layoutRiskOf, JS.arrayIncludes. simpl.
  rewrite orb_false_r.
  destruct (Metrics.has Metrics.LAYOUT_PROPERTIES (ParsedDeclaration.property d));
    [|lia].
  destruct (String.eqb (ParsedDeclaration.property d) "position"
            && (String.eqb (ParsedDeclaration.value d) "absolute"
                || String.eqb (ParsedDeclaration.value d) "fixed"))%bool;
    destruct (JS.startsWith (ParsedDeclaration.property d) "margin"
              && JS.includes (ParsedDeclaration.value d) "-")%bool; lia.
Qed.

Lemma combination_loop declarations (combos : list RiskyCombination.t) (total : Z) :
  JS.forOf combos total (fun riskScore combo =>
    if forallb
         (Metrics.has (list_to_set (map ParsedDeclaration.property declarations)))
         (RiskyCombination.properties combo)
    then JS.Math_round (inject_Z riskScore * RiskyCombination.riskMultiplier combo)
    else riskScore)
  = applyCombinations declarations combos total.
Proof.
  unfold JS.forOf. revert total.
  induction combos as [|combo rest IH]; intros total; simpl; [reflexivity|].
  rewrite IH. f_equal. unfold combinationPresent.
  induction (RiskyCombination.properties combo) as [|p ps IHp]; simpl; [reflexivity|].
  rewrite present_property.
  destruct (existsb (fun d => String.eqb (ParsedDeclaration.property d) p) declarations);
    simpl; [exact IHp|reflexivity].
Qed.

Lemma Math_round_nearest (q : Q) :
  (Qabs (inject_Z (JS.Math_round q) - q) <= 1 # 2)%Q.
Proof.
  unfold JS.Math_round.
  pose proof (Qfloor_le (q + (1 # 2))) as Hle.
  pose proof (Qlt_floor (q + (1 # 2))) as Hlt.
  rewrite inject_Z_plus in Hlt. change (inject_Z 1) with 1%Q in Hlt.
  set (z := inject_Z (Qfloor (q + (1 # 2)))) in *. clearbody z.
  apply Qabs_case; intros _; lra.
Qed.

(** The extras of the additive pass come on top of the +1: a property
    outside LAYOUT_PROPERTIES adds nothing, whatever its name and value. *)
Example margin_inline_adds_nothing :
  Metrics.calculateLayoutRiskForDeclarations
    [ParsedDeclaration.mk "margin-inline" "-4px" false] = 0
  /\ Metrics.calculateLayoutRiskForDeclarations
       [ParsedDeclaration.mk "margin-left" "-4px" false] = 2
  /\ Metrics.calculateLayoutRiskForDeclarations
       [ParsedDeclaration.mk "position" "absolute" false;
        ParsedDeclaration.mk "top" "0" false;
        ParsedDeclaration.mk "left" "0" false;
        ParsedDeclaration.mk "display" "block" false] = 11.
Proof. vm_compute. auto. Qed.

(** C4.  [calculateLayoutRiskForDeclarations] is the additive pass (+1
    for a declaration whose property is in LAYOUT_PROPERTIES, +2 more
    when it is position with the value absolute or fixed, +1 more when
    it starts with margin and its value contains a minus sign) followed
    by the risky combinations in the order of their definition: each
    one whose properties are all present multiplies the running total
    by its multiplier and rounds to a nearest integer. *)
Theorem calculateLayoutRiskForDeclarations_spec
    (declarations : list ParsedDeclaration.t) :
  Metrics.calculateLayoutRiskForDeclarations declarations
  = applyCombinations declarations Metrics.RISKY_COMBINATIONS (additivePass declarations)
  /\ (forall q : Q, (Qabs (inject_Z (JS.Math_round q) - q) <= 1 # 2)%Q)
  /\ map RiskyCombination.riskMultiplier Metrics.RISKY_COMBINATIONS
     = [15 # 10; 15 # 10; 15 # 10; 15 # 10; 13 # 10; 12 # 10]%Q.
Proof.
  split; [|split; [exact Math_round_nearest|reflexivity]].
  unfold Metrics.calculateLayoutRiskForDeclarations.
  rewrite additive_loop. rewrite combination_loop. reflexivity.
Qed.

(** ** Loops over the selector occurrences *)

Lemma forOf_occurrences {B}
    (h : ParseResult.t -> ParsedRule.t -> ParsedSelector.t -> list B)
    (parseResults : list ParseResult.t) (init : list B) :
  JS.forOf parseResults init (fun acc result =>
    JS.forOf (ParseResult.rules result) acc (fun acc rule =>
      JS.forOf (ParsedRule.selectors rule) acc (fun acc selector =>
        acc ++ h result rule selector)))
  = init ++ flat_map
              (fun o => h (Occurrence.result o) (Occurrence.rule o) (Occurrence.selector o))
              (occurrences parseResults).
Proof.
  rewrite (forOf_ext _ (fun acc result =>
    acc ++ flat_map (fun rule => flat_map (h result rule) (ParsedRule.selectors rule))
             (ParseResult.rules result))).
  2:{ intros acc result.
      rewrite (forOf_ext _ (fun acc rule =>
        acc ++ flat_map (h result rule) (ParsedRule.selectors rule))).
      - apply forOf_push.
      - intros acc' rule. apply forOf_push. }
  rewrite forOf_push. f_equal. unfold occurrences.
  induction parseResults as [|result rest IH]; simpl; [reflexivity|].
  rewrite flat_map_app. rewrite IH. f_equal.
  induction (ParseResult.rules result) as [|rule rules IHr]; simpl; [reflexivity|].
  rewrite flat_map_app. rewrite IHr. f_equal.
  induction (ParsedRule.selectors rule) as [|sel sels IHs]; simpl; [reflexivity|].
  now rewrite IHs.
Qed.

Lemma flat_map_filter_map {A B} (p : A -> bool) (f : A -> B) (xs : list A) :
  flat_map (fun x => if p x then [f x] else []) xs = map f (List.filter p xs).
Proof.
  induction xs as [|x xs IH]; simpl; [reflexivity|].
  rewrite IH. now destruct (p x).
Qed.

Lemma forOf_occurrences_if {B}
    (p : ParseResult.t -> ParsedRule.t -> ParsedSelector.t -> bool)
    (f : ParseResult.t -> ParsedRule.t -> ParsedSelector.t -> B)
    (parseResults : list ParseResult.t) (init : list B) :
  JS.forOf parseResults init (fun acc result =>
    JS.forOf (ParseResult.rules result) acc (fun acc rule =>
      JS.forOf (ParsedRule.selectors rule) acc (fun acc selector =>
        if p result rule selector then acc ++ [f result rule selector] else acc)))
  = init ++ map
              (fun o => f (Occurrence.result o) (Occurrence.rule o) (Occurrence.selector o))
              (List.filter
                 (fun o => p (Occurrence.result o) (Occurrence.rule o) (Occurrence.selector o))
                 (occurrences parseResults)).
Proof.
  rewrite <- flat_map_filter_map.
  rewrite <- (forOf_occurrences
                (fun result rule selector =>
                   if p result rule selector then [f result rule selector] else [])).
  apply forOf_ext. intros acc result.
  apply forOf_ext. intros acc' rule.
  apply forOf_ext. intros acc'' selector.
  destruct (p result rule selector); [reflexivity|now rewrite app_nil_r].
Qed.

(** ** Deep selectors *)

(** C5.  [checkDeepSelectors] emits one DEEP_SELECTOR issue for each
    selector occurrence whose depth exceeds the configured
    maxSelectorDepth (4 by default) and none for the others, in source
    order; the severity of an issue follows excess = depth - threshold:
    critical from 4, high from 2, medium otherwise.  A single depth-5
    selector under the default configuration gives exactly one
    DEEP_SELECTOR issue, of medium severity, and a depth-8 selector one
    of critical severity. *)
Theorem checkDeepSelectors_spec
    (parseResults : list ParseResult.t) (config : AnalyzerConfig.t) :
  map deepSelectorFacts (Rules.checkDeepSelectors parseResults config)
  = map (expectedDeepSelectorFacts (configuredMaxSelectorDepth config))
      (List.filter (isDeep (configuredMaxSelectorDepth config)) (occurrences parseResults))
  /\ configuredMaxSelectorDepth defaultRunConfig = 4
  /\ map (fun i => (Issue.id i, Issue.severity i))
       (List.filter isDeepSelectorIssue (Rules.runAllRules [depth5File] defaultRunConfig))
     = [(IssueId.DEEP_SELECTOR, Severity.medium)]
  /\ map (fun i => (Issue.id i, Issue.severity i))
       (List.filter isDeepSelectorIssue (Rules.runAllRules [depth8File] defaultRunConfig))
     = [(IssueId.DEEP_SELECTOR, Severity.critical)].
Proof.
  split; [|split; [reflexivity|split; vm_compute; reflexivity]].
  unfold Rules.checkDeepSelectors.
  rewrite forOf_occurrences_if. simpl app.
  rewrite map_map. reflexivity.
Qed.

(** ** Missing layers *)

Lemma important_loop (rules : list ParsedRule.t) (init : Z) :
  JS.forOf rules init (fun totalImportant rule =>
    totalImportant
    + Z.of_nat (length (List.filter ParsedDeclaration.important
                          (ParsedRule.declarations rule))))
  = init + sumList (map (fun rule => Metrics.countImportant (ParsedRule.declarations rule))
                      rules).
Proof.
  unfold JS.forOf. revert init.
  induction rules as [|rule rules IH]; intros init; simpl; [lia|].
  rewrite IH. unfold Metrics.countImportant. lia.
Qed.

Lemma layer_loop (parseResults : list ParseResult.t) (a b c : Z) :
  JS.forOf parseResults (Rules.LayerLoop.mk a b c) (fun st result =>
    let totalRules :=
      Rules.LayerLoop.totalRules st + Z.of_nat (length (ParseResult.rules result)) in
    let totalImportant :=
      JS.forOf (ParseResult.rules result) (Rules.LayerLoop.totalImportant st)
        (fun totalImportant rule =>
           totalImportant
           + Z.of_nat (length (List.filter ParsedDeclaration.important
                                 (ParsedRule.declarations rule)))) in
    let filesWithManyRules :=
      if Z.of_nat (length (ParseResult.rules result)) >=? 20
      then Rules.LayerLoop.filesWithManyRules st + 1
      else Rules.LayerLoop.filesWithManyRules st in
    Rules.LayerLoop.mk totalRules totalImportant filesWithManyRules)
  = Rules.LayerLoop.mk (a + totalRulesOf parseResults) (b + totalImportantOf parseResults)
      (c + filesWithManyRulesOf parseResults).
Proof.
  revert a b c.
  induction parseResults as [|result rest IH]; intros a b c.
  - unfold totalRulesOf, totalImportantOf, filesWithManyRulesOf. simpl.
    f_equal; lia.
  - rewrite forOf_cons. cbv zeta.
    simpl Rules.LayerLoop.totalRules. simpl Rules.LayerLoop.totalImportant.
    simpl Rules.LayerLoop.filesWithManyRules.
    rewrite important_loop. fold (importantIn result). fold (rulesIn result).
    unfold totalRulesOf, totalImportantOf, filesWithManyRulesOf in *.
    simpl map. simpl sumList. simpl List.filter.
    destruct (rulesIn result >=? 20) eqn:E; rewrite IH; simpl length;
      f_equal; lia.
Qed.

(** C6.  [checkMissingLayers] emits at most one issue; it emits one
    exactly when no file uses @layer and (the rules of all files are at
    least 50, or their !important declarations at least 5, or at least
    3 files have 20 rules or more); the issue is MISSING_LAYERS, of
    medium severity when the rules are at least 200 or the !important
    declarations at least 20 and of low severity otherwise; when a file
    uses @layer no issue is emitted. *)
Theorem checkMissingLayers_spec
    (parseResults : list ParseResult.t) (config : AnalyzerConfig.t) :
  (length (Rules.checkMissingLayers parseResults config) <= 1)%nat
  /\ (Rules.checkMissingLayers parseResults config <> [] <->
      Forall (fun result => ParseResult.usesLayers result = false) parseResults
      /\ (totalRulesOf parseResults >= 50
          \/ totalImportantOf parseResults >= 5
          \/ filesWithManyRulesOf parseResults >= 3))
  /\ Forall
       (fun i =>
          Issue.id i = IssueId.MISSING_LAYERS
          /\ Issue.severity i
             = if ((totalRulesOf parseResults >=? 200)
                   || (totalImportantOf parseResults >=? 20))%bool
               then Severity.medium else Severity.low)
       (Rules.checkMissingLayers parseResults config)
  /\ (Exists (fun result => ParseResult.usesLayers result = true) parseResults ->
      Rules.checkMissingLayers parseResults config = []).
Proof.
  unfold Rules.checkMissingLayers. rewrite layer_loop.
  simpl Rules.LayerLoop.totalRules. simpl Rules.LayerLoop.totalImportant.
  simpl Rules.LayerLoop.filesWithManyRules. rewrite !Z.add_0_l.
  assert (existsb ParseResult.usesLayers parseResults = false
          <-> Forall (fun result => ParseResult.usesLayers result = false) parseResults)
    as Hnone.
  { induction parseResults as [|r rest IH]; simpl.
    - split; [constructor|reflexivity].
    - rewrite orb_false_iff, IH. split.
      + intros [H1 H2]. now constructor.
      + intros Hall. inversion Hall; subst. now split. }
  assert (Exists (fun result => ParseResult.usesLayers result = true) parseResults
          -> existsb ParseResult.usesLayers parseResults = true) as Hsome.
  { intros Hex. apply existsb_exists. apply Exists_exists in Hex.
    destruct Hex as (r & Hin & Hr). exists r. split; [|exact Hr].
    now apply list_elem_of_In. }
  destruct (existsb ParseResult.usesLayers parseResults) eqn:Eany; simpl negb.
  - simpl. split; [lia|]. split; [|split; [constructor|reflexivity]].
    split.
    + intros Hne. now contradiction Hne.
    + intros [Hall _]. apply Hnone in Hall. discriminate Hall.
  - rewrite andb_true_l.
    destruct ((totalRulesOf parseResults >=? 50)
              || (totalImportantOf parseResults >=? 5)
              || (filesWithManyRulesOf parseResults >=? 3))%bool eqn:Econd.
    + simpl app. split; [simpl; lia|]. split; [|split].
      * split; [|intros _; discriminate].
        intros _. split; [apply Hnone; reflexivity|].
        apply orb_true_iff in Econd. destruct Econd as [Econd|Econd];
          [apply orb_true_iff in Econd; destruct Econd as [Econd|Econd]|]; lia.
      * constructor; [|constructor]. simpl. split; [reflexivity|].
        unfold Rules.getSeverityForMissingLayers.
        destruct ((totalRulesOf parseResults >=? 200)
                  || (totalImportantOf parseResults >=? 20))%bool; [reflexivity|].
        now destruct ((totalRulesOf parseResults >=? 100)
                      || (totalImportantOf parseResults >=? 10))%bool.
      * intros Hex. apply Hsome in Hex. discriminate Hex.
    + split; [simpl; lia|]. split; [|split].
      * split; [intros Hne; now contradiction Hne|].
        intros [_ Hcond]. apply orb_false_iff in Econd. destruct Econd as [Econd E3].
        apply orb_false_iff in Econd. destruct Econd as [E1 E2]. lia.
      * constructor.
      * intros Hex. apply Hsome in Hex. discriminate Hex.
Qed.

Lemma checkMissingLayers_spec_witness :
  Rules.checkMissingLayers [plainFile 50 true] defaultRunConfig = []
  /\ Rules.checkMissingLayers [plainFile 50 false] defaultRunConfig <> [].
Proof.
  destruct (checkMissingLayers_spec [plainFile 50 true] defaultRunConfig)
    as (_ & _ & _ & Hlayered).
  destruct (checkMissingLayers_spec [plainFile 50 false] defaultRunConfig)
    as (_ & Hplain & _).
  split.
  - apply Hlayered. constructor. reflexivity.
  - apply Hplain. split.
    + constructor; [reflexivity|constructor].
    + left. vm_compute. discriminate.
Defined.

(** ** The empty input *)

Lemma runAllRules_nil (config : AnalyzerConfig.t) : Rules.runAllRules [] config = [].
Proof.
  unfold Rules.runAllRules.
  change (Rules.checkDeepSelectors [] config) with (@nil Issue.t).
  change (Rules.checkHighSpecificity [] config) with (@nil Issue.t).
  change (Rules.checkImportantAbuse [] config) with (@nil Issue.t).
  change (Rules.checkDuplicateDeclarations [] config) with (@nil Issue.t).
  change (Rules.checkLayoutRiskHotspot [] config) with (@nil Issue.t).
  change (Rules.checkOverridePressure [] config) with (@nil Issue.t).
  change (Rules.checkMissingLayers [] config) with (@nil Issue.t).
  cbv zeta.
  repeat match goal with
         | |- context [Rules.enabled ?rules ?field] =>
             destruct (Rules.enabled rules field)
         end;
    reflexivity.
Qed.

(** C7.  The report of an empty input, whatever the configuration:
    no file and every count zero in the global metrics, no issue,
    overall score 0 and grade A, and every other part of the report
    present and empty. *)
Theorem generateReport_nil (config : RequiredConfig.t) (now : string) :
  Report.globalMetrics (Analyzer.generateReport [] config now)
  = {| GlobalMetrics.totalFiles := 0;
       GlobalMetrics.totalRules := 0;
       GlobalMetrics.totalSelectors := 0;
       GlobalMetrics.totalDeclarations := 0;
       GlobalMetrics.maxSelectorDepth := 0;
       GlobalMetrics.avgSelectorDepth := 0%Q;
       GlobalMetrics.maxSpecificity := Specificity.mk 0 0 0;
       GlobalMetrics.avgSpecificity := Specificity.mk 0%Q 0%Q 0%Q;
       GlobalMetrics.totalImportantCount := 0;
       GlobalMetrics.totalDuplicateDeclarations := 0;
       GlobalMetrics.overallLayoutRiskScore := 0 |}
  /\ Report.issues (Analyzer.generateReport [] config now) = []
  /\ Summary.overallScore (Report.summary (Analyzer.generateReport [] config now)) = 0
  /\ Summary.grade (Report.summary (Analyzer.generateReport [] config now)) = Grade.A
  /\ Summary.totalIssues (Report.summary (Analyzer.generateReport [] config now)) = 0
  /\ Summary.issuesBySeverity (Report.summary (Analyzer.generateReport [] config now))
     = SeverityCounts.mk 0 0 0 0
  /\ Report.fileMetrics (Analyzer.generateReport [] config now) = []
  /\ Report.topSelectors (Analyzer.generateReport [] config now) = []
  /\ Report.recommendations (Analyzer.generateReport [] config now) = []
  /\ Report.version (Analyzer.generateReport [] config now) = "0.1.0"
  /\ Report.timestamp (Analyzer.generateReport [] config now) = now.
Proof.
  unfold Analyzer.generateReport. cbv zeta.
  rewrite runAllRules_nil. simpl.
  repeat split; vm_compute; reflexivity.
Qed.

(** ** Thresholds *)


Lemma integerExceeds_notAbove (score : Z) (maxScore : JS.Number.t) :
  JS.Number.integerExceeds score maxScore = false <-> notAbove score maxScore.
Proof.
  destruct maxScore as [q| | |]; cbn [JS.Number.integerExceeds notAbove].
  - rewrite negb_false_iff. apply Qle_bool_iff.
  - tauto.
  - split; [discriminate|tauto].
  - tauto.
Qed.




(** ** Configuration *)

(** C9, on the code.  [mergeConfig] gives every threshold and six of
    the seven rule toggles a default; its own table of defaults has no
    missingLayers entry, unlike [DEFAULT_CONFIG], so that toggle stays
    undefined unless the user sets it.  ([runAllRules] treats an
    undefined toggle as enabled.) *)
Theorem mergeConfig_leaves_missingLayers_undefined :
  RuleToggles.missingLayers (RequiredConfig.rules (Analyzer.mergeConfig AnalyzerConfig.empty))
  = JS.Field.absent
  /\ RuleToggles.missingLayers (RequiredConfig.rules DEFAULT_CONFIG) = JS.Field.value true
  /\ (forall userConfig,
        RuleToggles.missingLayers (RequiredConfig.rules (Analyzer.mergeConfig userConfig))
        = match AnalyzerConfig.rules userConfig with
          | Some rules => RuleToggles.missingLayers rules
          | None => JS.Field.absent
          end)
  /\ RequiredConfig.thresholds (Analyzer.mergeConfig AnalyzerConfig.empty)
     = Thresholds.mk (JS.Field.value 4) (JS.Field.value 40) (JS.Field.value 5)
         (JS.Field.value 3)
  /\ RequiredConfig.maxScore (Analyzer.mergeConfig AnalyzerConfig.empty)
     = JS.Number.ofInteger 100
  /\ RequiredConfig.rules (Analyzer.mergeConfig AnalyzerConfig.empty)
     = RuleToggles.mk (JS.Field.value true) (JS.Field.value true) (JS.Field.value true)
         (JS.Field.value true) (JS.Field.value true) (JS.Field.value true) JS.Field.absent
  /\ Rules.enabled (RequiredConfig.rules (Analyzer.mergeConfig AnalyzerConfig.empty))
       RuleToggles.missingLayers = true.
Proof.
  repeat split; try reflexivity.
  intros userConfig. unfold Analyzer.mergeConfig. simpl.
  destruct (AnalyzerConfig.rules userConfig) as [rules|]; simpl; [|reflexivity].
  now destruct (RuleToggles.missingLayers rules).
Qed.

(** ** The report as a function of its inputs *)

(** [generateReport] stamps the report with the time of the run, so
    two runs on the same parse results and configuration at different
    times give different reports. *)
Lemma generateReport_not_equal_across_runs :
  Analyzer.generateReport [] (Analyzer.mergeConfig AnalyzerConfig.empty)
    "2024-01-01T00:00:00.000Z"
  <> Analyzer.generateReport [] (Analyzer.mergeConfig AnalyzerConfig.empty)
       "2024-01-01T00:00:00.001Z".
Proof.
  intros Heq. apply (f_equal Report.timestamp) in Heq. discriminate Heq.
Qed.

(** ** Sorting *)

Section SortFacts.
Context {A : Type} (cmp : A -> A -> Z).

Lemma insertSorted_Permutation (x : A) (l : list A) :
  Permutation (JS.insertSorted cmp x l) (x :: l).
Proof.
  induction l as [|y l IH]; simpl; [reflexivity|].
  destruct (cmp x y <=? 0); [reflexivity|].
  rewrite IH. apply perm_swap.
Qed.

Lemma sort_Permutation (l : list A) : Permutation (JS.sort cmp l) l.
Proof.
  induction l as [|x l IH]; simpl; [reflexivity|].
  rewrite insertSorted_Permutation. now rewrite IH.
Qed.

Hypothesis cmp_total : forall x y, before cmp x y \/ before cmp y x.
Hypothesis cmp_trans : forall x y z, before cmp x y -> before cmp y z -> before cmp x z.

Lemma insertSorted_StronglySorted (x : A) (l : list A) :
  StronglySorted (before cmp) l -> StronglySorted (before cmp) (JS.insertSorted cmp x l).
Proof.
  induction 1 as [|y l Hsorted IH Hall]; simpl.
  - constructor; constructor.
  - destruct (Z.leb_spec (cmp x y) 0) as [Hle|Hgt].
    + constructor; [now constructor|].
      constructor; [exact Hle|].
      eapply Forall_impl; [exact Hall|].
      intros z Hz. now apply cmp_trans with y.
    + constructor; [exact IH|].
      eapply Permutation_Forall.
      * symmetry. apply insertSorted_Permutation.
      * constructor; [|exact Hall].
        destruct (cmp_total x y) as [Hxy|Hyx]; [unfold before in Hxy; lia|exact Hyx].
Qed.

Lemma sort_StronglySorted (l : list A) : StronglySorted (before cmp) (JS.sort cmp l).
Proof.
  induction l as [|x l IH]; simpl; [constructor|].
  now apply insertSorted_StronglySorted.
Qed.
End SortFacts.

Lemma StronglySorted_weaken {A} (R R' : A -> A -> Prop) (l : list A) :
  (forall x y, R x y -> R' x y) -> StronglySorted R l -> StronglySorted R' l.
Proof.
  intros Himpl. induction 1 as [|x l Hsorted IH Hall]; constructor; [exact IH|].
  eapply Forall_impl; [exact Hall|]. intros y. apply Himpl.
Qed.

Lemma Forall_firstn {A} (P : A -> Prop) (n : nat) (l : list A) :
  Forall P l -> Forall P (firstn n l).
Proof.
  intros Hall. revert n.
  induction Hall as [|x l Hx Hall IH]; intros [|n]; simpl; constructor; auto.
Qed.

Lemma StronglySorted_firstn {A} (R : A -> A -> Prop) (n : nat) (l : list A) :
  StronglySorted R l -> StronglySorted R (firstn n l).
Proof.
  intros Hsorted. revert n.
  induction Hsorted as [|x l Hsorted IH Hall]; intros [|n]; simpl; try constructor.
  - apply IH.
  - now apply Forall_firstn.
Qed.

(** ** Worst offenders *)

Lemma extractTopSelectors_unfold (parseResults : list ParseResult.t) (limit : Z) :
  Metrics.extractTopSelectors parseResults limit
  = JS.slice0 limit
      (JS.sort (fun a b => TopSelector.score b - TopSelector.score a)
         (map topSelectorOf (occurrences parseResults))).
Proof.
  unfold Metrics.extractTopSelectors. cbv zeta.
  rewrite (forOf_occurrences (fun result rule selector =>
    [ {| TopSelector.selector := ParsedSelector.raw selector;
         TopSelector.file := ParseResult.file result;
         TopSelector.line := ParsedRule.line rule;
         TopSelector.specificity := ParsedSelector.specificity selector;
         TopSelector.depth := ParsedSelector.depth selector;
         TopSelector.score :=
           Parser.specificityToScore (ParsedSelector.specificity selector) * 2
           + ParsedSelector.depth selector * 3 |} ])).
  simpl app. f_equal. f_equal.
  induction (occurrences parseResults) as [|o os IH]; simpl; [reflexivity|].
  rewrite IH. f_equal. unfold topSelectorOf, Parser.specificityToScore.
  f_equal. lia.
Qed.

(** C10.  For a limit N that is not negative, [extractTopSelectors]
    returns at most N entries; they are entries of distinct selector
    occurrences of the input (with the entries left out they make up
    the entries of all the occurrences); the score of each is
    2*(100*ids + 10*classes + elements) + 3*depth of its selector; and
    they come in non-increasing order of score. *)
Theorem extractTopSelectors_spec (parseResults : list ParseResult.t) (limit : Z) :
  0 <= limit ->
  Z.of_nat (length (Metrics.extractTopSelectors parseResults limit)) <= limit
  /\ (exists rest,
        Permutation (Metrics.extractTopSelectors parseResults limit ++ rest)
          (map topSelectorOf (occurrences parseResults)))
  /\ Forall (fun t => TopSelector.score t = scoreFormula t)
       (Metrics.extractTopSelectors parseResults limit)
  /\ StronglySorted scoreNotBelow (Metrics.extractTopSelectors parseResults limit).
Proof.
  intros Hlimit. rewrite extractTopSelectors_unfold.
  set (cmp := fun a b : TopSelector.t => TopSelector.score b - TopSelector.score a).
  set (all := map topSelectorOf (occurrences parseResults)).
  unfold JS.slice0. destruct (Z.ltb_spec limit 0) as [Hneg|_]; [lia|].
  split; [|split; [|split]].
  - rewrite length_firstn. lia.
  - exists (skipn (Z.to_nat limit) (JS.sort cmp all)).
    rewrite firstn_skipn. apply sort_Permutation.
  - apply Forall_firstn.
    eapply Permutation_Forall; [symmetry; apply sort_Permutation|].
    unfold all. apply Forall_forall. intros t Ht.
    apply list_elem_of_In in Ht. apply in_map_iff in Ht.
    destruct Ht as (o & <- & _). reflexivity.
  - apply StronglySorted_firstn.
    eapply StronglySorted_weaken; [|apply (sort_StronglySorted cmp)].
    + intros a b. unfold scoreNotBelow, before, cmp. lia.
    + intros a b. unfold before, cmp. lia.
    + intros a b c. unfold before, cmp. lia.
Qed.

Lemma extractTopSelectors_spec_witness :
  Z.of_nat (length (Metrics.extractTopSelectors twoFiles 2)) <= 2
  /\ map TopSelector.score (Metrics.extractTopSelectors twoFiles 2) = [184; 115].
Proof.
  split.
  - apply (extractTopSelectors_spec twoFiles 2). lia.
  - vm_compute. reflexivity.
Defined.

(** * Properties of the rest of the code *)

(** ** Loops over flattened inputs *)

Lemma forOf_app {A St} (body : St -> A -> St) (xs ys : list A) (st : St) :
  JS.forOf (xs ++ ys) st body = JS.forOf ys (JS.forOf xs st body) body.
Proof. unfold JS.forOf. apply fold_left_app. Qed.

Lemma forOf_flat_map {A B St} (f : A -> list B) (body : St -> B -> St)
    (xs : list A) (st : St) :
  JS.forOf (flat_map f xs) st body
  = JS.forOf xs st (fun st x => JS.forOf (f x) st body).
Proof.
  revert st. induction xs as [|x xs IH]; intros st; simpl; [reflexivity|].
  rewrite forOf_app, IH. reflexivity.
Qed.

Lemma forOf_map {A B St} (h : A -> B) (body : St -> B -> St) (xs : list A) (st : St) :
  JS.forOf (map h xs) st body = JS.forOf xs st (fun st x => body st (h x)).
Proof.
  unfold JS.forOf. revert st.
  induction xs as [|x xs IH]; intros st; simpl; [reflexivity|]. apply IH.
Qed.

Lemma forOf_ruleOccurrences {St}
    (g : St -> ParseResult.t -> ParsedRule.t -> St)
    (parseResults : list ParseResult.t) (st : St) :
  JS.forOf parseResults st (fun st result =>
    JS.forOf (ParseResult.rules result) st (fun st rule => g st result rule))
  = JS.forOf (ruleOccurrences parseResults) st
      (fun st o => g st (RuleOccurrence.result o) (RuleOccurrence.rule o)).
Proof.
  unfold ruleOccurrences. rewrite forOf_flat_map.
  apply forOf_ext. intros s result. now rewrite forOf_map.
Qed.

Lemma forOf_declOccurrences {St}
    (g : St -> ParseResult.t -> ParsedRule.t -> ParsedDeclaration.t -> St)
    (parseResults : list ParseResult.t) (st : St) :
  JS.forOf parseResults st (fun st result =>
    JS.forOf (ParseResult.rules result) st (fun st rule =>
      JS.forOf (ParsedRule.declarations rule) st (fun st decl => g st result rule decl)))
  = JS.forOf (declOccurrences parseResults) st
      (fun st o =>
         g st (DeclOccurrence.result o) (DeclOccurrence.rule o)
           (DeclOccurrence.declaration o)).
Proof.
  unfold declOccurrences. rewrite forOf_flat_map.
  apply forOf_ext. intros s result. rewrite forOf_flat_map.
  apply forOf_ext. intros s' rule. now rewrite forOf_map.
Qed.

Lemma forOf_push_if {A B} (p : A -> bool) (f : A -> B) (xs : list A) (init : list B) :
  JS.forOf xs init (fun acc x => if p x then acc ++ [f x] else acc)
  = init ++ map f (List.filter p xs).
Proof.
  rewrite <- flat_map_filter_map. rewrite <- forOf_push.
  apply forOf_ext. intros acc x. destruct (p x); [reflexivity|now rewrite app_nil_r].
Qed.

Lemma forOf_invariant {A St} (P : St -> Prop) (body : St -> A -> St)
    (xs : list A) (st : St) :
  P st -> (forall s x, P s -> P (body s x)) -> P (JS.forOf xs st body).
Proof.
  intros Hst Hbody. revert st Hst.
  induction xs as [|x xs IH]; intros st Hst; [exact Hst|].
  rewrite forOf_cons. apply IH. now apply Hbody.
Qed.

Lemma sumZ_sumList {A} (f : A -> Z) (xs : list A) :
  Metrics.sumZ f xs = sumList (map f xs).
Proof.
  unfold Metrics.sumZ.
  assert (forall init, fold_left (fun sum m => sum + f m) xs init
                       = init + sumList (map f xs)) as H.
  { induction xs as [|x xs IH]; intros init; simpl; [lia|]. rewrite IH. lia. }
  rewrite H. lia.
Qed.

Lemma sumList_app (xs ys : list Z) : sumList (xs ++ ys) = sumList xs + sumList ys.
Proof. induction xs as [|x xs IH]; simpl; lia. Qed.

Lemma sumList_nonneg (xs : list Z) : Forall (fun x => 0 <= x) xs -> 0 <= sumList xs.
Proof. induction 1; simpl; lia. Qed.

(** ** File metrics *)

Lemma selector_loop (selectors : list ParsedSelector.t)
    (a b c d e : Z) (ds : list Z) (ss : list (Specificity.t Z)) :
  JS.forOf selectors (Metrics.FileLoop.mk a b c d e ds ss) (fun st selector =>
    Metrics.FileLoop.mk
      (Metrics.FileLoop.totalSelectors st + 1)
      (Metrics.FileLoop.totalDeclarations st)
      (if ParsedSelector.depth selector >? Metrics.FileLoop.maxSelectorDepth st
       then ParsedSelector.depth selector
       else Metrics.FileLoop.maxSelectorDepth st)
      (Metrics.FileLoop.importantCount st)
      (Metrics.FileLoop.layoutRiskScore st)
      (Metrics.FileLoop.allDepths st ++ [ParsedSelector.depth selector])
      (Metrics.FileLoop.allSpecificities st ++ [ParsedSelector.specificity selector]))
  = Metrics.FileLoop.mk
      (a + Z.of_nat (length selectors)) b
      (fold_left Z.max (map ParsedSelector.depth selectors) c) d e
      (ds ++ map ParsedSelector.depth selectors)
      (ss ++ map ParsedSelector.specificity selectors).
Proof.
  revert a c ds ss.
  induction selectors as [|s sels IH]; intros a c ds ss.
  - simpl. rewrite !app_nil_r. f_equal. lia.
  - rewrite forOf_cons. simpl Metrics.FileLoop.totalSelectors.
    simpl Metrics.FileLoop.totalDeclarations. simpl Metrics.FileLoop.maxSelectorDepth.
    simpl Metrics.FileLoop.importantCount. simpl Metrics.FileLoop.layoutRiskScore.
    simpl Metrics.FileLoop.allDepths. simpl Metrics.FileLoop.allSpecificities.
    rewrite IH. simpl map. simpl fold_left. rewrite <- !app_assoc. simpl app.
    f_equal.
    + simpl length. lia.
    + f_equal. destruct (Z.gtb_spec (ParsedSelector.depth s) c); lia.
Qed.

Lemma rule_loop (rules : list ParsedRule.t)
    (a b c d e : Z) (ds : list Z) (ss : list (Specificity.t Z)) :
  JS.forOf rules (Metrics.FileLoop.mk a b c d e ds ss) (fun st rule =>
    let st :=
      Metrics.FileLoop.mk
        (Metrics.FileLoop.totalSelectors st)
        (Metrics.FileLoop.totalDeclarations st
         + Z.of_nat (length (ParsedRule.declarations rule)))
        (Metrics.FileLoop.maxSelectorDepth st)
        (Metrics.FileLoop.importantCount st + Metrics.countImportantInRule rule)
        (Metrics.FileLoop.layoutRiskScore st
         + Metrics.calculateLayoutRiskForDeclarations (ParsedRule.declarations rule))
        (Metrics.FileLoop.allDepths st)
        (Metrics.FileLoop.allSpecificities st) in
    JS.forOf (ParsedRule.selectors rule) st (fun st selector =>
      Metrics.FileLoop.mk
        (Metrics.FileLoop.totalSelectors st + 1)
        (Metrics.FileLoop.totalDeclarations st)
        (if ParsedSelector.depth selector >? Metrics.FileLoop.maxSelectorDepth st
         then ParsedSelector.depth selector
         else Metrics.FileLoop.maxSelectorDepth st)
        (Metrics.FileLoop.importantCount st)
        (Metrics.FileLoop.layoutRiskScore st)
        (Metrics.FileLoop.allDepths st ++ [ParsedSelector.depth selector])
        (Metrics.FileLoop.allSpecificities st ++ [ParsedSelector.specificity selector])))
  = let selectors := flat_map ParsedRule.selectors rules in
    Metrics.FileLoop.mk
      (a + Z.of_nat (length selectors))
      (b + sumList (map (fun rule => Z.of_nat (length (ParsedRule.declarations rule))) rules))
      (fold_left Z.max (map ParsedSelector.depth selectors) c)
      (d + sumList (map (fun rule => Metrics.countImportant (ParsedRule.declarations rule))
                      rules))
      (e + sumList (map (fun rule =>
                           Metrics.calculateLayoutRiskForDeclarations
                             (ParsedRule.declarations rule)) rules))
      (ds ++ map ParsedSelector.depth selectors)
      (ss ++ map ParsedSelector.specificity selectors).
Proof.
  cbv zeta. revert a b c d e ds ss.
  induction rules as [|rule rules IH]; intros a b c d e ds ss.
  - simpl. rewrite !app_nil_r. f_equal; lia.
  - rewrite forOf_cons. simpl Metrics.FileLoop.totalSelectors.
    simpl Metrics.FileLoop.totalDeclarations. simpl Metrics.FileLoop.maxSelectorDepth.
    simpl Metrics.FileLoop.importantCount. simpl Metrics.FileLoop.layoutRiskScore.
    simpl Metrics.FileLoop.allDepths. simpl Metrics.FileLoop.allSpecificities.
    rewrite selector_loop. rewrite IH.
    simpl flat_map. simpl map. simpl sumList.
    rewrite !length_app, !map_app, fold_left_app, <- !app_assoc.
    unfold Metrics.countImportantInRule.
    f_equal; lia.
Qed.

Lemma fold_max_bounds (xs : list Z) (c : Z) :
  c <= fold_left Z.max xs c
  /\ Forall (fun x => x <= fold_left Z.max xs c) xs
  /\ (fold_left Z.max xs c = c \/ In (fold_left Z.max xs c) xs).
Proof.
  revert c. induction xs as [|x xs IH]; intros c; simpl.
  - split; [lia|]. split; [constructor|now left].
  - destruct (IH (Z.max c x)) as (Hle & Hall & Hcase).
    split; [lia|]. split; [constructor; [lia|exact Hall]|].
    destruct Hcase as [Heq|Hin]; [|now right; right].
    destruct (Z.max_spec c x) as [[_ Hm]|[_ Hm]].
    + right. left. congruence.
    + left. congruence.
Qed.

Lemma calculateFileMetrics_loop (parseResult : ParseResult.t) :
  let selectors := selectorsOf parseResult in
  Metrics.calculateFileMetrics parseResult
  = {| FileMetrics.file := ParseResult.file parseResult;
       FileMetrics.totalRules := rulesIn parseResult;
       FileMetrics.totalSelectors := Z.of_nat (length selectors);
       FileMetrics.totalDeclarations := declarationsIn parseResult;
       FileMetrics.maxSelectorDepth :=
         fold_left Z.max (map ParsedSelector.depth selectors) 0;
       FileMetrics.avgSelectorDepth :=
         Metrics.round2
           (Metrics.calculateAverage (map inject_Z (map ParsedSelector.depth selectors)));
       FileMetrics.maxSpecificity :=
         Metrics.findMaxSpecificity (map ParsedSelector.specificity selectors);
       FileMetrics.avgSpecificity :=
         Metrics.calculateAverageSpecificity
           (map Metrics.specificityQ (map ParsedSelector.specificity selectors));
       FileMetrics.importantCount := importantIn parseResult;
       FileMetrics.duplicateDeclarationCount := 0;
       FileMetrics.layoutRiskScore := layoutRiskIn parseResult |}.
Proof.
  unfold Metrics.calculateFileMetrics. cbv zeta.
  pose proof (rule_loop (ParseResult.rules parseResult) 0 0 0 0 0 [] []) as Hloop.
  cbv zeta in Hloop. rewrite Hloop. simpl. reflexivity.
Qed.

(** X1.  The totals of a file count what the file holds; the count of
    duplicate declarations is always 0. *)
Theorem calculateFileMetrics_totals (parseResult : ParseResult.t) :
  FileMetrics.file (Metrics.calculateFileMetrics parseResult) = ParseResult.file parseResult
  /\ FileMetrics.totalRules (Metrics.calculateFileMetrics parseResult)
     = Z.of_nat (length (ParseResult.rules parseResult))
  /\ FileMetrics.totalSelectors (Metrics.calculateFileMetrics parseResult)
     = Z.of_nat (length (selectorsOf parseResult))
  /\ FileMetrics.totalDeclarations (Metrics.calculateFileMetrics parseResult)
     = declarationsIn parseResult
  /\ FileMetrics.importantCount (Metrics.calculateFileMetrics parseResult)
     = importantIn parseResult
  /\ FileMetrics.layoutRiskScore (Metrics.calculateFileMetrics parseResult)
     = layoutRiskIn parseResult
  /\ FileMetrics.duplicateDeclarationCount (Metrics.calculateFileMetrics parseResult) = 0.
Proof.
  rewrite calculateFileMetrics_loop. cbv zeta. simpl. repeat split.
Qed.

(** ** Averages and maxima *)

Lemma Math_round_le (x : Q) (z : Z) : (x <= inject_Z z)%Q -> JS.Math_round x <= z.
Proof.
  intros Hx. unfold JS.Math_round.
  pose proof (Qfloor_le (x + (1 # 2))) as Hfloor.
  destruct (Z_le_gt_dec (Qfloor (x + (1 # 2))) z) as [Hle|Hgt]; [exact Hle|].
  assert (z + 1 <= Qfloor (x + (1 # 2))) as Hz by lia.
  rewrite Zle_Qle in Hz. rewrite inject_Z_plus in Hz.
  change (inject_Z 1) with 1%Q in Hz.
  set (f := inject_Z (Qfloor (x + (1 # 2)))) in *. clearbody f.
  set (q := inject_Z z) in *. clearbody q. lra.
Qed.

Lemma Math_round_ge (x : Q) (z : Z) : (inject_Z z <= x)%Q -> z <= JS.Math_round x.
Proof.
  intros Hx. unfold JS.Math_round.
  pose proof (Qlt_floor (x + (1 # 2))) as Hfloor.
  destruct (Z_le_gt_dec z (Qfloor (x + (1 # 2)))) as [Hle|Hgt]; [exact Hle|].
  assert (Qfloor (x + (1 # 2)) + 1 <= z) as Hz by lia.
  rewrite Zle_Qle in Hz.
  set (f := inject_Z (Qfloor (x + (1 # 2)) + 1)) in *. clearbody f.
  set (q := inject_Z z) in *. clearbody q. lra.
Qed.

Lemma round2_le (x : Q) (z : Z) : (x <= inject_Z z)%Q -> (Metrics.round2 x <= inject_Z z)%Q.
Proof.
  intros Hx. unfold Metrics.round2.
  assert (JS.Math_round (x * 100) <= z * 100) as Hround.
  { apply Math_round_le. rewrite inject_Z_mult. change (inject_Z 100) with 100%Q.
    set (q := inject_Z z) in *. clearbody q. lra. }
  rewrite Zle_Qle in Hround. rewrite inject_Z_mult in Hround.
  change (inject_Z 100) with 100%Q in Hround.
  apply Qle_shift_div_r; [reflexivity|exact Hround].
Qed.

Lemma round2_ge (x : Q) (z : Z) : (inject_Z z <= x)%Q -> (inject_Z z <= Metrics.round2 x)%Q.
Proof.
  intros Hx. unfold Metrics.round2.
  assert (z * 100 <= JS.Math_round (x * 100)) as Hround.
  { apply Math_round_ge. rewrite inject_Z_mult. change (inject_Z 100) with 100%Q.
    set (q := inject_Z z) in *. clearbody q. lra. }
  rewrite Zle_Qle in Hround. rewrite inject_Z_mult in Hround.
  change (inject_Z 100) with 100%Q in Hround.
  apply Qle_shift_div_l; [reflexivity|exact Hround].
Qed.

Lemma lengthQ_cons {A} (x : A) (xs : list A) :
  (Metrics.lengthQ (x :: xs) == Metrics.lengthQ xs + 1)%Q.
Proof.
  unfold Metrics.lengthQ. simpl length. rewrite Nat2Z.inj_succ.
  unfold Z.succ. rewrite inject_Z_plus. reflexivity.
Qed.

Lemma lengthQ_pos {A} (x : A) (xs : list A) : (0 < Metrics.lengthQ (x :: xs))%Q.
Proof.
  unfold Metrics.lengthQ. change 0%Q with (inject_Z 0). rewrite <- Zlt_Qlt.
  simpl length. lia.
Qed.

Lemma sumQ_le (hi : Q) (numbers : list Q) :
  Forall (fun x => x <= hi)%Q numbers ->
  (Metrics.sumQ numbers <= hi * Metrics.lengthQ numbers)%Q.
Proof.
  unfold Metrics.sumQ.
  assert (forall init,
    Forall (fun x => x <= hi)%Q numbers ->
    (fold_left (fun sum n => sum + n) numbers init
     <= init + hi * Metrics.lengthQ numbers)%Q) as H.
  { induction numbers as [|x xs IH]; intros init Hall; simpl.
    - change (Metrics.lengthQ (@nil Q)) with 0%Q. lra.
    - inversion Hall as [|? ? Hhi Hrest]; subst.
      pose proof (IH (init + x)%Q Hrest) as H1.
      pose proof (lengthQ_cons x xs) as Hlen.
      set (n := Metrics.lengthQ xs) in *. clearbody n.
      set (n' := Metrics.lengthQ (x :: xs)) in *. clearbody n'.
      set (f := fold_left (fun sum n0 => (sum + n0)%Q) xs (init + x)%Q) in *. clearbody f.
      rewrite Hlen. lra. }
  intros Hall. specialize (H 0%Q Hall). lra.
Qed.

Lemma sumQ_ge (lo : Q) (numbers : list Q) :
  Forall (fun x => lo <= x)%Q numbers ->
  (lo * Metrics.lengthQ numbers <= Metrics.sumQ numbers)%Q.
Proof.
  unfold Metrics.sumQ.
  assert (forall init,
    Forall (fun x => lo <= x)%Q numbers ->
    (init + lo * Metrics.lengthQ numbers
     <= fold_left (fun sum n => sum + n) numbers init)%Q) as H.
  { induction numbers as [|x xs IH]; intros init Hall; simpl.
    - change (Metrics.lengthQ (@nil Q)) with 0%Q. lra.
    - inversion Hall as [|? ? Hlo Hrest]; subst.
      pose proof (IH (init + x)%Q Hrest) as H1.
      pose proof (lengthQ_cons x xs) as Hlen.
      set (n := Metrics.lengthQ xs) in *. clearbody n.
      set (n' := Metrics.lengthQ (x :: xs)) in *. clearbody n'.
      set (f := fold_left (fun sum n0 => (sum + n0)%Q) xs (init + x)%Q) in *. clearbody f.
      rewrite Hlen. lra. }
  intros Hall. specialize (H 0%Q Hall). lra.
Qed.

Lemma calculateAverage_le (hi : Q) (numbers : list Q) :
  (0 <= hi)%Q -> Forall (fun x => x <= hi)%Q numbers ->
  (Metrics.calculateAverage numbers <= hi)%Q.
Proof.
  intros Hhi Hall. destruct numbers as [|x xs]; [exact Hhi|].
  unfold Metrics.calculateAverage.
  apply Qle_shift_div_r; [apply lengthQ_pos|now apply sumQ_le].
Qed.

Lemma calculateAverage_ge (lo : Q) (numbers : list Q) :
  (lo <= 0)%Q -> Forall (fun x => lo <= x)%Q numbers ->
  (lo <= Metrics.calculateAverage numbers)%Q.
Proof.
  intros Hlo Hall. destruct numbers as [|x xs]; [exact Hlo|].
  unfold Metrics.calculateAverage.
  apply Qle_shift_div_l; [apply lengthQ_pos|now apply sumQ_ge].
Qed.

Lemma calculateFileMetrics_maxDepth (parseResult : ParseResult.t) :
  0 <= FileMetrics.maxSelectorDepth (Metrics.calculateFileMetrics parseResult)
  /\ Forall
       (fun selector =>
          ParsedSelector.depth selector
          <= FileMetrics.maxSelectorDepth (Metrics.calculateFileMetrics parseResult))
       (selectorsOf parseResult)
  /\ (FileMetrics.maxSelectorDepth (Metrics.calculateFileMetrics parseResult) = 0
      \/ Exists
           (fun selector =>
              ParsedSelector.depth selector
              = FileMetrics.maxSelectorDepth (Metrics.calculateFileMetrics parseResult))
           (selectorsOf parseResult)).
Proof.
  rewrite calculateFileMetrics_loop. cbv zeta. simpl.
  destruct (fold_max_bounds (map ParsedSelector.depth (selectorsOf parseResult)) 0)
    as (Hle & Hall & Hcase).
  split; [exact Hle|]. split.
  - rewrite Forall_map in Hall. exact Hall.
  - destruct Hcase as [Heq|Hin]; [now left|right].
    apply in_map_iff in Hin. destruct Hin as (s & Hs & Hin).
    apply Exists_exists. exists s. split; [now apply list_elem_of_In|exact Hs].
Qed.

(** X2.  In the metrics of a file, the maximum selector depth is 0 or the
    depth of one of its selectors, no selector is deeper, and the
    average depth does not exceed it. *)
Theorem calculateFileMetrics_depth (parseResult : ParseResult.t) :
  0 <= FileMetrics.maxSelectorDepth (Metrics.calculateFileMetrics parseResult)
  /\ Forall
       (fun selector =>
          ParsedSelector.depth selector
          <= FileMetrics.maxSelectorDepth (Metrics.calculateFileMetrics parseResult))
       (selectorsOf parseResult)
  /\ (FileMetrics.maxSelectorDepth (Metrics.calculateFileMetrics parseResult) = 0
      \/ Exists
           (fun selector =>
              ParsedSelector.depth selector
              = FileMetrics.maxSelectorDepth (Metrics.calculateFileMetrics parseResult))
           (selectorsOf parseResult))
  /\ (FileMetrics.avgSelectorDepth (Metrics.calculateFileMetrics parseResult)
      <= inject_Z (FileMetrics.maxSelectorDepth (Metrics.calculateFileMetrics parseResult)))%Q.
Proof.
  rewrite calculateFileMetrics_loop. cbv zeta. simpl.
  destruct (fold_max_bounds (map ParsedSelector.depth (selectorsOf parseResult)) 0)
    as (Hle & Hall & Hcase).
  set (m := fold_left Z.max (map ParsedSelector.depth (selectorsOf parseResult)) 0) in *.
  split; [exact Hle|]. split; [|split].
  - rewrite Forall_map in Hall. exact Hall.
  - destruct Hcase as [Heq|Hin]; [now left|right].
    apply in_map_iff in Hin. destruct Hin as (s & Hs & Hin).
    apply Exists_exists. exists s. split; [now apply list_elem_of_In|exact Hs].
  - apply round2_le. apply calculateAverage_le.
    + change 0%Q with (inject_Z 0). rewrite <- Zle_Qle. exact Hle.
    + apply Forall_forall. intros q Hq. apply list_elem_of_In in Hq.
      apply in_map_iff in Hq. destruct Hq as (d & <- & Hd).
      rewrite Forall_forall in Hall. apply list_elem_of_In in Hd.
      specialize (Hall d Hd). simpl in Hall. rewrite <- Zle_Qle. exact Hall.
Qed.

(** ** Global metrics *)

Lemma ruleOccurrences_length (parseResults : list ParseResult.t) :
  Z.of_nat (length (ruleOccurrences parseResults)) = totalRulesOf parseResults.
Proof.
  unfold ruleOccurrences, totalRulesOf.
  induction parseResults as [|r rest IH]; simpl; [reflexivity|].
  rewrite length_app, length_map, Nat2Z.inj_add, IH. reflexivity.
Qed.

Lemma occurrences_length (parseResults : list ParseResult.t) :
  Z.of_nat (length (occurrences parseResults))
  = sumList (map (fun r => Z.of_nat (length (selectorsOf r))) parseResults).
Proof.
  unfold occurrences.
  induction parseResults as [|r rest IH]; simpl; [reflexivity|].
  rewrite length_app, Nat2Z.inj_add, IH. f_equal. unfold selectorsOf.
  induction (ParseResult.rules r) as [|rule rules IHr]; simpl; [reflexivity|].
  rewrite !length_app, length_map, !Nat2Z.inj_add, IHr. reflexivity.
Qed.

Lemma declOccurrences_length (parseResults : list ParseResult.t) :
  Z.of_nat (length (declOccurrences parseResults))
  = sumList (map declarationsIn parseResults).
Proof.
  unfold declOccurrences.
  induction parseResults as [|r rest IH]; simpl; [reflexivity|].
  rewrite length_app, Nat2Z.inj_add, IH. f_equal. unfold declarationsIn.
  induction (ParseResult.rules r) as [|rule rules IHr]; simpl; [reflexivity|].
  rewrite !length_app, length_map, !Nat2Z.inj_add, IHr. reflexivity.
Qed.

Lemma importantOccurrences_length (parseResults : list ParseResult.t) :
  Z.of_nat (length (List.filter isImportantOccurrence (declOccurrences parseResults)))
  = totalImportantOf parseResults.
Proof.
  unfold declOccurrences, totalImportantOf.
  induction parseResults as [|r rest IH]; simpl; [reflexivity|].
  rewrite List.filter_app, length_app, Nat2Z.inj_add, IH. f_equal. unfold importantIn.
  induction (ParseResult.rules r) as [|rule rules IHr]; simpl; [reflexivity|].
  rewrite List.filter_app, length_app, Nat2Z.inj_add, IHr. f_equal.
  unfold Metrics.countImportant. f_equal.
  induction (ParsedRule.declarations rule) as [|d ds IHd]; simpl; [reflexivity|].
  unfold isImportantOccurrence at 1. simpl.
  destruct (ParsedDeclaration.important d); simpl; now rewrite IHd.
Qed.

Lemma ruleOccurrences_risk (parseResults : list ParseResult.t) :
  sumList (map (fun o =>
                  Metrics.calculateLayoutRiskForDeclarations
                    (ParsedRule.declarations (RuleOccurrence.rule o)))
             (ruleOccurrences parseResults))
  = sumList (map layoutRiskIn parseResults).
Proof.
  unfold ruleOccurrences.
  induction parseResults as [|r rest IH]; simpl; [reflexivity|].
  rewrite map_app, sumList_app, IH. f_equal. unfold layoutRiskIn.
  now rewrite map_map.
Qed.

Lemma calculateGlobalMetrics_sums (fileMetrics : list FileMetrics.t) :
  GlobalMetrics.totalFiles (Metrics.calculateGlobalMetrics fileMetrics)
  = Z.of_nat (length fileMetrics)
  /\ GlobalMetrics.totalRules (Metrics.calculateGlobalMetrics fileMetrics)
     = sumList (map FileMetrics.totalRules fileMetrics)
  /\ GlobalMetrics.totalSelectors (Metrics.calculateGlobalMetrics fileMetrics)
     = sumList (map FileMetrics.totalSelectors fileMetrics)
  /\ GlobalMetrics.totalDeclarations (Metrics.calculateGlobalMetrics fileMetrics)
     = sumList (map FileMetrics.totalDeclarations fileMetrics)
  /\ GlobalMetrics.totalImportantCount (Metrics.calculateGlobalMetrics fileMetrics)
     = sumList (map FileMetrics.importantCount fileMetrics)
  /\ GlobalMetrics.totalDuplicateDeclarations (Metrics.calculateGlobalMetrics fileMetrics)
     = sumList (map FileMetrics.duplicateDeclarationCount fileMetrics)
  /\ GlobalMetrics.overallLayoutRiskScore (Metrics.calculateGlobalMetrics fileMetrics)
     = sumList (map FileMetrics.layoutRiskScore fileMetrics).
Proof.
  destruct fileMetrics as [|m ms]; [simpl; repeat split|].
  unfold Metrics.calculateGlobalMetrics. cbv zeta.
  cbn [GlobalMetrics.totalFiles GlobalMetrics.totalRules GlobalMetrics.totalSelectors
       GlobalMetrics.totalDeclarations GlobalMetrics.totalImportantCount
       GlobalMetrics.totalDuplicateDeclarations GlobalMetrics.overallLayoutRiskScore].
  rewrite !sumZ_sumList. repeat split.
Qed.

Lemma map_calculateFileMetrics {B} (f : FileMetrics.t -> B) (g : ParseResult.t -> B)
    (parseResults : list ParseResult.t) :
  (forall r, f (Metrics.calculateFileMetrics r) = g r) ->
  map f (map Metrics.calculateFileMetrics parseResults) = map g parseResults.
Proof.
  intros H. rewrite map_map. apply map_ext. exact H.
Qed.

(** X3.  The global totals of a report count the files, rules, selectors,
    declarations and !important declarations of the input and add up
    the layout risk of its rules; the total of duplicate declarations
    is 0 for every input. *)
Theorem globalMetrics_totals (parseResults : list ParseResult.t) :
  GlobalMetrics.totalFiles (globalMetricsOf parseResults)
  = Z.of_nat (length parseResults)
  /\ GlobalMetrics.totalRules (globalMetricsOf parseResults)
     = Z.of_nat (length (ruleOccurrences parseResults))
  /\ GlobalMetrics.totalSelectors (globalMetricsOf parseResults)
     = Z.of_nat (length (occurrences parseResults))
  /\ GlobalMetrics.totalDeclarations (globalMetricsOf parseResults)
     = Z.of_nat (length (declOccurrences parseResults))
  /\ GlobalMetrics.totalImportantCount (globalMetricsOf parseResults)
     = Z.of_nat (length (List.filter isImportantOccurrence (declOccurrences parseResults)))
  /\ GlobalMetrics.totalDuplicateDeclarations (globalMetricsOf parseResults) = 0
  /\ GlobalMetrics.overallLayoutRiskScore (globalMetricsOf parseResults)
     = sumList (map (fun o =>
                       Metrics.calculateLayoutRiskForDeclarations
                         (ParsedRule.declarations (RuleOccurrence.rule o)))
                  (ruleOccurrences parseResults)).
Proof.
  unfold globalMetricsOf.
  destruct (calculateGlobalMetrics_sums (map Metrics.calculateFileMetrics parseResults))
    as (H1 & H2 & H3 & H4 & H5 & H6 & H7).
  rewrite H1, H2, H3, H4, H5, H6, H7. clear H1 H2 H3 H4 H5 H6 H7.
  rewrite length_map.
  rewrite ruleOccurrences_length, occurrences_length, declOccurrences_length,
    importantOccurrences_length, ruleOccurrences_risk.
  unfold totalRulesOf, totalImportantOf.
  rewrite (map_calculateFileMetrics FileMetrics.totalRules rulesIn)
    by (intros r; now rewrite calculateFileMetrics_loop).
  rewrite (map_calculateFileMetrics FileMetrics.totalSelectors
             (fun r => Z.of_nat (length (selectorsOf r))))
    by (intros r; now rewrite calculateFileMetrics_loop).
  rewrite (map_calculateFileMetrics FileMetrics.totalDeclarations declarationsIn)
    by (intros r; now rewrite calculateFileMetrics_loop).
  rewrite (map_calculateFileMetrics FileMetrics.importantCount importantIn)
    by (intros r; now rewrite calculateFileMetrics_loop).
  rewrite (map_calculateFileMetrics FileMetrics.layoutRiskScore layoutRiskIn)
    by (intros r; now rewrite calculateFileMetrics_loop).
  rewrite (map_calculateFileMetrics FileMetrics.duplicateDeclarationCount (fun _ => 0))
    by (intros r; now rewrite calculateFileMetrics_loop).
  repeat split.
  induction parseResults as [|r rest IH]; simpl; [reflexivity|exact IH].
Qed.

Lemma Math_max_bounds (x : Z) (xs : list Z) :
  Forall (fun y => y <= JS.Math_max (x :: xs)) (x :: xs)
  /\ In (JS.Math_max (x :: xs)) (x :: xs).
Proof.
  simpl JS.Math_max.
  destruct (fold_max_bounds xs x) as (Hle & Hall & Hcase).
  split; [constructor; assumption|].
  destruct Hcase as [Heq|Hin]; [left; now symmetry|now right].
Qed.

(** X4.  The global maximum selector depth is 0 or the depth of a selector
    of the input, and no selector of the input is deeper. *)
Theorem globalMetrics_depth (parseResults : list ParseResult.t) :
  0 <= GlobalMetrics.maxSelectorDepth (globalMetricsOf parseResults)
  /\ Forall
       (fun o =>
          ParsedSelector.depth (Occurrence.selector o)
          <= GlobalMetrics.maxSelectorDepth (globalMetricsOf parseResults))
       (occurrences parseResults)
  /\ (GlobalMetrics.maxSelectorDepth (globalMetricsOf parseResults) = 0
      \/ Exists
           (fun o =>
              ParsedSelector.depth (Occurrence.selector o)
              = GlobalMetrics.maxSelectorDepth (globalMetricsOf parseResults))
           (occurrences parseResults)).
Proof.
  assert (forall r o, In r parseResults ->
            In o (flat_map (fun rule => map (Occurrence.mk r rule) (ParsedRule.selectors rule))
                    (ParseResult.rules r)) ->
            In o (occurrences parseResults)) as Hocc.
  { intros r o Hr Ho. unfold occurrences. apply in_flat_map. now exists r. }
  assert (forall r s, In s (selectorsOf r) ->
            exists o, In o (flat_map
                              (fun rule => map (Occurrence.mk r rule) (ParsedRule.selectors rule))
                              (ParseResult.rules r))
                      /\ Occurrence.selector o = s) as Hsel.
  { intros r s Hs. unfold selectorsOf in Hs. apply in_flat_map in Hs.
    destruct Hs as (rule & Hrule & Hs). exists (Occurrence.mk r rule s).
    split; [|reflexivity]. apply in_flat_map. exists rule. split; [exact Hrule|].
    now apply in_map. }
  destruct parseResults as [|r rest].
  { simpl. split; [lia|]. split; [constructor|now left]. }
  unfold globalMetricsOf. simpl map. unfold Metrics.calculateGlobalMetrics. cbv zeta.
  cbn [GlobalMetrics.maxSelectorDepth]. simpl map.
  destruct (Math_max_bounds
              (FileMetrics.maxSelectorDepth (Metrics.calculateFileMetrics r))
              (map FileMetrics.maxSelectorDepth (map Metrics.calculateFileMetrics rest)))
    as (Hall & Hin).
  set (M := JS.Math_max
              (FileMetrics.maxSelectorDepth (Metrics.calculateFileMetrics r)
               :: map FileMetrics.maxSelectorDepth (map Metrics.calculateFileMetrics rest)))
    in *.
  assert (forall r', In r' (r :: rest) ->
            FileMetrics.maxSelectorDepth (Metrics.calculateFileMetrics r') <= M) as Hfile.
  { intros r' Hr'. rewrite Forall_forall in Hall. apply Hall.
    apply list_elem_of_In.
    change (In (FileMetrics.maxSelectorDepth (Metrics.calculateFileMetrics r'))
              (map FileMetrics.maxSelectorDepth (map Metrics.calculateFileMetrics (r :: rest)))).
    rewrite map_map. apply in_map_iff. now exists r'. }
  split; [|split].
  - pose proof (Hfile r (or_introl eq_refl)) as Hr.
    destruct (calculateFileMetrics_maxDepth r) as (H0 & _).
    eapply Z.le_trans; [exact H0|exact Hr].
  - apply Forall_forall. intros o Ho. apply list_elem_of_In in Ho.
    unfold occurrences in Ho. apply in_flat_map in Ho.
    destruct Ho as (r' & Hr' & Ho). apply in_flat_map in Ho.
    destruct Ho as (rule & Hrule & Ho). apply in_map_iff in Ho.
    destruct Ho as (s & <- & Hs). simpl.
    destruct (calculateFileMetrics_maxDepth r') as (_ & Hdepth & _).
    rewrite Forall_forall in Hdepth.
    assert (In s (selectorsOf r')) as Hs'.
    { unfold selectorsOf. apply in_flat_map. now exists rule. }
    apply list_elem_of_In in Hs'. specialize (Hdepth s Hs'). simpl in Hdepth.
    specialize (Hfile r' Hr'). eapply Z.le_trans; [exact Hdepth|exact Hfile].
  - change (In M (map FileMetrics.maxSelectorDepth
                    (map Metrics.calculateFileMetrics (r :: rest)))) in Hin.
    rewrite map_map in Hin. apply in_map_iff in Hin. destruct Hin as (r' & HM & Hr').
    destruct (calculateFileMetrics_maxDepth r') as (_ & _ & Hcase).
    rewrite HM in Hcase. destruct Hcase as [Hz|Hex]; [now left|right].
    apply Exists_exists in Hex. destruct Hex as (s & Hs & Heq).
    apply list_elem_of_In in Hs. destruct (Hsel r' s Hs) as (o & Ho & Hos).
    apply Exists_exists. exists o. split.
    + apply list_elem_of_In. now apply (Hocc r').
    + now rewrite Hos.
Qed.

(** ** Layout risk: bounds and order *)

Lemma layoutRiskOf_bounds (d : ParsedDeclaration.t) :
  (isLayoutDeclaration d = true -> 1 <= layoutRiskOf d)
  /\ (isLayoutDeclaration d = false -> layoutRiskOf d = 0).
Proof.
  unfold layoutRiskOf, isLayoutDeclaration.
  destruct (Metrics.has Metrics.LAYOUT_PROPERTIES (ParsedDeclaration.property d)).
  - split; [intros _|discriminate].
    destruct (String.eqb (ParsedDeclaration.property d) "position"
              && (String.eqb (ParsedDeclaration.value d) "absolute"
                  || String.eqb (ParsedDeclaration.value d) "fixed"))%bool;
      destruct (JS.startsWith (ParsedDeclaration.property d) "margin"
                && JS.includes (ParsedDeclaration.value d) "-")%bool; lia.
  - split; [discriminate|reflexivity].
Qed.

Lemma additivePass_bounds (declarations : list ParsedDeclaration.t) :
  Z.of_nat (length (layoutDeclarations declarations)) <= additivePass declarations
  /\ (layoutDeclarations declarations = [] -> additivePass declarations = 0).
Proof.
  unfold layoutDeclarations.
  induction declarations as [|d ds [IH1 IH2]]; simpl; [split; [lia|reflexivity]|].
  destruct (layoutRiskOf_bounds d) as [Hyes Hno].
  destruct (isLayoutDeclaration d) eqn:E; simpl.
  - specialize (Hyes eq_refl). split; [lia|discriminate].
  - specialize (Hno eq_refl). split; [lia|]. intros Hnil. rewrite (IH2 Hnil). lia.
Qed.

Lemma applyCombinations_ge declarations (combos : list RiskyCombination.t) (total : Z) :
  Forall (fun combo => 1 <= RiskyCombination.riskMultiplier combo)%Q combos ->
  0 <= total ->
  total <= applyCombinations declarations combos total.
Proof.
  intros Hall. revert total.
  induction Hall as [|combo combos Hm Hall IH]; intros total Htotal; simpl; [lia|].
  destruct (combinationPresent declarations combo).
  - assert (total <= JS.Math_round
                       (inject_Z total * RiskyCombination.riskMultiplier combo)) as Hstep.
    { apply Math_round_ge.
      assert (0 <= inject_Z total)%Q as Hq
        by (change 0%Q with (inject_Z 0); now rewrite <- Zle_Qle).
      set (q := inject_Z total) in *. clearbody q.
      set (m := RiskyCombination.riskMultiplier combo) in *. clearbody m. nra. }
    specialize (IH _ (Z.le_trans _ _ _ Htotal Hstep)). lia.
  - now apply IH.
Qed.

Lemma applyCombinations_zero declarations (combos : list RiskyCombination.t) :
  applyCombinations declarations combos 0 = 0.
Proof.
  induction combos as [|combo combos IH]; simpl; [reflexivity|].
  destruct (combinationPresent declarations combo); [|exact IH].
  replace (JS.Math_round (inject_Z 0 * RiskyCombination.riskMultiplier combo)) with 0;
    [exact IH|].
  unfold JS.Math_round. symmetry.
  assert (inject_Z 0 * RiskyCombination.riskMultiplier combo + (1 # 2) == 1 # 2)%Q as Hq
    by (change (inject_Z 0) with 0%Q; ring).
  rewrite Hq. reflexivity.
Qed.

Lemma RISKY_COMBINATIONS_multipliers :
  Forall (fun combo => 1 <= RiskyCombination.riskMultiplier combo)%Q
    Metrics.RISKY_COMBINATIONS.
Proof. repeat constructor; discriminate. Qed.

Lemma calculateLayoutRisk_unfold (declarations : list ParsedDeclaration.t) :
  Metrics.calculateLayoutRiskForDeclarations declarations
  = applyCombinations declarations Metrics.RISKY_COMBINATIONS (additivePass declarations).
Proof.
  unfold Metrics.calculateLayoutRiskForDeclarations.
  rewrite additive_loop. rewrite combination_loop. reflexivity.
Qed.

Lemma additivePass_Permutation (ds ds' : list ParsedDeclaration.t) :
  Permutation ds ds' -> additivePass ds = additivePass ds'.
Proof. induction 1; simpl; lia. Qed.

Lemma existsb_Permutation {A} (p : A -> bool) (xs ys : list A) :
  Permutation xs ys -> existsb p xs = existsb p ys.
Proof.
  induction 1 as [|x xs ys _ IH|x y xs|xs ys zs _ IH1 _ IH2]; simpl.
  - reflexivity.
  - now rewrite IH.
  - destruct (p x), (p y); reflexivity.
  - congruence.
Qed.

Lemma applyCombinations_Permutation (ds ds' : list ParsedDeclaration.t)
    (combos : list RiskyCombination.t) (total : Z) :
  Permutation ds ds' ->
  applyCombinations ds combos total = applyCombinations ds' combos total.
Proof.
  intros Hperm. revert total.
  induction combos as [|combo combos IH]; intros total; simpl; [reflexivity|].
  assert (combinationPresent ds combo = combinationPresent ds' combo) as Hpresent.
  { unfold combinationPresent.
    induction (RiskyCombination.properties combo) as [|p ps IHp]; simpl; [reflexivity|].
    rewrite IHp. f_equal. now apply existsb_Permutation. }
  rewrite Hpresent. apply IH.
Qed.

(** X5.  The layout risk of a rule is at least the number of its
    declarations of layout properties (the combinations never lower
    the score), it is 0 exactly when the rule has no such declaration,
    and it does not depend on the order of the declarations. *)
Theorem calculateLayoutRisk_bounds (declarations declarations' : list ParsedDeclaration.t) :
  Z.of_nat (length (layoutDeclarations declarations))
  <= Metrics.calculateLayoutRiskForDeclarations declarations
  /\ (Metrics.calculateLayoutRiskForDeclarations declarations = 0
      <-> layoutDeclarations declarations = [])
  /\ (Permutation declarations declarations' ->
      Metrics.calculateLayoutRiskForDeclarations declarations
      = Metrics.calculateLayoutRiskForDeclarations declarations').
Proof.
  rewrite !calculateLayoutRisk_unfold.
  destruct (additivePass_bounds declarations) as [Hcount Hnone].
  assert (0 <= additivePass declarations) as Hnonneg by lia.
  pose proof (applyCombinations_ge declarations Metrics.RISKY_COMBINATIONS
                (additivePass declarations) RISKY_COMBINATIONS_multipliers Hnonneg) as Hge.
  split; [lia|]. split; [split|].
  - intros Hzero. destruct (layoutDeclarations declarations) as [|d ds]; [reflexivity|].
    simpl length in Hcount. lia.
  - intros Hnil. rewrite (Hnone Hnil). apply applyCombinations_zero.
  - intros Hperm. rewrite (additivePass_Permutation _ _ Hperm).
    now apply applyCombinations_Permutation.
Qed.

Lemma calculateLayoutRisk_bounds_witness :
  Metrics.calculateLayoutRiskForDeclarations positionedDeclarations
  = Metrics.calculateLayoutRiskForDeclarations positionedDeclarationsReordered.
Proof.
  apply (calculateLayoutRisk_bounds positionedDeclarations positionedDeclarationsReordered).
  unfold positionedDeclarations, positionedDeclarationsReordered.
  apply Permutation_rev.
Defined.

(** ** Worst offenders: how many *)

Lemma sort_length {A} (cmp : A -> A -> Z) (l : list A) :
  length (JS.sort cmp l) = length l.
Proof. apply Permutation_length. apply sort_Permutation. Qed.

(** X6.  [extractTopSelectors] returns min(N, n) entries of the n selector
    occurrences for a limit N that is not negative; a negative limit
    leaves out that many of the lowest-scored entries (slice counts
    from the end); when the limit reaches n nothing is left out. *)
Theorem extractTopSelectors_length (parseResults : list ParseResult.t) (limit : Z) :
  Z.of_nat (length (Metrics.extractTopSelectors parseResults limit))
  = (if limit <? 0
     then Z.max 0 (Z.of_nat (length (occurrences parseResults)) + limit)
     else Z.min limit (Z.of_nat (length (occurrences parseResults))))
  /\ (Z.of_nat (length (occurrences parseResults)) <= limit ->
      Permutation (Metrics.extractTopSelectors parseResults limit)
        (map topSelectorOf (occurrences parseResults))).
Proof.
  rewrite extractTopSelectors_unfold.
  set (sorted := JS.sort (fun a b => TopSelector.score b - TopSelector.score a)
                   (map topSelectorOf (occurrences parseResults))).
  assert (length sorted = length (occurrences parseResults)) as Hlen
    by (unfold sorted; now rewrite sort_length, length_map).
  unfold JS.slice0. rewrite Hlen. split.
  - destruct (Z.ltb_spec limit 0); rewrite length_firstn, Hlen; lia.
  - intros Hall. destruct (Z.ltb_spec limit 0); [lia|].
    rewrite firstn_all2 by lia. apply sort_Permutation.
Qed.

Lemma extractTopSelectors_length_witness :
  Permutation (Metrics.extractTopSelectors twoFiles 10)
    (map topSelectorOf (occurrences twoFiles)).
Proof.
  apply (extractTopSelectors_length twoFiles 10). vm_compute. discriminate.
Defined.

(** ** Maps filled by a loop *)

Lemma Map_get_None {V} (m : JS.Map.t V) (k : string) :
  ~ In k (keysOf m) -> JS.Map.get m k = None.
Proof.
  induction m as [|[k' v] m IH]; simpl; [reflexivity|]. intros Hnot.
  destruct (String.eqb_spec k k') as [->|Hne]; [exfalso; apply Hnot; now left|].
  apply IH. intros Hin. apply Hnot. now right.
Qed.

Lemma Map_set_fresh {V} (m : JS.Map.t V) (k : string) (v : V) :
  ~ In k (keysOf m) -> JS.Map.set m k v = m ++ [(k, v)].
Proof.
  induction m as [|[k' v'] m IH]; simpl; [reflexivity|]. intros Hnot.
  destruct (String.eqb_spec k k') as [->|Hne]; [exfalso; apply Hnot; now left|].
  rewrite IH; [reflexivity|]. intros Hin. apply Hnot. now right.
Qed.

Lemma Map_get_groups {V} (f : string -> V) (keys : list string) (k : string) :
  JS.Map.get (map (fun k' => (k', f k')) keys) k
  = if existsb (String.eqb k) keys then Some (f k) else None.
Proof.
  induction keys as [|k' keys IH]; simpl; [reflexivity|].
  destruct (String.eqb_spec k k') as [->|Hne]; simpl; [reflexivity|exact IH].
Qed.

Lemma Map_set_groups {V} (f : string -> V) (keys : list string) (k : string) (v : V) :
  NoDup keys -> In k keys ->
  JS.Map.set (map (fun k' => (k', f k')) keys) k v
  = map (fun k' => (k', if String.eqb k' k then v else f k')) keys.
Proof.
  induction 1 as [|k' keys Hnotin Hnodup IH]; intros Hin; [destruct Hin|].
  simpl. destruct (String.eqb_spec k k') as [->|Hne].
  - rewrite String.eqb_refl. f_equal. apply map_ext_in. intros k'' Hk''.
    destruct (String.eqb_spec k'' k') as [->|_]; [|reflexivity].
    exfalso. apply Hnotin. now apply list_elem_of_In.
  - destruct (String.eqb_spec k' k) as [->|_]; [now contradiction Hne|].
    f_equal. apply IH. destruct Hin as [->|Hin]; [now contradiction Hne|exact Hin].
Qed.

Lemma firstKeys_In (keys : list string) (k : string) :
  In k (firstKeys keys) <-> In k keys.
Proof.
  induction keys as [|k' keys IH]; simpl; [tauto|].
  rewrite filter_In, IH. destruct (String.eqb_spec k k') as [->|Hne].
  - split; [intros _; now left|intros _; now left].
  - split.
    + intros [->|[Hin _]]; [now left|now right].
    + intros [->|Hin]; [now left|right]. split; [exact Hin|reflexivity].
Qed.

Lemma NoDup_filter_bool {A} (p : A -> bool) (xs : list A) :
  NoDup xs -> NoDup (List.filter p xs).
Proof.
  induction 1 as [|x xs Hnotin Hnodup IH]; simpl; [constructor|].
  destruct (p x); [|exact IH]. constructor; [|exact IH].
  intros Hin. apply Hnotin. apply list_elem_of_In in Hin. apply filter_In in Hin.
  apply list_elem_of_In. tauto.
Qed.

Lemma firstKeys_NoDup (keys : list string) : NoDup (firstKeys keys).
Proof.
  induction keys as [|k keys IH]; simpl; [constructor|].
  constructor; [|now apply NoDup_filter_bool].
  intros Hin. apply list_elem_of_In in Hin. apply filter_In in Hin.
  destruct Hin as [_ Hne]. rewrite String.eqb_refl in Hne. discriminate Hne.
Qed.

Lemma existsb_eqb_In (k : string) (keys : list string) :
  existsb (String.eqb k) keys = true <-> In k keys.
Proof.
  rewrite existsb_exists. split.
  - intros (k' & Hin & Heq). apply String.eqb_eq in Heq. now subst.
  - intros Hin. exists k. split; [exact Hin|apply String.eqb_refl].
Qed.

Lemma firstKeys_snoc (keys : list string) (k : string) :
  firstKeys (keys ++ [k])
  = firstKeys keys ++ (if existsb (String.eqb k) keys then [] else [k]).
Proof.
  induction keys as [|k' keys IH]; simpl; [reflexivity|].
  rewrite IH. rewrite List.filter_app. f_equal. f_equal.
  destruct (String.eqb_spec k k') as [->|Hne]; simpl.
  - destruct (existsb (String.eqb k') keys); simpl; [reflexivity|].
    now rewrite String.eqb_refl.
  - destruct (existsb (String.eqb k) keys); simpl; [reflexivity|].
    destruct (String.eqb_spec k k') as [->|_]; [now contradiction Hne|reflexivity].
Qed.

Lemma withKey_snoc {X} (keyOf : X -> string) (k : string) (xs : list X) (x : X) :
  withKey keyOf k (xs ++ [x])
  = withKey keyOf k xs ++ (if String.eqb (keyOf x) k then [x] else []).
Proof. unfold withKey. rewrite List.filter_app. reflexivity. Qed.

Lemma withKey_nil_iff {X} (keyOf : X -> string) (k : string) (xs : list X) :
  withKey keyOf k xs = [] <-> ~ In k (map keyOf xs).
Proof.
  unfold withKey. induction xs as [|x xs IH]; simpl; [tauto|].
  destruct (String.eqb_spec (keyOf x) k) as [Heq|Hne].
  - split; [discriminate|]. intros Hnot. exfalso. apply Hnot. now left.
  - rewrite IH. split.
    + intros Hnot [Heq|Hin]; [contradiction|contradiction].
    + intros Hnot Hin. apply Hnot. now right.
Qed.

Section Grouping.
Context {X V : Type} (keyOf : X -> string) (init : X -> V) (update : V -> X -> V).
Context (summary : list X -> V).
Hypothesis summary_one : forall x, summary [x] = init x.
Hypothesis summary_snoc :
  forall xs x, xs <> [] -> summary (xs ++ [x]) = update (summary xs) x.

Lemma upsert_groupsBy (xs : list X) (x : X) :
  upsert keyOf init update (groupsBy keyOf summary xs) x
  = groupsBy keyOf summary (xs ++ [x]).
Proof.
  unfold upsert, groupsBy. rewrite Map_get_groups.
  rewrite map_app. simpl map. rewrite firstKeys_snoc.
  set (keys := map keyOf xs). set (k := keyOf x).
  destruct (existsb (String.eqb k) (firstKeys keys)) eqn:Efirst.
  - assert (In k keys) as Hin
      by (apply firstKeys_In; now apply existsb_eqb_In).
    assert (existsb (String.eqb k) keys = true) as Ekeys by now apply existsb_eqb_In.
    rewrite Ekeys, app_nil_r.
    rewrite Map_set_groups;
      [|apply firstKeys_NoDup|now apply firstKeys_In].
    apply map_ext. intros k'. f_equal. rewrite withKey_snoc. fold k.
    destruct (String.eqb_spec k' k) as [->|Hne].
    + rewrite String.eqb_refl. symmetry. apply summary_snoc.
      intros Hnil. apply withKey_nil_iff in Hnil. now apply Hnil.
    + destruct (String.eqb_spec k k') as [->|_]; [now contradiction Hne|].
      now rewrite app_nil_r.
  - assert (~ In k keys) as Hnotin.
    { intros Hin. apply firstKeys_In in Hin. apply existsb_eqb_In in Hin. congruence. }
    assert (existsb (String.eqb k) keys = false) as Ekeys.
    { destruct (existsb (String.eqb k) keys) eqn:E; [|reflexivity].
      apply existsb_eqb_In in E. contradiction. }
    rewrite Ekeys. rewrite Map_set_fresh.
    2:{ unfold keysOf. rewrite map_map. simpl. rewrite map_id.
        intros Hin. apply Hnotin. now apply firstKeys_In. }
    rewrite map_app. simpl map. f_equal.
    + apply map_ext_in. intros k' Hk'. f_equal. rewrite withKey_snoc. fold k.
      destruct (String.eqb_spec k k') as [->|_]; [|now rewrite app_nil_r].
      exfalso. apply Hnotin. now apply firstKeys_In.
    + f_equal. f_equal. rewrite withKey_snoc. fold k. rewrite String.eqb_refl.
      assert (withKey keyOf k xs = []) as Hnil by now apply withKey_nil_iff.
      rewrite Hnil. simpl. symmetry. apply summary_one.
Qed.

Lemma forOf_upsert (xs : list X) :
  JS.forOf xs [] (upsert keyOf init update) = groupsBy keyOf summary xs.
Proof.
  induction xs as [|x xs IH] using rev_ind; [reflexivity|].
  rewrite forOf_app. rewrite IH. change (JS.forOf [x] ?st ?body) with (body st x).
  apply upsert_groupsBy.
Qed.
End Grouping.

Lemma groupsBy_keys {X V} (keyOf : X -> string) (summary : list X -> V) (xs : list X) :
  keysOf (groupsBy keyOf summary xs) = firstKeys (map keyOf xs).
Proof. unfold keysOf, groupsBy. rewrite map_map. simpl. apply map_id. Qed.

Lemma forOf_push_entries {V B} (f : string -> V -> B) (m : JS.Map.t V) (init : list B) :
  JS.forOf m init (fun acc '(key, value) => acc ++ [f key value])
  = init ++ map (fun entry => f (fst entry) (snd entry)) m.
Proof.
  revert init. induction m as [|[k v] m IH]; intros init.
  - simpl. now rewrite app_nil_r.
  - rewrite forOf_cons, IH. simpl. now rewrite <- app_assoc.
Qed.

Lemma forOf_set_filter {V} (p : V -> bool) (m acc : JS.Map.t V) :
  NoDup (keysOf acc ++ keysOf m) ->
  JS.forOf m acc (fun selected '(key, value) =>
    if p value then JS.Map.set selected key value else selected)
  = acc ++ List.filter (fun entry => p (snd entry)) m.
Proof.
  revert acc. induction m as [|[k v] m IH]; intros acc Hnodup.
  - simpl. now rewrite app_nil_r.
  - rewrite forOf_cons. simpl List.filter. simpl snd.
    assert (~ In k (keysOf acc)) as Hfresh.
    { intros Hin. apply NoDup_app in Hnodup. destruct Hnodup as (_ & Hdisj & _).
      apply (Hdisj k); [now apply list_elem_of_In|]. apply list_elem_of_In. now left. }
    destruct (p v).
    + rewrite Map_set_fresh by exact Hfresh. rewrite IH.
      * now rewrite <- app_assoc.
      * unfold keysOf in *. rewrite map_app. simpl. rewrite <- app_assoc. exact Hnodup.
    + apply IH. unfold keysOf in *. simpl in Hnodup.
      apply NoDup_app in Hnodup. destruct Hnodup as (Hacc & Hdisj & Hm).
      apply NoDup_app. split; [exact Hacc|]. split.
      * intros k' Hk' Hin. apply (Hdisj k' Hk'). now right.
      * now inversion Hm.
Qed.

(** ** Duplicate declarations *)

Lemma detectDuplicateDeclarations_groups
    (parseResults : list ParseResult.t) (minCount : Z) :
  Metrics.detectDuplicateDeclarations parseResults minCount
  = List.filter (fun entry => DeclarationGroup.count (snd entry) >=? minCount)
      (groupsBy declarationKey declarationGroup (declOccurrences parseResults)).
Proof.
  unfold Metrics.detectDuplicateDeclarations. cbv zeta.
  rewrite forOf_declOccurrences.
  change (JS.forOf (declOccurrences parseResults) [] _)
    with (JS.forOf (declOccurrences parseResults) []
            (upsert declarationKey
               (fun o => DeclarationGroup.mk 1 [locationOf o])
               (fun existing o =>
                  DeclarationGroup.mk (DeclarationGroup.count existing + 1)
                    (DeclarationGroup.locations existing ++ [locationOf o])))).
  rewrite (forOf_upsert declarationKey _ _ declarationGroup).
  - rewrite (forOf_set_filter
               (fun value => DeclarationGroup.count value >=? minCount) _ []).
    + reflexivity.
    + simpl. rewrite groupsBy_keys. apply firstKeys_NoDup.
  - intros o. reflexivity.
  - intros os o _. unfold declarationGroup. simpl.
    rewrite length_app, map_app, Nat2Z.inj_add. reflexivity.
Qed.

Lemma filter_groupsBy {X V} (keyOf : X -> string) (summary : list X -> V)
    (p : V -> bool) (xs : list X) :
  List.filter (fun entry => p (snd entry)) (groupsBy keyOf summary xs)
  = map (fun k => (k, summary (withKey keyOf k xs)))
      (List.filter (fun k => p (summary (withKey keyOf k xs)))
         (firstKeys (map keyOf xs))).
Proof.
  unfold groupsBy.
  induction (firstKeys (map keyOf xs)) as [|k ks IH]; simpl; [reflexivity|].
  destruct (p (summary (withKey keyOf k xs))); simpl; now rewrite IH.
Qed.

Lemma detectDuplicateDeclarations_closed
    (parseResults : list ParseResult.t) (minCount : Z) :
  Metrics.detectDuplicateDeclarations parseResults minCount
  = map (fun key => (key, declarationGroup (declarationsWithKey parseResults key)))
      (duplicatedKeys parseResults minCount).
Proof.
  rewrite detectDuplicateDeclarations_groups.
  now rewrite (filter_groupsBy declarationKey declarationGroup
                 (fun value => DeclarationGroup.count value >=? minCount)).
Qed.

(** X7.  [detectDuplicateDeclarations] returns one group for each
    normalized declaration that occurs at least [minCount] times, in
    the order of first occurrence; the count of a group is the number
    of its occurrences in the input and its locations are theirs, in
    the order they come. *)
Theorem detectDuplicateDeclarations_spec
    (parseResults : list ParseResult.t) (minCount : Z) :
  Metrics.detectDuplicateDeclarations parseResults minCount
  = map (fun key => (key, declarationGroup (declarationsWithKey parseResults key)))
      (duplicatedKeys parseResults minCount)
  /\ NoDup (duplicatedKeys parseResults minCount)
  /\ Forall
       (fun entry =>
          DeclarationGroup.count (snd entry) >= minCount
          /\ 1 <= DeclarationGroup.count (snd entry)
          /\ DeclarationGroup.count (snd entry)
             = Z.of_nat (length (DeclarationGroup.locations (snd entry))))
       (Metrics.detectDuplicateDeclarations parseResults minCount).
Proof.
  rewrite detectDuplicateDeclarations_groups.
  rewrite (filter_groupsBy declarationKey declarationGroup
             (fun value => DeclarationGroup.count value >=? minCount)).
  split; [reflexivity|]. split.
  - apply NoDup_filter_bool. apply firstKeys_NoDup.
  - apply Forall_forall. intros [key g] Hin. apply list_elem_of_In in Hin.
    apply in_map_iff in Hin. destruct Hin as (k & Heq & Hk).
    injection Heq as <- <-.
    apply filter_In in Hk. destruct Hk as [Hk Hcount].
    unfold declarationsWithKey in *. simpl in *.
    split; [lia|]. split; [|now rewrite length_map].
    apply (proj1 (firstKeys_In _ _)) in Hk.
    destruct (withKey declarationKey k (declOccurrences parseResults)) eqn:E.
    + apply withKey_nil_iff in E. exfalso. apply E. exact Hk.
    + simpl length. lia.
Qed.

Lemma split_parts (s : string) :
  head (JS.split (Ascii.eqb ":") s) = Some (beforeColon s)
  /\ JS.join ":" (tail (JS.split (Ascii.eqb ":") s)) = afterColon s
  /\ JS.join ":" (JS.split (Ascii.eqb ":") s) = s.
Proof.
  unfold JS.split.
  induction s as [|c s IH]; [repeat split|].
  cbn [JS.splitAux beforeColon afterColon].
  destruct (JS.splitAux (Ascii.eqb ":") s) as [piece pieces].
  cbn [head tail] in IH. destruct IH as (Hhead & Htail & Hjoin).
  injection Hhead as Hpiece.
  destruct (Ascii.eqb ":" c) eqn:E; cbn [head tail].
  - apply Ascii.eqb_eq in E. subst c.
    split; [reflexivity|]. split; [exact Hjoin|].
    cbn [JS.join]. cbn [JS.join] in Hjoin. rewrite Hjoin. reflexivity.
  - split; [now rewrite Hpiece|]. split; [exact Htail|].
    cbn [JS.join] in *. destruct pieces as [|p ps].
    + now rewrite Hjoin.
    + rewrite <- Hjoin. reflexivity.
Qed.

Lemma colon_round_trip (property value : string) :
  hasColon property = false ->
  beforeColon (property +:+ ":" +:+ value) = property
  /\ afterColon (property +:+ ":" +:+ value) = value.
Proof.
  change (":" +:+ value) with (String ":" value).
  induction property as [|c p IH]; [intros _; now split|].
  change (String c p +:+ String ":" value) with (String c (p +:+ String ":" value)).
  cbn [hasColon beforeColon afterColon].
  destruct (Ascii.eqb ":" c); [discriminate|].
  intros Hno. destruct (IH Hno) as [Hb Ha]. split; [now rewrite Hb|exact Ha].
Qed.

(** X8.  [checkDuplicateDeclarations] emits one DUPLICATE_DECLARATIONS
    issue for each group of [detectDuplicateDeclarations], in its
    order: the severity is high from 5 times the threshold, medium
    from 3 times and low below; the evidence is the first occurrence,
    the count, and the key split at its first colon, which gives back
    the property and the normalized value when the property holds no
    colon. *)
Theorem checkDuplicateDeclarations_spec
    (parseResults : list ParseResult.t) (config : AnalyzerConfig.t)
    (o : DeclOccurrence.t) :
  map duplicateFacts (Rules.checkDuplicateDeclarations parseResults config)
  = map (fun key =>
           expectedDuplicateFacts (configuredMinDuplicates config) key
             (declarationsWithKey parseResults key))
      (duplicatedKeys parseResults (configuredMinDuplicates config))
  /\ (hasColon (ParsedDeclaration.property (DeclOccurrence.declaration o)) = false ->
      beforeColon (declarationKey o)
      = ParsedDeclaration.property (DeclOccurrence.declaration o)
      /\ afterColon (declarationKey o)
         = JS.toLowerCase
             (JS.trim (ParsedDeclaration.value (DeclOccurrence.declaration o)))).
Proof.
  split; [|apply colon_round_trip].
  unfold Rules.checkDuplicateDeclarations. cbv zeta.
  change (Rules.threshold config Thresholds.maxDuplicateDeclarations 3)
    with (configuredMinDuplicates config).
  rewrite detectDuplicateDeclarations_closed.
  rewrite forOf_push_entries. simpl app. rewrite !map_map.
  apply map_ext. intros key.
  unfold duplicateFacts, expectedDuplicateFacts, declarationGroup.
  cbn [fst snd Issue.id Issue.severity Issue.evidence Evidence.file Evidence.selector
       Evidence.line Evidence.property Evidence.value Evidence.count
       DeclarationGroup.count DeclarationGroup.locations].
  destruct (split_parts key) as (Hhead & Htail & _).
  rewrite Hhead, Htail.
  replace (if JS.truthy (afterColon key) then afterColon key else "")
    with (afterColon key) by (now destruct (afterColon key)).
  unfold Rules.getSeverityForDuplicateCount, severityForDuplicates.
  rewrite (Z.mul_comm (configuredMinDuplicates config) 5),
    (Z.mul_comm (configuredMinDuplicates config) 3).
  destruct (declarationsWithKey parseResults key); reflexivity.
Qed.

Lemma checkDuplicateDeclarations_spec_witness :
  beforeColon (declarationKey redOccurrence) = "color"
  /\ afterColon (declarationKey redOccurrence) = "red".
Proof.
  apply (checkDuplicateDeclarations_spec threeReds AnalyzerConfig.empty redOccurrence).
  reflexivity.
Defined.

(** ** Override pressure *)

Lemma detectOverridePressure_groups
    (parseResults : list ParseResult.t) (minOverrides : Z) :
  Metrics.detectOverridePressure parseResults minOverrides
  = map (fun property =>
           (property, overrideGroup (declarationsOfProperty parseResults property)))
      (overriddenProperties parseResults minOverrides).
Proof.
  unfold Metrics.detectOverridePressure. cbv zeta.
  rewrite forOf_declOccurrences.
  change (JS.forOf (declOccurrences parseResults) [] _)
    with (JS.forOf (declOccurrences parseResults) []
            (upsert propertyOfOccurrence
               (fun o => OverrideGroup.mk (propertyOfOccurrence o) 1 [selectorInfoOf o])
               (fun existing o =>
                  OverrideGroup.mk (OverrideGroup.property existing)
                    (OverrideGroup.overrideCount existing + 1)
                    (OverrideGroup.selectors existing ++ [selectorInfoOf o])))).
  rewrite (forOf_upsert propertyOfOccurrence _ _ overrideGroup).
  - rewrite (forOf_set_filter
               (fun value => OverrideGroup.overrideCount value >=? minOverrides) _ []).
    + simpl app.
      apply (filter_groupsBy propertyOfOccurrence overrideGroup
               (fun value => OverrideGroup.overrideCount value >=? minOverrides)).
    + simpl. rewrite groupsBy_keys. apply firstKeys_NoDup.
  - intros o. reflexivity.
  - intros os o Hne. unfold overrideGroup.
    rewrite length_app, map_app, Nat2Z.inj_add.
    destruct os as [|o' os']; [now contradiction Hne|reflexivity].
Qed.

Lemma Math_min_le_max (x : Z) (xs : list Z) :
  JS.Math_min (x :: xs) <= JS.Math_max (x :: xs).
Proof.
  simpl. assert (forall lo hi, lo <= hi ->
                   fold_left Z.min xs lo <= fold_left Z.max xs hi) as H.
  { induction xs as [|y ys IH]; intros lo hi Hle; simpl; [exact Hle|].
    apply IH. lia. }
  apply H. lia.
Qed.

(** X9.  [detectOverridePressure] returns one group for each property with
    at least [minOverrides] declarations, in the order of first
    occurrence, holding every declaring rule; [checkOverridePressure]
    emits one OVERRIDE_PRESSURE issue for each property declared at
    least 5 times, with that count, the first declaring rule as
    evidence and a severity by the count and the range of the scalar
    scores, which is never negative. *)
Theorem checkOverridePressure_spec
    (parseResults : list ParseResult.t) (config : AnalyzerConfig.t) (minOverrides : Z) :
  Metrics.detectOverridePressure parseResults minOverrides
  = map (fun property =>
           (property, overrideGroup (declarationsOfProperty parseResults property)))
      (overriddenProperties parseResults minOverrides)
  /\ NoDup (overriddenProperties parseResults minOverrides)
  /\ map overrideFacts (Rules.checkOverridePressure parseResults config)
     = map (fun property =>
              expectedOverrideFacts property (declarationsOfProperty parseResults property))
         (overriddenProperties parseResults 5)
  /\ Forall
       (fun property =>
          5 <= Z.of_nat (length (declarationsOfProperty parseResults property))
          /\ 0 <= scoreRange (declarationsOfProperty parseResults property))
       (overriddenProperties parseResults 5).
Proof.
  split; [apply detectOverridePressure_groups|].
  split; [apply NoDup_filter_bool; apply firstKeys_NoDup|].
  split.
  - unfold Rules.checkOverridePressure. cbv zeta.
    rewrite detectOverridePressure_groups.
    rewrite forOf_push_entries. simpl app. rewrite !map_map.
    apply map_ext. intros property.
    unfold overrideFacts, expectedOverrideFacts, overrideGroup, scoreRange, definingScores.
    cbn [fst snd Issue.id Issue.severity Issue.evidence Evidence.file Evidence.selector
         Evidence.line Evidence.property Evidence.count
         OverrideGroup.overrideCount OverrideGroup.selectors].
    rewrite map_map.
    destruct (declarationsOfProperty parseResults property); reflexivity.
  - apply Forall_forall. intros property Hin. apply list_elem_of_In in Hin.
    apply filter_In in Hin. destruct Hin as [_ Hcount].
    split; [lia|]. unfold scoreRange.
    destruct (declarationsOfProperty parseResults property) as [|o os].
    + simpl. lia.
    + pose proof (Math_min_le_max
                    (Parser.specificityToScore (SelectorInfo.specificity (selectorInfoOf o)))
                    (definingScores os)) as Hle.
      change (definingScores (o :: os))
        with (Parser.specificityToScore (SelectorInfo.specificity (selectorInfoOf o))
              :: definingScores os).
      lia.
Qed.

(** ** High specificity *)

Lemma Qgtb_three_halves (score maxScore : Z) :
  JS.Qgtb (inject_Z score) (inject_Z maxScore * (15 # 10))
  = (2 * score >? 3 * maxScore).
Proof.
  unfold JS.Qgtb, Qle_bool, Qmult, inject_Z. cbn [Qnum Qden].
  destruct (Z.leb_spec (score * Z.pos (1 * 10)) (maxScore * 15 * 1));
    destruct (Z.gtb_spec (2 * score) (3 * maxScore)); simpl; try reflexivity; lia.
Qed.

(** X10.  [checkHighSpecificity] emits one HIGH_SPECIFICITY issue for each
    selector occurrence whose scalar score exceeds the configured
    maxSpecificityScore (40 by default) or that has an id, and none
    for the others, in source order; the severity is critical from two
    ids, high with one id or a score above twice the threshold, medium
    above 1.5 times the threshold and low otherwise. *)
Theorem checkHighSpecificity_spec
    (parseResults : list ParseResult.t) (config : AnalyzerConfig.t) :
  map specificityFacts (Rules.checkHighSpecificity parseResults config)
  = map (expectedSpecificityFacts (configuredMaxSpecificityScore config))
      (List.filter (isHighSpecificity (configuredMaxSpecificityScore config))
         (occurrences parseResults)).
Proof.
  unfold Rules.checkHighSpecificity. cbv zeta.
  change (Rules.threshold config Thresholds.maxSpecificityScore 40)
    with (configuredMaxSpecificityScore config).
  rewrite forOf_occurrences_if. simpl app. rewrite map_map.
  apply map_ext. intros o.
  unfold specificityFacts, expectedSpecificityFacts.
  cbn [Issue.id Issue.severity Issue.evidence Evidence.file Evidence.selector
       Evidence.line Evidence.column Evidence.specificity].
  unfold Rules.getSeverityForSpecificity, severityForSpecificity.
  rewrite Qgtb_three_halves.
  rewrite (Z.mul_comm (configuredMaxSpecificityScore config) 2). reflexivity.
Qed.

(** ** Layout risk hotspots *)

Lemma forOf_ruleOccurrences_if {B}
    (p : ParseResult.t -> ParsedRule.t -> bool)
    (f : ParseResult.t -> ParsedRule.t -> B)
    (parseResults : list ParseResult.t) (init : list B) :
  JS.forOf parseResults init (fun acc result =>
    JS.forOf (ParseResult.rules result) acc (fun acc rule =>
      if p result rule then acc ++ [f result rule] else acc))
  = init ++ map (fun o => f (RuleOccurrence.result o) (RuleOccurrence.rule o))
              (List.filter (fun o => p (RuleOccurrence.result o) (RuleOccurrence.rule o))
                 (ruleOccurrences parseResults)).
Proof.
  rewrite (forOf_ruleOccurrences
             (fun acc result rule => if p result rule then acc ++ [f result rule] else acc)).
  apply (forOf_push_if
           (fun o => p (RuleOccurrence.result o) (RuleOccurrence.rule o))
           (fun o => f (RuleOccurrence.result o) (RuleOccurrence.rule o))).
Qed.

(** X11.  [checkLayoutRiskHotspot] emits one LAYOUT_RISK_HOTSPOT issue for
    each rule whose layout risk is 5 or more, in source order, of high
    severity from 15, medium from 10 and low below, counting the
    layout declarations of the rule in its evidence; a rule with five
    layout declarations or more is always flagged, and a rule without
    any never is. *)
Theorem checkLayoutRiskHotspot_spec
    (parseResults : list ParseResult.t) (config : AnalyzerConfig.t)
    (o : RuleOccurrence.t) :
  map hotspotFacts (Rules.checkLayoutRiskHotspot parseResults config)
  = map expectedHotspotFacts (List.filter isHotspot (ruleOccurrences parseResults))
  /\ (5 <= Z.of_nat (length (layoutDeclarations
                               (ParsedRule.declarations (RuleOccurrence.rule o)))) ->
      isHotspot o = true)
  /\ (layoutDeclarations (ParsedRule.declarations (RuleOccurrence.rule o)) = [] ->
      isHotspot o = false).
Proof.
  split; [|split].
  - unfold Rules.checkLayoutRiskHotspot. cbv zeta.
    rewrite forOf_ruleOccurrences_if. simpl app. rewrite map_map.
    apply map_ext. intros o'. unfold hotspotFacts, expectedHotspotFacts.
    cbn [Issue.id Issue.severity Issue.evidence Evidence.file Evidence.selector
         Evidence.line Evidence.count].
    rewrite length_map. reflexivity.
  - intros Hfive. unfold isHotspot, riskOf.
    destruct (additivePass_bounds (ParsedRule.declarations (RuleOccurrence.rule o)))
      as [Hcount _].
    pose proof (applyCombinations_ge (ParsedRule.declarations (RuleOccurrence.rule o))
                  Metrics.RISKY_COMBINATIONS
                  (additivePass (ParsedRule.declarations (RuleOccurrence.rule o)))
                  RISKY_COMBINATIONS_multipliers) as Hge.
    rewrite calculateLayoutRisk_unfold. apply Z.geb_le. lia.
  - intros Hnone. unfold isHotspot, riskOf. rewrite calculateLayoutRisk_unfold.
    destruct (additivePass_bounds (ParsedRule.declarations (RuleOccurrence.rule o)))
      as [_ Hzero].
    rewrite (Hzero Hnone), applyCombinations_zero. reflexivity.
Qed.

Lemma checkLayoutRiskHotspot_spec_witness : isHotspot boxOccurrence = true.
Proof.
  apply (checkLayoutRiskHotspot_spec [] AnalyzerConfig.empty boxOccurrence).
  vm_compute. discriminate.
Defined.

(** ** !important abuse *)

Lemma forOf_filter {A St} (p : A -> bool) (body : St -> A -> St) (xs : list A) (st : St) :
  JS.forOf xs st (fun st x => if p x then body st x else st)
  = JS.forOf (List.filter p xs) st body.
Proof.
  revert st. induction xs as [|x xs IH]; intros st; [reflexivity|].
  rewrite forOf_cons. simpl List.filter. destruct (p x).
  - rewrite forOf_cons. apply IH.
  - apply IH.
Qed.

Lemma forOf_push_entries_if {V B} (p : string -> V -> bool) (f : string -> V -> B)
    (m : JS.Map.t V) (init : list B) :
  JS.forOf m init (fun acc '(key, value) =>
    if p key value then acc ++ [f key value] else acc)
  = init ++ map (fun entry => f (fst entry) (snd entry))
              (List.filter (fun entry => p (fst entry) (snd entry)) m).
Proof.
  revert init. induction m as [|[k v] m IH]; intros init.
  - simpl. now rewrite app_nil_r.
  - rewrite forOf_cons, IH. simpl. destruct (p k v); simpl; [|reflexivity].
    now rewrite <- app_assoc.
Qed.

Lemma forOf_declOccurrences_if {B}
    (p : ParseResult.t -> ParsedRule.t -> ParsedDeclaration.t -> bool)
    (f : ParseResult.t -> ParsedRule.t -> ParsedDeclaration.t -> B)
    (parseResults : list ParseResult.t) (init : list B) :
  JS.forOf parseResults init (fun acc result =>
    JS.forOf (ParseResult.rules result) acc (fun acc rule =>
      JS.forOf (ParsedRule.declarations rule) acc (fun acc decl =>
        if p result rule decl then acc ++ [f result rule decl] else acc)))
  = init ++ map (fun o =>
                   f (DeclOccurrence.result o) (DeclOccurrence.rule o)
                     (DeclOccurrence.declaration o))
              (List.filter
                 (fun o =>
                    p (DeclOccurrence.result o) (DeclOccurrence.rule o)
                      (DeclOccurrence.declaration o))
                 (declOccurrences parseResults)).
Proof.
  rewrite (forOf_declOccurrences
             (fun acc result rule decl =>
                if p result rule decl then acc ++ [f result rule decl] else acc)).
  apply (forOf_push_if
           (fun o => p (DeclOccurrence.result o) (DeclOccurrence.rule o)
                       (DeclOccurrence.declaration o))
           (fun o => f (DeclOccurrence.result o) (DeclOccurrence.rule o)
                       (DeclOccurrence.declaration o))).
Qed.

Lemma fileCounts_groups (parseResults : list ParseResult.t) :
  JS.forOf parseResults [] (fun fileCounts result =>
    JS.forOf (ParseResult.rules result) fileCounts (fun fileCounts rule =>
      let importantDecls :=
        List.filter ParsedDeclaration.important (ParsedRule.declarations rule) in
      if Z.of_nat (length importantDecls) >? 0 then
        match JS.Map.get fileCounts (ParseResult.file result) with
        | Some existing =>
            JS.Map.set fileCounts (ParseResult.file result)
              (FileCount.mk
                 (FileCount.count existing + Z.of_nat (length importantDecls))
                 (FileCount.rules existing ++ [rule]))
        | None =>
            JS.Map.set fileCounts (ParseResult.file result)
              (FileCount.mk (Z.of_nat (length importantDecls)) [rule])
        end
      else fileCounts))
  = groupsBy fileOfRule fileCount (importantRules parseResults).
Proof.
  rewrite (forOf_ruleOccurrences (fun fileCounts result rule =>
    let importantDecls :=
      List.filter ParsedDeclaration.important (ParsedRule.declarations rule) in
    if Z.of_nat (length importantDecls) >? 0 then
      match JS.Map.get fileCounts (ParseResult.file result) with
      | Some existing =>
          JS.Map.set fileCounts (ParseResult.file result)
            (FileCount.mk
               (FileCount.count existing + Z.of_nat (length importantDecls))
               (FileCount.rules existing ++ [rule]))
      | None =>
          JS.Map.set fileCounts (ParseResult.file result)
            (FileCount.mk (Z.of_nat (length importantDecls)) [rule])
      end
    else fileCounts)).
  change (JS.forOf (ruleOccurrences parseResults) [] _)
    with (JS.forOf (ruleOccurrences parseResults) []
            (fun m o =>
               if hasImportant o
               then upsert fileOfRule
                      (fun o => FileCount.mk (importantCountOf o) [RuleOccurrence.rule o])
                      (fun existing o =>
                         FileCount.mk (FileCount.count existing + importantCountOf o)
                           (FileCount.rules existing ++ [RuleOccurrence.rule o]))
                      m o
               else m)).
  rewrite forOf_filter. fold (importantRules parseResults).
  apply (forOf_upsert fileOfRule _ _ fileCount).
  - intros o. unfold fileCount. simpl. f_equal. lia.
  - intros os o _. unfold fileCount.
    rewrite !map_app, sumList_app. simpl. f_equal. lia.
Qed.

Lemma ratio_geb (count maxPerFile n d : Z) :
  0 < maxPerFile -> 0 < d ->
  JS.Ratio.geb (JS.divide count maxPerFile) (n # Z.to_pos d)
  = (d * count >=? n * maxPerFile).
Proof.
  intros Hmax Hd. unfold JS.divide.
  destruct (Z.eqb_spec maxPerFile 0) as [Hz|_]; [lia|].
  unfold JS.Ratio.geb.
  destruct maxPerFile as [|m|m]; try lia.
  destruct d as [|dp|dp]; try lia.
  unfold Qle_bool, Qdiv, Qmult, Qinv, inject_Z. cbn [Qnum Qden Z.to_pos].
  destruct (Z.leb_spec (n * Z.pos (1 * m)) (count * 1 * Z.pos dp));
    destruct (Z.geb_spec (Z.pos dp * count) (n * Z.pos m)); try reflexivity; lia.
Qed.

Lemma getSeverityForImportantCount_integers (count maxPerFile : Z) :
  1 <= count ->
  Rules.getSeverityForImportantCount count maxPerFile
  = severityForImportant count maxPerFile.
Proof.
  intros Hcount. unfold Rules.getSeverityForImportantCount, severityForImportant.
  cbv zeta. destruct (Z.ltb_spec 0 maxPerFile) as [Hpos|Hnonpos].
  - change 4%Q with (4 # Z.to_pos 1). change (25 # 10)%Q with (25 # Z.to_pos 10).
    change (15 # 10)%Q with (15 # Z.to_pos 10).
    rewrite !ratio_geb by lia.
    destruct (Z.geb_spec (1 * count) (4 * maxPerFile));
      destruct (Z.geb_spec count (4 * maxPerFile)); try lia; [reflexivity|].
    destruct (Z.geb_spec (10 * count) (25 * maxPerFile));
      destruct (Z.geb_spec (2 * count) (5 * maxPerFile)); try lia; [reflexivity|].
    destruct (Z.geb_spec (10 * count) (15 * maxPerFile));
      destruct (Z.geb_spec (2 * count) (3 * maxPerFile)); try lia; reflexivity.
  - unfold JS.divide. destruct (Z.eqb_spec maxPerFile 0) as [Hz|Hnz].
    + destruct (Z.gtb_spec count 0); [reflexivity|lia].
    + assert (maxPerFile < 0) as Hneg by lia.
      destruct maxPerFile as [|m|m]; try lia.
      destruct count as [|c|c]; try lia.
      reflexivity.
Qed.

Lemma sumList_positive {A} (f : A -> Z) (xs : list A) :
  Forall (fun x => 1 <= f x) xs -> xs <> [] -> 1 <= sumList (map f xs).
Proof.
  intros Hall Hne. destruct Hall as [|x xs Hx Hall]; [now contradiction Hne|].
  simpl. assert (0 <= sumList (map f xs)) as Hrest.
  { apply sumList_nonneg. apply Forall_forall. intros z Hz.
    apply list_elem_of_In in Hz. apply in_map_iff in Hz. destruct Hz as (y & <- & Hy).
    rewrite Forall_forall in Hall. apply list_elem_of_In in Hy.
    specialize (Hall y Hy). simpl in Hall. lia. }
  lia.
Qed.

Lemma importantTotal_positive (parseResults : list ParseResult.t) (file : string) :
  In file (map fileOfRule (importantRules parseResults)) ->
  1 <= importantTotal parseResults file.
Proof.
  intros Hin. unfold importantTotal, importantRulesOfFile.
  apply sumList_positive.
  - apply Forall_forall. intros o Ho. apply list_elem_of_In in Ho.
    unfold withKey in Ho. apply filter_In in Ho. destruct Ho as [Ho _].
    unfold importantRules in Ho. apply filter_In in Ho. destruct Ho as [_ Hp].
    unfold hasImportant in Hp. lia.
  - intros Hnil. apply withKey_nil_iff in Hnil. contradiction.
Qed.

Lemma importantCountOf_nonneg (o : RuleOccurrence.t) : 0 <= importantCountOf o.
Proof. unfold importantCountOf, Metrics.countImportant. lia. Qed.

Lemma sum_important_filter (os : list RuleOccurrence.t) :
  sumList (map importantCountOf (List.filter hasImportant os))
  = sumList (map importantCountOf os).
Proof.
  induction os as [|o os IH]; simpl; [reflexivity|].
  unfold hasImportant at 1. pose proof (importantCountOf_nonneg o) as Hnonneg.
  destruct (Z.gtb_spec (importantCountOf o) 0); simpl; lia.
Qed.

Lemma filter_comm {A} (p q : A -> bool) (xs : list A) :
  List.filter p (List.filter q xs) = List.filter q (List.filter p xs).
Proof.
  induction xs as [|x xs IH]; simpl; [reflexivity|].
  destruct (p x) eqn:Ep, (q x) eqn:Eq; simpl; rewrite ?Ep, ?Eq, IH; reflexivity.
Qed.

Lemma importantTotal_files (parseResults : list ParseResult.t) (file : string) :
  importantTotal parseResults file
  = sumList (map importantIn (withKey ParseResult.file file parseResults)).
Proof.
  unfold importantTotal, importantRulesOfFile, importantRules, withKey.
  rewrite filter_comm, sum_important_filter. unfold ruleOccurrences.
  induction parseResults as [|r rest IH]; simpl; [reflexivity|].
  rewrite List.filter_app, map_app, sumList_app, IH.
  assert (List.filter (fun x => String.eqb (fileOfRule x) file)
            (map (RuleOccurrence.mk r) (ParseResult.rules r))
          = if String.eqb (ParseResult.file r) file
            then map (RuleOccurrence.mk r) (ParseResult.rules r) else []) as Hfile.
  { induction (ParseResult.rules r) as [|rule rules IHr]; simpl.
    - now destruct (String.eqb (ParseResult.file r) file).
    - unfold fileOfRule at 1. simpl. rewrite IHr.
      now destruct (String.eqb (ParseResult.file r) file). }
  rewrite Hfile. destruct (String.eqb (ParseResult.file r) file); simpl; [|reflexivity].
  f_equal. unfold importantIn. rewrite map_map. reflexivity.
Qed.

(** X12.  [checkImportantAbuse] emits first one issue for each file name
    whose rules hold more !important declarations than
    maxImportantPerFile (5 by default), in the order in which the
    files first show an !important, with that total as count and the
    first such rule as evidence, then one medium issue for each
    !important declaration of a layout property, in source order.  The
    total of a file name adds up all parse results of that name. *)
Theorem checkImportantAbuse_spec
    (parseResults : list ParseResult.t) (config : AnalyzerConfig.t) :
  map importantFacts (Rules.checkImportantAbuse parseResults config)
  = map (expectedFileFacts (configuredMaxImportant config) parseResults)
      (abusiveFiles parseResults (configuredMaxImportant config))
    ++ map expectedDeclarationFacts
         (List.filter isImportantLayout (declOccurrences parseResults))
  /\ NoDup (abusiveFiles parseResults (configuredMaxImportant config))
  /\ Forall
       (fun file =>
          importantTotal parseResults file
          = sumList (map importantIn (withKey ParseResult.file file parseResults))
          /\ 1 <= importantTotal parseResults file
          /\ configuredMaxImportant config < importantTotal parseResults file)
       (abusiveFiles parseResults (configuredMaxImportant config)).
Proof.
  assert (forall file,
            In file (abusiveFiles parseResults (configuredMaxImportant config)) ->
            1 <= importantTotal parseResults file
            /\ configuredMaxImportant config < importantTotal parseResults file) as Hfiles.
  { intros file Hin. unfold abusiveFiles in Hin. apply filter_In in Hin.
    destruct Hin as [Hin Hgt]. split; [|lia].
    apply importantTotal_positive. now apply (proj1 (firstKeys_In _ _)). }
  split; [|split].
  - unfold Rules.checkImportantAbuse. cbv zeta.
    change (Rules.threshold config Thresholds.maxImportantPerFile 5)
      with (configuredMaxImportant config).
    rewrite fileCounts_groups.
    rewrite forOf_push_entries_if.
    rewrite forOf_declOccurrences_if.
    simpl app. rewrite map_app, !map_map.
    apply (f_equal2 (@app _)); [|apply map_ext; intros o; reflexivity].
    rewrite (filter_groupsBy fileOfRule fileCount
               (fun value => FileCount.count value >? configuredMaxImportant config)).
    rewrite map_map. apply map_ext_in. intros file Hin.
    destruct (Hfiles file Hin) as [Hpos _].
    unfold importantFacts, expectedFileFacts, fileCount.
    cbn [fst snd Issue.id Issue.severity Issue.evidence Evidence.file
         Evidence.selector Evidence.line Evidence.property Evidence.value
         Evidence.count FileCount.count FileCount.rules].
    fold (importantRulesOfFile parseResults file).
    fold (importantTotal parseResults file).
    rewrite (getSeverityForImportantCount_integers _ _ Hpos).
    destruct (importantRulesOfFile parseResults file); reflexivity.
  - apply NoDup_filter_bool. apply firstKeys_NoDup.
  - apply Forall_forall. intros file Hin. apply list_elem_of_In in Hin.
    destruct (Hfiles file Hin) as [Hpos Hgt].
    split; [apply importantTotal_files|]. split; assumption.
Qed.

(** ** The rule engine *)

Section RankSort.
Context {A : Type} (rank : A -> Z).

Lemma insertSorted_rank_filter (r : Z) (x : A) (l : list A) :
  List.filter (fun y => rank y =? r) (JS.insertSorted (fun a b => rank a - rank b) x l)
  = List.filter (fun y => rank y =? r) (x :: l).
Proof.
  induction l as [|y l IH]; [reflexivity|].
  cbn [JS.insertSorted]. destruct (Z.leb_spec (rank x - rank y) 0) as [Hle|Hgt];
    [reflexivity|].
  cbn [List.filter] in *. rewrite IH.
  destruct (Z.eqb_spec (rank x) r) as [Hx|Hx]; [|reflexivity].
  destruct (Z.eqb_spec (rank y) r) as [Hy|Hy]; [lia|reflexivity].
Qed.

Lemma sort_rank_filter (r : Z) (l : list A) :
  List.filter (fun y => rank y =? r) (JS.sort (fun a b => rank a - rank b) l)
  = List.filter (fun y => rank y =? r) l.
Proof.
  induction l as [|x l IH]; [reflexivity|].
  cbn [JS.sort fold_right]. fold (JS.sort (fun a b => rank a - rank b) l).
  rewrite insertSorted_rank_filter. cbn [List.filter]. now rewrite IH.
Qed.

Lemma sort_rank_sorted (l : list A) :
  StronglySorted (fun a b => rank a <= rank b) (JS.sort (fun a b => rank a - rank b) l).
Proof.
  eapply StronglySorted_weaken;
    [|apply (sort_StronglySorted (fun a b => rank a - rank b))].
  - intros a b. unfold before. lia.
  - intros a b. unfold before. lia.
  - intros a b c. unfold before. lia.
Qed.
End RankSort.

Lemma runAllRules_unfold (parseResults : list ParseResult.t) (config : AnalyzerConfig.t) :
  Rules.runAllRules parseResults config
  = JS.sort (fun a b => severityRank a - severityRank b)
      (emittedIssues parseResults config).
Proof.
  unfold Rules.runAllRules, emittedIssues, whenEnabled. cbv zeta.
  fold (togglesOf config).
  change (fun a b : Issue.t =>
            Rules.severityOrder (Issue.severity a) - Rules.severityOrder (Issue.severity b))
    with (fun a b : Issue.t => severityRank a - severityRank b).
  f_equal.
  generalize (Rules.checkDeepSelectors parseResults config) as i1.
  generalize (Rules.checkHighSpecificity parseResults config) as i2.
  generalize (Rules.checkImportantAbuse parseResults config) as i3.
  generalize (Rules.checkDuplicateDeclarations parseResults config) as i4.
  generalize (Rules.checkLayoutRiskHotspot parseResults config) as i5.
  generalize (Rules.checkOverridePressure parseResults config) as i6.
  generalize (Rules.checkMissingLayers parseResults config) as i7.
  intros i7 i6 i5 i4 i3 i2 i1.
  destruct (Rules.enabled (togglesOf config) RuleToggles.deepSelectors),
    (Rules.enabled (togglesOf config) RuleToggles.highSpecificity),
    (Rules.enabled (togglesOf config) RuleToggles.importantAbuse),
    (Rules.enabled (togglesOf config) RuleToggles.duplicateDeclarations),
    (Rules.enabled (togglesOf config) RuleToggles.layoutRiskHotspot),
    (Rules.enabled (togglesOf config) RuleToggles.overridePressure),
    (Rules.enabled (togglesOf config) RuleToggles.missingLayers);
    cbn [app]; rewrite <- ?app_assoc, ?app_nil_r; reflexivity.
Qed.

(** X13.  [runAllRules] returns the issues of the enabled detectors, each
    kept once, ordered by severity (critical, high, medium, low);
    issues of the same severity keep the order in which the detectors
    emitted them. *)
Theorem runAllRules_sorted (parseResults : list ParseResult.t) (config : AnalyzerConfig.t)
    (rank : Z) :
  Permutation (Rules.runAllRules parseResults config) (emittedIssues parseResults config)
  /\ StronglySorted rankNotAbove (Rules.runAllRules parseResults config)
  /\ List.filter (hasRank rank) (Rules.runAllRules parseResults config)
     = List.filter (hasRank rank) (emittedIssues parseResults config).
Proof.
  rewrite runAllRules_unfold. split; [apply sort_Permutation|]. split.
  - apply (sort_rank_sorted severityRank).
  - apply (sort_rank_filter severityRank).
Qed.

Ltac issue_loops :=
  repeat (apply forOf_invariant; [try assumption; try constructor|]; intros);
  repeat match goal with
         | x : (_ * _)%type |- _ => destruct x
         end;
  repeat match goal with
         | |- context [if ?b then _ else _] => destruct b
         end;
  try assumption;
  try (apply Forall_app; split; [assumption|]; constructor; [reflexivity|constructor]).

Lemma checkDeepSelectors_ids parseResults config :
  Forall (fun i => Issue.id i = IssueId.DEEP_SELECTOR)
    (Rules.checkDeepSelectors parseResults config).
Proof. unfold Rules.checkDeepSelectors. cbv zeta. issue_loops. Qed.

Lemma checkHighSpecificity_ids parseResults config :
  Forall (fun i => Issue.id i = IssueId.HIGH_SPECIFICITY)
    (Rules.checkHighSpecificity parseResults config).
Proof.
  unfold Rules.checkHighSpecificity. cbv zeta.
  repeat (apply forOf_invariant; [try assumption; try constructor|]; intros).
  match goal with
  | |- context [if ((?a >? ?b) || ?c)%bool then _ else _] =>
      destruct ((a >? b) || c)%bool
  end; [|assumption].
  apply Forall_app; split; [assumption|]. constructor; [reflexivity|constructor].
Qed.

Lemma checkImportantAbuse_ids parseResults config :
  Forall (fun i => Issue.id i = IssueId.IMPORTANT_ABUSE)
    (Rules.checkImportantAbuse parseResults config).
Proof.
  unfold Rules.checkImportantAbuse. cbv zeta.
  apply forOf_invariant.
  - apply forOf_invariant; [constructor|]. intros issues [file entry] Hissues.
    destruct (FileCount.count entry >? Rules.threshold config Thresholds.maxImportantPerFile 5);
      [|assumption].
    apply Forall_app; split; [assumption|]. constructor; [reflexivity|constructor].
  - intros issues result Hissues.
    apply forOf_invariant; [assumption|]. intros issues' rule Hissues'.
    apply forOf_invariant; [assumption|]. intros issues'' decl Hissues''.
    match goal with
    | |- context [if ?b then _ else _] => destruct b
    end; [|assumption].
    apply Forall_app; split; [assumption|]. constructor; [reflexivity|constructor].
Qed.

Lemma checkDuplicateDeclarations_ids parseResults config :
  Forall (fun i => Issue.id i = IssueId.DUPLICATE_DECLARATIONS)
    (Rules.checkDuplicateDeclarations parseResults config).
Proof.
  unfold Rules.checkDuplicateDeclarations. cbv zeta.
  apply forOf_invariant; [constructor|]. intros issues [declaration group] Hissues.
  apply Forall_app; split; [assumption|]. constructor; [reflexivity|constructor].
Qed.

Lemma checkLayoutRiskHotspot_ids parseResults config :
  Forall (fun i => Issue.id i = IssueId.LAYOUT_RISK_HOTSPOT)
    (Rules.checkLayoutRiskHotspot parseResults config).
Proof.
  unfold Rules.checkLayoutRiskHotspot. cbv zeta.
  apply forOf_invariant; [constructor|]. intros issues result Hissues.
  apply forOf_invariant; [assumption|]. intros issues' rule Hissues'.
  match goal with
  | |- context [if ?a >=? ?b then _ else _] => destruct (a >=? b)
  end; [|assumption].
  apply Forall_app; split; [assumption|]. constructor; [reflexivity|constructor].
Qed.

Lemma checkOverridePressure_ids parseResults config :
  Forall (fun i => Issue.id i = IssueId.OVERRIDE_PRESSURE)
    (Rules.checkOverridePressure parseResults config).
Proof.
  unfold Rules.checkOverridePressure. cbv zeta.
  apply forOf_invariant; [constructor|]. intros issues [property group] Hissues.
  apply Forall_app; split; [assumption|]. constructor; [reflexivity|constructor].
Qed.

Lemma checkMissingLayers_ids parseResults config :
  Forall (fun i => Issue.id i = IssueId.MISSING_LAYERS)
    (Rules.checkMissingLayers parseResults config).
Proof.
  unfold Rules.checkMissingLayers. cbv zeta.
  match goal with
  | |- context [if ?b then _ else _] => destruct b
  end; [|constructor].
  constructor; [reflexivity|constructor].
Qed.

Lemma whenEnabled_ids config (id : IssueId.t) (issues : list Issue.t) :
  Forall (fun i => Issue.id i = id) issues ->
  Forall (fun i => Rules.enabled (togglesOf config) (toggleOf (Issue.id i)) = true)
    (whenEnabled config (toggleOf id) issues).
Proof.
  intros Hids. unfold whenEnabled.
  destruct (Rules.enabled (togglesOf config) (toggleOf id)) eqn:E; [|constructor].
  eapply Forall_impl; [exact Hids|]. intros i Hi. simpl in Hi. now rewrite Hi.
Qed.

(** X14.  Every issue [runAllRules] returns comes from a rule that is not
    switched off: with a toggle set to false, no issue of that rule's
    id is returned. *)
Theorem runAllRules_respects_toggles
    (parseResults : list ParseResult.t) (config : AnalyzerConfig.t) (id : IssueId.t) :
  Forall (fun i => Rules.enabled (togglesOf config) (toggleOf (Issue.id i)) = true)
    (Rules.runAllRules parseResults config)
  /\ (toggleOf id (togglesOf config) = JS.Field.value false ->
      Forall (fun i => Issue.id i <> id) (Rules.runAllRules parseResults config)).
Proof.
  assert (Forall (fun i => Rules.enabled (togglesOf config) (toggleOf (Issue.id i)) = true)
            (Rules.runAllRules parseResults config)) as Hall.
  { rewrite runAllRules_unfold.
    eapply Permutation_Forall; [symmetry; apply sort_Permutation|].
    unfold emittedIssues. repeat (apply Forall_app; split).
    - apply (whenEnabled_ids config IssueId.DEEP_SELECTOR), checkDeepSelectors_ids.
    - apply (whenEnabled_ids config IssueId.HIGH_SPECIFICITY), checkHighSpecificity_ids.
    - apply (whenEnabled_ids config IssueId.IMPORTANT_ABUSE), checkImportantAbuse_ids.
    - apply (whenEnabled_ids config IssueId.DUPLICATE_DECLARATIONS),
        checkDuplicateDeclarations_ids.
    - apply (whenEnabled_ids config IssueId.LAYOUT_RISK_HOTSPOT),
        checkLayoutRiskHotspot_ids.
    - apply (whenEnabled_ids config IssueId.OVERRIDE_PRESSURE), checkOverridePressure_ids.
    - apply (whenEnabled_ids config IssueId.MISSING_LAYERS), checkMissingLayers_ids. }
  split; [exact Hall|].
  intros Hoff. eapply Forall_impl; [exact Hall|].
  intros i Hi Heq. simpl in Hi. rewrite Heq in Hi. unfold Rules.enabled in Hi.
  rewrite Hoff in Hi. discriminate Hi.
Qed.

Lemma runAllRules_respects_toggles_witness :
  Forall (fun i => Issue.id i <> IssueId.DEEP_SELECTOR)
    (Rules.runAllRules [depth8File] deepSelectorsOff).
Proof.
  apply (runAllRules_respects_toggles [depth8File] deepSelectorsOff IssueId.DEEP_SELECTOR).
  reflexivity.
Defined.

(** ** Merged and unmerged configurations *)

Lemma threshold_merge_maxSelectorDepth userConfig :
  Rules.threshold (RequiredConfig.widen (Analyzer.mergeConfig userConfig))
    Thresholds.maxSelectorDepth 4
  = Rules.threshold userConfig Thresholds.maxSelectorDepth 4.
Proof.
  unfold Rules.threshold. destruct userConfig as [? ? [[[| |?] ? ? ?]|] ? ? ?]; reflexivity.
Qed.

Lemma threshold_merge_maxSpecificityScore userConfig :
  Rules.threshold (RequiredConfig.widen (Analyzer.mergeConfig userConfig))
    Thresholds.maxSpecificityScore 40
  = Rules.threshold userConfig Thresholds.maxSpecificityScore 40.
Proof.
  unfold Rules.threshold. destruct userConfig as [? ? [[? [| |?] ? ?]|] ? ? ?]; reflexivity.
Qed.

Lemma threshold_merge_maxImportantPerFile userConfig :
  Rules.threshold (RequiredConfig.widen (Analyzer.mergeConfig userConfig))
    Thresholds.maxImportantPerFile 5
  = Rules.threshold userConfig Thresholds.maxImportantPerFile 5.
Proof.
  unfold Rules.threshold. destruct userConfig as [? ? [[? ? [| |?] ?]|] ? ? ?]; reflexivity.
Qed.

Lemma threshold_merge_maxDuplicateDeclarations userConfig :
  Rules.threshold (RequiredConfig.widen (Analyzer.mergeConfig userConfig))
    Thresholds.maxDuplicateDeclarations 3
  = Rules.threshold userConfig Thresholds.maxDuplicateDeclarations 3.
Proof.
  unfold Rules.threshold. destruct userConfig as [? ? [[? ? ? [| |?]]|] ? ? ?]; reflexivity.
Qed.

Lemma enabled_merge userConfig (id : IssueId.t) :
  Rules.enabled (togglesOf (RequiredConfig.widen (Analyzer.mergeConfig userConfig)))
    (toggleOf id)
  = Rules.enabled (togglesOf userConfig) (toggleOf id).
Proof.
  unfold Rules.enabled, togglesOf.
  destruct userConfig as [? ? ? ? ? [[d h i u l o m]|]]; destruct id; cbn;
    repeat match goal with
           | |- context [match ?x with _ => _ end] => is_var x; destruct x
           end; reflexivity.
Qed.

(** X15.  The fallback values the detectors use for absent thresholds (4,
    40, 5, 3) are the defaults [mergeConfig] fills in, and an absent
    toggle means enabled in both: running the rules on a user
    configuration or on its merged form gives the same issues. *)
Theorem runAllRules_mergeConfig
    (parseResults : list ParseResult.t) (userConfig : AnalyzerConfig.t) :
  Rules.runAllRules parseResults (RequiredConfig.widen (Analyzer.mergeConfig userConfig))
  = Rules.runAllRules parseResults userConfig.
Proof.
  rewrite !runAllRules_unfold. f_equal.
  unfold emittedIssues, whenEnabled.
  pose proof (enabled_merge userConfig IssueId.DEEP_SELECTOR) as H1.
  pose proof (enabled_merge userConfig IssueId.HIGH_SPECIFICITY) as H2.
  pose proof (enabled_merge userConfig IssueId.IMPORTANT_ABUSE) as H3.
  pose proof (enabled_merge userConfig IssueId.DUPLICATE_DECLARATIONS) as H4.
  pose proof (enabled_merge userConfig IssueId.LAYOUT_RISK_HOTSPOT) as H5.
  pose proof (enabled_merge userConfig IssueId.OVERRIDE_PRESSURE) as H6.
  pose proof (enabled_merge userConfig IssueId.MISSING_LAYERS) as H7.
  cbn [toggleOf] in H1, H2, H3, H4, H5, H6, H7.
  rewrite H1, H2, H3, H4, H5, H6, H7. clear H1 H2 H3 H4 H5 H6 H7.
  replace (Rules.checkDeepSelectors parseResults
             (RequiredConfig.widen (Analyzer.mergeConfig userConfig)))
    with (Rules.checkDeepSelectors parseResults userConfig)
    by (unfold Rules.checkDeepSelectors;
        now rewrite threshold_merge_maxSelectorDepth).
  replace (Rules.checkHighSpecificity parseResults
             (RequiredConfig.widen (Analyzer.mergeConfig userConfig)))
    with (Rules.checkHighSpecificity parseResults userConfig)
    by (unfold Rules.checkHighSpecificity;
        now rewrite threshold_merge_maxSpecificityScore).
  replace (Rules.checkImportantAbuse parseResults
             (RequiredConfig.widen (Analyzer.mergeConfig userConfig)))
    with (Rules.checkImportantAbuse parseResults userConfig)
    by (unfold Rules.checkImportantAbuse;
        now rewrite threshold_merge_maxImportantPerFile).
  replace (Rules.checkDuplicateDeclarations parseResults
             (RequiredConfig.widen (Analyzer.mergeConfig userConfig)))
    with (Rules.checkDuplicateDeclarations parseResults userConfig)
    by (unfold Rules.checkDuplicateDeclarations;
        now rewrite threshold_merge_maxDuplicateDeclarations).
  reflexivity.
Qed.

(** X16.  Merging is idempotent.  On a merged configuration a detector
    reads the user's threshold where the user gave a number, the default
    of [mergeConfig] where the user's thresholds have no such key, and
    its own fallback where the user's key is there without a value
    (null or undefined), which the spread copies over the default. *)
Theorem mergeConfig_idempotent (userConfig : AnalyzerConfig.t) (fallback : Z) :
  Analyzer.mergeConfig (RequiredConfig.widen (Analyzer.mergeConfig userConfig))
  = Analyzer.mergeConfig userConfig
  /\ Rules.threshold (RequiredConfig.widen (Analyzer.mergeConfig userConfig))
       Thresholds.maxSelectorDepth fallback
     = thresholdAfterMerge userConfig Thresholds.maxSelectorDepth 4 fallback
  /\ Rules.threshold (RequiredConfig.widen (Analyzer.mergeConfig userConfig))
       Thresholds.maxSpecificityScore fallback
     = thresholdAfterMerge userConfig Thresholds.maxSpecificityScore 40 fallback
  /\ Rules.threshold (RequiredConfig.widen (Analyzer.mergeConfig userConfig))
       Thresholds.maxImportantPerFile fallback
     = thresholdAfterMerge userConfig Thresholds.maxImportantPerFile 5 fallback
  /\ Rules.threshold (RequiredConfig.widen (Analyzer.mergeConfig userConfig))
       Thresholds.maxDuplicateDeclarations fallback
     = thresholdAfterMerge userConfig Thresholds.maxDuplicateDeclarations 3 fallback.
Proof.
  split.
  - destruct userConfig as [include exclude thresholds ignorePatterns maxScore rules].
    unfold Analyzer.mergeConfig, RequiredConfig.widen, Analyzer.spreadField.
    cbn [AnalyzerConfig.include AnalyzerConfig.exclude AnalyzerConfig.thresholds
         AnalyzerConfig.ignorePatterns AnalyzerConfig.maxScore AnalyzerConfig.rules
         RequiredConfig.include RequiredConfig.exclude RequiredConfig.thresholds
         RequiredConfig.ignorePatterns RequiredConfig.maxScore RequiredConfig.rules
         Thresholds.maxSelectorDepth Thresholds.maxSpecificityScore
         Thresholds.maxImportantPerFile Thresholds.maxDuplicateDeclarations
         RuleToggles.deepSelectors RuleToggles.highSpecificity RuleToggles.importantAbuse
         RuleToggles.duplicateDeclarations RuleToggles.layoutRiskHotspot
         RuleToggles.overridePressure RuleToggles.missingLayers].
    f_equal.
    + f_equal.
      * now destruct thresholds as [[[| |?] ? ? ?]|].
      * now destruct thresholds as [[? [| |?] ? ?]|].
      * now destruct thresholds as [[? ? [| |?] ?]|].
      * now destruct thresholds as [[? ? ? [| |?]]|].
    + f_equal.
      * now destruct rules as [[[| |?] ? ? ? ? ? ?]|].
      * now destruct rules as [[? [| |?] ? ? ? ? ?]|].
      * now destruct rules as [[? ? [| |?] ? ? ? ?]|].
      * now destruct rules as [[? ? ? [| |?] ? ? ?]|].
      * now destruct rules as [[? ? ? ? [| |?] ? ?]|].
      * now destruct rules as [[? ? ? ? ? [| |?] ?]|].
      * now destruct rules as [[? ? ? ? ? ? [| |?]]|].
  - unfold Rules.threshold, thresholdAfterMerge, userThreshold.
    destruct userConfig as [? ? [[d s i u]|] ? ? ?]; cbn; [|repeat split; reflexivity].
    repeat split; [destruct d|destruct s|destruct i|destruct u]; reflexivity.
Qed.

(** ** Scores, grades and counts *)

(** X17.  The overall score is an integer from 0 to 100 whatever the
    category scores are, each category score is at most 100, and the
    grade of a report is the grade of its overall score. *)
Theorem scores_in_range (metrics : GlobalMetrics.t) (issues : list Issue.t)
    (categoryScores : CategoryScores.t) :
  0 <= Scoring.calculateOverallScore categoryScores <= 100
  /\ (Scoring.calculateSpecificityScore metrics issues <= 100)%Q
  /\ (Scoring.calculateCascadeScore metrics issues <= 100)%Q
  /\ (Scoring.calculateDuplicationScore metrics issues <= 100)%Q
  /\ (Scoring.calculateLayoutRiskScore metrics issues <= 100)%Q
  /\ 0 <= Summary.overallScore (Scoring.generateSummary metrics issues) <= 100
  /\ Summary.grade (Scoring.generateSummary metrics issues)
     = Scoring.scoreToGrade (Summary.overallScore (Scoring.generateSummary metrics issues)).
Proof.
  assert (forall c, 0 <= Scoring.calculateOverallScore c <= 100) as Hoverall.
  { intros c. unfold Scoring.calculateOverallScore. cbv zeta. split.
    - apply Math_round_ge. change (inject_Z 0) with 0%Q.
      apply Q.min_glb; [apply Qle_bool_imp_le; reflexivity|apply Q.le_max_l].
    - apply Math_round_le. change (inject_Z 100) with 100%Q. apply Q.le_min_l. }
  split; [apply Hoverall|].
  split; [unfold Scoring.calculateSpecificityScore; cbv zeta; apply Q.le_min_l|].
  split; [unfold Scoring.calculateCascadeScore; cbv zeta; apply Q.le_min_l|].
  split; [unfold Scoring.calculateDuplicationScore; cbv zeta; apply Q.le_min_l|].
  split; [unfold Scoring.calculateLayoutRiskScore; cbv zeta; apply Q.le_min_l|].
  cbn [Scoring.generateSummary Summary.grade Summary.overallScore].
  split; [apply Hoverall|reflexivity].
Qed.

(** X18.  A higher score never gets a better grade, and the grades are cut
    at 20, 40, 60 and 80. *)
Theorem scoreToGrade_monotone (score score' : Z) :
  score <= score' ->
  gradeRank (Scoring.scoreToGrade score) <= gradeRank (Scoring.scoreToGrade score')
  /\ gradeRank (Scoring.scoreToGrade score)
     = Z.max 0 (Z.min 4 ((score - 1) / 20)).
Proof.
  intros Hle. unfold Scoring.scoreToGrade.
  assert (forall s, gradeRank (if s <=? 20 then Grade.A
                               else if s <=? 40 then Grade.B
                               else if s <=? 60 then Grade.C
                               else if s <=? 80 then Grade.D
                               else Grade.F)
                    = Z.max 0 (Z.min 4 ((s - 1) / 20))) as Hrank.
  { intros s.
    destruct (Z.leb_spec s 20); [|destruct (Z.leb_spec s 40);
      [|destruct (Z.leb_spec s 60); [|destruct (Z.leb_spec s 80)]]]; cbn [gradeRank].
    - assert ((s - 1) / 20 <= 0) by (apply Z.lt_succ_r, Z.div_lt_upper_bound; lia). lia.
    - assert ((s - 1) / 20 = 1) by (symmetry; apply (Z.div_unique _ _ 1 (s - 21)); lia). lia.
    - assert ((s - 1) / 20 = 2) by (symmetry; apply (Z.div_unique _ _ 2 (s - 41)); lia). lia.
    - assert ((s - 1) / 20 = 3) by (symmetry; apply (Z.div_unique _ _ 3 (s - 61)); lia). lia.
    - assert (4 <= (s - 1) / 20) by (apply Z.div_le_lower_bound; lia). lia. }
  split; [|apply Hrank].
  rewrite !Hrank.
  assert ((score - 1) / 20 <= (score' - 1) / 20) by (apply Z.div_le_mono; lia). lia.
Qed.

Lemma scoreToGrade_monotone_witness :
  gradeRank (Scoring.scoreToGrade 35) <= gradeRank (Scoring.scoreToGrade 61)
  /\ gradeRank (Scoring.scoreToGrade 35) = Z.max 0 (Z.min 4 ((35 - 1) / 20)).
Proof. apply (scoreToGrade_monotone 35 61). lia. Defined.

Lemma countIssuesBySeverity_loop (issues : list Issue.t) (counts : SeverityCounts.t) :
  let result :=
    JS.forOf issues counts (fun counts issue =>
      match Issue.severity issue with
      | Severity.critical =>
          SeverityCounts.mk (SeverityCounts.critical counts + 1) (SeverityCounts.high counts)
            (SeverityCounts.medium counts) (SeverityCounts.low counts)
      | Severity.high =>
          SeverityCounts.mk (SeverityCounts.critical counts) (SeverityCounts.high counts + 1)
            (SeverityCounts.medium counts) (SeverityCounts.low counts)
      | Severity.medium =>
          SeverityCounts.mk (SeverityCounts.critical counts) (SeverityCounts.high counts)
            (SeverityCounts.medium counts + 1) (SeverityCounts.low counts)
      | Severity.low =>
          SeverityCounts.mk (SeverityCounts.critical counts) (SeverityCounts.high counts)
            (SeverityCounts.medium counts) (SeverityCounts.low counts + 1)
      end) in
  SeverityCounts.critical result
  = SeverityCounts.critical counts + numberOfSeverity Severity.critical issues
  /\ SeverityCounts.high result
     = SeverityCounts.high counts + numberOfSeverity Severity.high issues
  /\ SeverityCounts.medium result
     = SeverityCounts.medium counts + numberOfSeverity Severity.medium issues
  /\ SeverityCounts.low result
     = SeverityCounts.low counts + numberOfSeverity Severity.low issues.
Proof.
  cbv zeta. revert counts.
  induction issues as [|issue issues IH]; intros counts.
  - unfold numberOfSeverity. cbn. lia.
  - rewrite forOf_cons.
    match goal with
    | |- context [JS.forOf issues ?c _] => specialize (IH c)
    end.
    destruct IH as (Hc & Hh & Hm & Hl). rewrite Hc, Hh, Hm, Hl.
    unfold numberOfSeverity, issuesOfSeverity, hasRank, severityRank.
    cbn [List.filter].
    destruct (Issue.severity issue);
      cbn [Rules.severityOrder Z.eqb Pos.eqb length
           SeverityCounts.critical SeverityCounts.high
           SeverityCounts.medium SeverityCounts.low];
      repeat split; lia.
Qed.

Lemma countIssuesBySeverity_counts (issues : list Issue.t) :
  SeverityCounts.critical (Scoring.countIssuesBySeverity issues)
  = numberOfSeverity Severity.critical issues
  /\ SeverityCounts.high (Scoring.countIssuesBySeverity issues)
     = numberOfSeverity Severity.high issues
  /\ SeverityCounts.medium (Scoring.countIssuesBySeverity issues)
     = numberOfSeverity Severity.medium issues
  /\ SeverityCounts.low (Scoring.countIssuesBySeverity issues)
     = numberOfSeverity Severity.low issues.
Proof.
  unfold Scoring.countIssuesBySeverity.
  pose proof (countIssuesBySeverity_loop issues (SeverityCounts.mk 0 0 0 0)) as H.
  cbv zeta in H. cbn [SeverityCounts.critical SeverityCounts.high
                      SeverityCounts.medium SeverityCounts.low] in H.
  exact H.
Qed.

Lemma numberOfSeverity_total (issues : list Issue.t) :
  numberOfSeverity Severity.critical issues + numberOfSeverity Severity.high issues
  + numberOfSeverity Severity.medium issues + numberOfSeverity Severity.low issues
  = Z.of_nat (length issues).
Proof.
  unfold numberOfSeverity, issuesOfSeverity, hasRank, severityRank.
  induction issues as [|issue issues IH]; [reflexivity|].
  cbn [List.filter].
  destruct (Issue.severity issue);
    cbn [Rules.severityOrder Z.eqb Pos.eqb length] in IH |- *; lia.
Qed.

(** X19.  [countIssuesBySeverity] counts, for each severity, the issues of
    that severity; the four counts add up to [totalIssues]. *)
Theorem countIssuesBySeverity_spec (metrics : GlobalMetrics.t) (issues : list Issue.t) :
  let counts := Scoring.countIssuesBySeverity issues in
  SeverityCounts.critical counts = numberOfSeverity Severity.critical issues
  /\ SeverityCounts.high counts = numberOfSeverity Severity.high issues
  /\ SeverityCounts.medium counts = numberOfSeverity Severity.medium issues
  /\ SeverityCounts.low counts = numberOfSeverity Severity.low issues
  /\ Summary.issuesBySeverity (Scoring.generateSummary metrics issues) = counts
  /\ SeverityCounts.critical counts + SeverityCounts.high counts
     + SeverityCounts.medium counts + SeverityCounts.low counts
     = Summary.totalIssues (Scoring.generateSummary metrics issues).
Proof.
  cbv zeta.
  destruct (countIssuesBySeverity_counts issues) as (Hc & Hh & Hm & Hl).
  rewrite Hc, Hh, Hm, Hl. repeat split.
  cbn [Scoring.generateSummary Summary.totalIssues]. apply numberOfSeverity_total.
Qed.

(** ** Reports *)

Lemma numberOfSeverity_zero (s : Severity.t) (issues : list Issue.t) :
  numberOfSeverity s issues = 0
  <-> Forall (fun i => hasRank (Rules.severityOrder s) i = false) issues.
Proof.
  unfold numberOfSeverity, issuesOfSeverity.
  induction issues as [|issue issues IH].
  - split; [constructor|reflexivity].
  - cbn [List.filter]. destruct (hasRank (Rules.severityOrder s) issue) eqn:E.
    + split; [cbn [length]; lia|]. intros H. inversion H; subst. congruence.
    + rewrite IH. split; [now constructor|]. intros H. now inversion H.
Qed.

(** X20.  A generated report checked against the configuration it was
    generated with passes exactly when its score is not above the merged
    maximum (at most it, or the maximum is [NaN]) and none of its issues
    is critical; there are at most two reasons, and none exactly when it
    passes. *)
Theorem checkThresholds_generateReport
    (otherToString : Q -> string) (parseResults : list ParseResult.t)
    (userConfig : AnalyzerConfig.t) (now : string) :
  let report := Analyzer.generateReport parseResults (Analyzer.mergeConfig userConfig) now in
  let check := Analyzer.checkThresholds otherToString report userConfig in
  (Analyzer.ThresholdCheck.passed check = true
   <-> notAbove (Summary.overallScore (Report.summary report))
         (RequiredConfig.maxScore (Analyzer.mergeConfig userConfig))
       /\ Forall (fun i => isCritical i = false) (Report.issues report))
  /\ (Analyzer.ThresholdCheck.passed check = true
      <-> Analyzer.ThresholdCheck.reasons check = [])
  /\ (length (Analyzer.ThresholdCheck.reasons check) <= 2)%nat.
Proof.
  cbv zeta.
  set (report := Analyzer.generateReport parseResults (Analyzer.mergeConfig userConfig) now).
  assert (SeverityCounts.critical (Summary.issuesBySeverity (Report.summary report))
          = numberOfSeverity Severity.critical (Report.issues report)) as Hcritical.
  { unfold report.
    cbn [Analyzer.generateReport Report.summary Report.issues Scoring.generateSummary
         Summary.issuesBySeverity].
    apply countIssuesBySeverity_counts. }
  pose proof (numberOfSeverity_zero Severity.critical (Report.issues report)) as Hzero.
  fold isCritical in Hzero.
  assert (0 <= numberOfSeverity Severity.critical (Report.issues report)) as Hnonneg
    by (unfold numberOfSeverity; lia).
  pose proof (integerExceeds_notAbove (Summary.overallScore (Report.summary report))
                (RequiredConfig.maxScore (Analyzer.mergeConfig userConfig))) as Habove.
  unfold Analyzer.checkThresholds. cbv zeta.
  rewrite Hcritical.
  generalize dependent (numberOfSeverity Severity.critical (Report.issues report)).
  intros n _ Hzero Hnonneg.
  destruct (JS.Number.integerExceeds (Summary.overallScore (Report.summary report))
              (RequiredConfig.maxScore (Analyzer.mergeConfig userConfig)));
    destruct (Z.gtb_spec n 0) as [Hn|Hn];
    cbn [app length Nat.eqb Analyzer.ThresholdCheck.passed Analyzer.ThresholdCheck.reasons];
    (split; [|split; [|lia]]);
    (split; intros H;
     first [ discriminate H
           | reflexivity
           | split; [now apply Habove|apply Hzero; lia]
           | destruct H as [Hs Hf];
             first [apply Habove in Hs; discriminate Hs|apply Hzero in Hf; lia] ]).
Qed.

(** ** Recommendations *)

Lemma IssueId_eqb_eq (a b : IssueId.t) : IssueId.eqb a b = true <-> a = b.
Proof. destruct a, b; cbn; split; intros H; try reflexivity; discriminate H. Qed.

Lemma count_filter_found (ids : list IssueId.t) (issues : list Issue.t) :
  (Scoring.count (List.filter (Scoring.hasId ids) issues) >? 0) = found ids issues.
Proof.
  unfold Scoring.count, found.
  induction issues as [|i issues IH]; [reflexivity|].
  cbn [List.filter existsb]. destruct (Scoring.hasId ids i); [|exact IH].
  cbn [length orb]. apply Z.gtb_lt. lia.
Qed.

Lemma found_two (a b : IssueId.t) (issues : list Issue.t) :
  (found [a] issues || found [b] issues)%bool = found [a; b] issues.
Proof.
  assert (forall i, Scoring.hasId [a; b] i
                    = (Scoring.hasId [a] i || Scoring.hasId [b] i)%bool) as Hone.
  { intros i. unfold Scoring.hasId. cbn [existsb].
    now destruct (IssueId.eqb (Issue.id i) a), (IssueId.eqb (Issue.id i) b). }
  unfold found.
  induction issues as [|i issues IH]; [reflexivity|].
  cbn [existsb]. rewrite <- IH, Hone.
  destruct (Scoring.hasId [a] i), (Scoring.hasId [b] i),
    (existsb (Scoring.hasId [a]) issues), (existsb (Scoring.hasId [b]) issues);
    reflexivity.
Qed.

Lemma generateRecommendations_shape (issues : list Issue.t) :
  exists r1 r2 r3 r4 r5,
    Recommendation.relatedIssueIds r1 = [IssueId.HIGH_SPECIFICITY; IssueId.DEEP_SELECTOR]
    /\ Recommendation.relatedIssueIds r2 = [IssueId.IMPORTANT_ABUSE]
    /\ Recommendation.relatedIssueIds r3 = [IssueId.OVERRIDE_PRESSURE]
    /\ Recommendation.relatedIssueIds r4 = [IssueId.DUPLICATE_DECLARATIONS]
    /\ Recommendation.relatedIssueIds r5 = [IssueId.LAYOUT_RISK_HOTSPOT]
    /\ Scoring.generateRecommendations issues
       = JS.sort (fun a b => priorityRank a - priorityRank b)
           (suggest [IssueId.HIGH_SPECIFICITY; IssueId.DEEP_SELECTOR] issues r1
            ++ suggest [IssueId.IMPORTANT_ABUSE] issues r2
            ++ suggest [IssueId.OVERRIDE_PRESSURE] issues r3
            ++ suggest [IssueId.DUPLICATE_DECLARATIONS] issues r4
            ++ suggest [IssueId.LAYOUT_RISK_HOTSPOT] issues r5).
Proof.
  unfold Scoring.generateRecommendations, Scoring.groupIssuesByType. cbv zeta.
  cbn [Scoring.IssueGroups.highSpecificity Scoring.IssueGroups.deepSelectors
       Scoring.IssueGroups.importantAbuse Scoring.IssueGroups.overridePressure
       Scoring.IssueGroups.duplicateDeclarations Scoring.IssueGroups.layoutRiskHotspot].
  change (fun a b : Recommendation.t =>
            Scoring.priorityOrder (Recommendation.priority a)
            - Scoring.priorityOrder (Recommendation.priority b))
    with (fun a b : Recommendation.t => priorityRank a - priorityRank b).
  rewrite !count_filter_found, found_two. unfold suggest.
  match goal with
  | |- context [Recommendation.mk ?c ?t ?d ?p
                  [IssueId.HIGH_SPECIFICITY; IssueId.DEEP_SELECTOR]] =>
      exists (Recommendation.mk c t d p [IssueId.HIGH_SPECIFICITY; IssueId.DEEP_SELECTOR])
  end.
  match goal with
  | |- context [Recommendation.mk ?c ?t ?d ?p [IssueId.IMPORTANT_ABUSE]] =>
      exists (Recommendation.mk c t d p [IssueId.IMPORTANT_ABUSE])
  end.
  match goal with
  | |- context [Recommendation.mk ?c ?t ?d ?p [IssueId.OVERRIDE_PRESSURE]] =>
      exists (Recommendation.mk c t d p [IssueId.OVERRIDE_PRESSURE])
  end.
  match goal with
  | |- context [Recommendation.mk ?c ?t ?d ?p [IssueId.DUPLICATE_DECLARATIONS]] =>
      exists (Recommendation.mk c t d p [IssueId.DUPLICATE_DECLARATIONS])
  end.
  match goal with
  | |- context [Recommendation.mk ?c ?t ?d ?p [IssueId.LAYOUT_RISK_HOTSPOT]] =>
      exists (Recommendation.mk c t d p [IssueId.LAYOUT_RISK_HOTSPOT])
  end.
  do 5 (split; [reflexivity|]).
  destruct (found [IssueId.HIGH_SPECIFICITY; IssueId.DEEP_SELECTOR] issues),
    (found [IssueId.IMPORTANT_ABUSE] issues),
    (found [IssueId.OVERRIDE_PRESSURE] issues),
    (found [IssueId.DUPLICATE_DECLARATIONS] issues),
    (found [IssueId.LAYOUT_RISK_HOTSPOT] issues); reflexivity.
Qed.

Lemma suggest_length ids issues r : (length (suggest ids issues r) <= 1)%nat.
Proof. unfold suggest. destruct (found ids issues); cbn [length]; lia. Qed.

Lemma suggest_related ids issues r :
  Recommendation.relatedIssueIds r = ids ->
  Forall (fun r => exists i, In i issues /\ relatesTo r i = true) (suggest ids issues r).
Proof.
  intros Hids. unfold suggest, found.
  destruct (existsb (Scoring.hasId ids) issues) eqn:E; [|constructor].
  apply existsb_exists in E. destruct E as (i & Hin & Hi).
  constructor; [|constructor]. exists i. split; [exact Hin|].
  unfold relatesTo. now rewrite Hids.
Qed.

Lemma suggest_found ids issues r (i : Issue.t) :
  Recommendation.relatedIssueIds r = ids ->
  In i issues -> Scoring.hasId ids i = true ->
  In r (suggest ids issues r) /\ relatesTo r i = true.
Proof.
  intros Hids Hin Hi. unfold suggest, found.
  assert (existsb (Scoring.hasId ids) issues = true) as ->
    by (apply existsb_exists; now exists i).
  split; [now left|]. unfold relatesTo. now rewrite Hids.
Qed.

Lemma suggest_not_missing ids issues r :
  Recommendation.relatedIssueIds r = ids ->
  existsb (IssueId.eqb IssueId.MISSING_LAYERS) ids = false ->
  Forall (fun r => namesMissingLayers r = false) (suggest ids issues r).
Proof.
  intros Hids Hno. unfold suggest. destruct (found ids issues); [|constructor].
  constructor; [|constructor]. unfold namesMissingLayers. now rewrite Hids.
Qed.

(** X21.  The recommendations come sorted by priority, at most five of
    them; each one names the id of an issue that was found, every
    issue other than MISSING_LAYERS is named by one of them, and no
    recommendation names MISSING_LAYERS. *)
Theorem generateRecommendations_spec (issues : list Issue.t) :
  let recommendations := Scoring.generateRecommendations issues in
  StronglySorted priorityNotAbove recommendations
  /\ (length recommendations <= 5)%nat
  /\ Forall (fun r => exists i, In i issues /\ relatesTo r i = true) recommendations
  /\ Forall (fun i => Issue.id i <> IssueId.MISSING_LAYERS ->
                      exists r, In r recommendations /\ relatesTo r i = true) issues
  /\ Forall (fun r => namesMissingLayers r = false) recommendations.
Proof.
  cbv zeta.
  destruct (generateRecommendations_shape issues)
    as (r1 & r2 & r3 & r4 & r5 & H1 & H2 & H3 & H4 & H5 & ->).
  split; [apply (sort_rank_sorted priorityRank)|].
  split.
  { rewrite sort_length, !length_app.
    pose proof (suggest_length [IssueId.HIGH_SPECIFICITY; IssueId.DEEP_SELECTOR] issues r1).
    pose proof (suggest_length [IssueId.IMPORTANT_ABUSE] issues r2).
    pose proof (suggest_length [IssueId.OVERRIDE_PRESSURE] issues r3).
    pose proof (suggest_length [IssueId.DUPLICATE_DECLARATIONS] issues r4).
    pose proof (suggest_length [IssueId.LAYOUT_RISK_HOTSPOT] issues r5).
    lia. }
  split.
  { eapply Permutation_Forall; [symmetry; apply sort_Permutation|].
    repeat (apply Forall_app; split); now apply suggest_related. }
  split.
  { apply List.Forall_forall. intros i Hin Hid.
    set (made := suggest [IssueId.HIGH_SPECIFICITY; IssueId.DEEP_SELECTOR] issues r1
                 ++ suggest [IssueId.IMPORTANT_ABUSE] issues r2
                 ++ suggest [IssueId.OVERRIDE_PRESSURE] issues r3
                 ++ suggest [IssueId.DUPLICATE_DECLARATIONS] issues r4
                 ++ suggest [IssueId.LAYOUT_RISK_HOTSPOT] issues r5).
    assert (forall r ids,
              Recommendation.relatedIssueIds r = ids ->
              Scoring.hasId ids i = true ->
              (In r (suggest ids issues r) -> In r made) ->
              exists r', In r' (JS.sort (fun a b => priorityRank a - priorityRank b) made)
                         /\ relatesTo r' i = true) as Hpick.
    { intros r ids Hids Hi Hmade.
      destruct (suggest_found ids issues r i Hids Hin Hi) as [Hr Hrel].
      exists r. split; [|exact Hrel].
      eapply Permutation_in; [symmetry; apply sort_Permutation|]. now apply Hmade. }
    unfold Scoring.hasId in Hpick. unfold made in Hpick.
    destruct (Issue.id i) eqn:E; try (exfalso; apply Hid; reflexivity).
    - apply (Hpick r1 _ H1); [reflexivity|]. rewrite !in_app_iff. tauto.
    - apply (Hpick r1 _ H1); [reflexivity|]. rewrite !in_app_iff. tauto.
    - apply (Hpick r2 _ H2); [reflexivity|]. rewrite !in_app_iff. tauto.
    - apply (Hpick r4 _ H4); [reflexivity|]. rewrite !in_app_iff. tauto.
    - apply (Hpick r5 _ H5); [reflexivity|]. rewrite !in_app_iff. tauto.
    - apply (Hpick r3 _ H3); [reflexivity|]. rewrite !in_app_iff. tauto. }
  eapply Permutation_Forall; [symmetry; apply sort_Permutation|].
  repeat (apply Forall_app; split); now apply suggest_not_missing.
Qed.

(** X22.  The fields of a generated report agree with each other: the
    global totals are the sums of the per-file totals (one entry per
    input, in input order), the summary counts the issues that are
    listed, the issues are listed by severity, and the top selectors
    are min(10, totalSelectors) many. *)
Theorem generateReport_consistent
    (parseResults : list ParseResult.t) (config : RequiredConfig.t) (now : string) :
  let report := Analyzer.generateReport parseResults config now in
  map FileMetrics.file (Report.fileMetrics report) = map ParseResult.file parseResults
  /\ GlobalMetrics.totalFiles (Report.globalMetrics report)
     = Z.of_nat (length (Report.fileMetrics report))
  /\ GlobalMetrics.totalRules (Report.globalMetrics report)
     = sumList (map FileMetrics.totalRules (Report.fileMetrics report))
  /\ GlobalMetrics.totalSelectors (Report.globalMetrics report)
     = sumList (map FileMetrics.totalSelectors (Report.fileMetrics report))
  /\ GlobalMetrics.totalDeclarations (Report.globalMetrics report)
     = sumList (map FileMetrics.totalDeclarations (Report.fileMetrics report))
  /\ GlobalMetrics.totalImportantCount (Report.globalMetrics report)
     = sumList (map FileMetrics.importantCount (Report.fileMetrics report))
  /\ Summary.totalIssues (Report.summary report)
     = Z.of_nat (length (Report.issues report))
  /\ SeverityCounts.critical (Summary.issuesBySeverity (Report.summary report))
     = numberOfSeverity Severity.critical (Report.issues report)
  /\ StronglySorted rankNotAbove (Report.issues report)
  /\ Z.of_nat (length (Report.topSelectors report))
     = Z.min 10 (GlobalMetrics.totalSelectors (Report.globalMetrics report))
  /\ Forall (fun r => exists i, In i (Report.issues report) /\ relatesTo r i = true)
       (Report.recommendations report).
Proof.
  cbv zeta.
  cbn [Analyzer.generateReport Report.fileMetrics Report.globalMetrics Report.summary
       Report.issues Report.topSelectors Report.recommendations
       Scoring.generateSummary Summary.totalIssues Summary.issuesBySeverity].
  destruct (calculateGlobalMetrics_sums (map Metrics.calculateFileMetrics parseResults))
    as (H1 & H2 & H3 & H4 & H5 & _).
  split.
  { apply map_calculateFileMetrics. intros r. now rewrite calculateFileMetrics_loop. }
  split; [exact H1|]. split; [exact H2|]. split; [exact H3|].
  split; [exact H4|]. split; [exact H5|]. split; [reflexivity|].
  split; [apply countIssuesBySeverity_counts|].
  split.
  { rewrite runAllRules_unfold. apply (sort_rank_sorted severityRank). }
  split.
  { rewrite H3.
    rewrite (map_calculateFileMetrics FileMetrics.totalSelectors
               (fun r => Z.of_nat (length (selectorsOf r))))
      by (intros r; now rewrite calculateFileMetrics_loop).
    rewrite <- occurrences_length, extractTopSelectors_unfold.
    unfold JS.slice0. cbn [Z.ltb Z.compare].
    rewrite length_firstn, sort_length, length_map. lia. }
  destruct (generateRecommendations_shape
              (Rules.runAllRules parseResults (RequiredConfig.widen config)))
    as (r1 & r2 & r3 & r4 & r5 & Hr1 & Hr2 & Hr3 & Hr4 & Hr5 & ->).
  eapply Permutation_Forall; [symmetry; apply sort_Permutation|].
  repeat (apply Forall_app; split); now apply suggest_related.
Qed.

(** ** Selectors *)

Lemma countNames_nonneg (prefix : ascii) (s : string) (inMatch : bool) :
  0 <= Parser.countNames prefix inMatch s.
Proof.
  revert inMatch. induction s as [|c rest IH]; intros inMatch; cbn [Parser.countNames];
    [lia|].
  destruct (inMatch && Parser.isNameChar c)%bool; [apply IH|].
  destruct (Ascii.eqb c prefix && Parser.nextIs Parser.isNameStart rest)%bool;
    [specialize (IH true); lia|apply IH].
Qed.

Lemma countNames_test (prefix : ascii) (s : string) :
  Parser.testName prefix s = true <-> 1 <= Parser.countNames prefix false s.
Proof.
  split.
  - induction s as [|c rest IH]; cbn [Parser.countNames Parser.testName andb];
      [discriminate|].
    destruct (Ascii.eqb c prefix && Parser.nextIs Parser.isNameStart rest)%bool.
    + intros _. pose proof (countNames_nonneg prefix rest true). lia.
    + exact IH.
  - generalize false as inMatch. intros inMatch. revert inMatch.
    induction s as [|c rest IH]; intros inMatch;
      cbn [Parser.countNames Parser.testName]; [lia|].
    destruct (inMatch && Parser.isNameChar c)%bool.
    + intros H. rewrite (IH _ H). apply orb_true_r.
    + destruct (Ascii.eqb c prefix && Parser.nextIs Parser.isNameStart rest)%bool;
        [reflexivity|]. intros H. now rewrite (IH _ H).
Qed.

Lemma countAttributes_nonneg (s : string) (inMatch : bool) :
  0 <= Parser.countAttributes inMatch s.
Proof.
  revert inMatch. induction s as [|c rest IH]; intros inMatch;
    cbn [Parser.countAttributes]; [lia|].
  destruct inMatch.
  - destruct (Ascii.eqb c "]"); apply IH.
  - destruct (Ascii.eqb c "[" && Parser.closesAttribute rest)%bool;
      [specialize (IH true); lia|apply IH].
Qed.

Lemma countAttributes_test (s : string) :
  Parser.testAttribute s = true <-> 1 <= Parser.countAttributes false s.
Proof.
  split.
  - induction s as [|c rest IH]; cbn [Parser.countAttributes Parser.testAttribute];
      [discriminate|].
    destruct (Ascii.eqb c "[" && Parser.closesAttribute rest)%bool.
    + intros _. pose proof (countAttributes_nonneg rest true). lia.
    + exact IH.
  - generalize false as inMatch. intros inMatch. revert inMatch.
    induction s as [|c rest IH]; intros inMatch;
      cbn [Parser.countAttributes Parser.testAttribute]; [lia|].
    destruct inMatch.
    + destruct (Ascii.eqb c "]"); intros H; rewrite (IH _ H); apply orb_true_r.
    + destruct (Ascii.eqb c "[" && Parser.closesAttribute rest)%bool;
        [reflexivity|]. intros H. now rewrite (IH _ H).
Qed.

Lemma countElementsFrom_nonneg (s : string) (inMatch : bool) :
  0 <= Parser.countElementsFrom inMatch s.
Proof.
  revert inMatch. induction s as [|c rest IH]; intros inMatch;
    cbn [Parser.countElementsFrom]; [lia|].
  destruct (inMatch && Parser.isNameChar c)%bool; [apply IH|].
  destruct (Parser.isDepthSeparator c && Parser.nextIs Parser.isLetter rest)%bool;
    [specialize (IH true); lia|apply IH].
Qed.

Lemma countElements_nonneg (s : string) : 0 <= Parser.countElements s.
Proof.
  unfold Parser.countElements.
  pose proof (countElementsFrom_nonneg s true).
  pose proof (countElementsFrom_nonneg s false).
  destruct (Parser.nextIs Parser.isLetter s); lia.
Qed.

Lemma selector_walks (nodes : list Node.t) (counts : Specificity.t Z)
    (flags : Parser.SelectorFlags.t) :
  selectorInvariant counts flags ->
  selectorInvariant
    (JS.forOf nodes counts (fun counts node =>
       let ids := Specificity.ids counts in
       let classes := Specificity.classes counts in
       let elements := Specificity.elements counts in
       match Node.type node with
       | NodeType.id => Specificity.mk (ids + 1) classes elements
       | NodeType.class | NodeType.attribute => Specificity.mk ids (classes + 1) elements
       | NodeType.pseudo =>
           if Parser.isPseudoElement node
           then Specificity.mk ids classes (elements + 1)
           else if negb (JS.arrayIncludes ["not"; "is"; "where"; "has"]
                           (Parser.stripColons (Node.value node)))
           then Specificity.mk ids (classes + 1) elements
           else counts
       | NodeType.tag =>
           if negb (String.eqb (Node.value node) "*")
           then Specificity.mk ids classes (elements + 1)
           else counts
       | _ => counts
       end))
    (JS.forOf nodes flags (fun flags node =>
       let hasId := Parser.SelectorFlags.hasId flags in
       let hasPseudoClass := Parser.SelectorFlags.hasPseudoClass flags in
       let hasPseudoElement := Parser.SelectorFlags.hasPseudoElement flags in
       let hasAttribute := Parser.SelectorFlags.hasAttribute flags in
       match Node.type node with
       | NodeType.id =>
           Parser.SelectorFlags.mk true hasPseudoClass hasPseudoElement hasAttribute
       | NodeType.attribute =>
           Parser.SelectorFlags.mk hasId hasPseudoClass hasPseudoElement true
       | NodeType.pseudo =>
           if Parser.isPseudoElement node
           then Parser.SelectorFlags.mk hasId hasPseudoClass true hasAttribute
           else Parser.SelectorFlags.mk hasId true hasPseudoElement hasAttribute
       | _ => flags
       end)).
Proof.
  revert counts flags.
  induction nodes as [|node nodes IH]; intros counts flags Hinv; [exact Hinv|].
  rewrite !forOf_cons. apply IH. cbv zeta.
  destruct counts as [ids classes elements].
  destruct flags as [hasId hasPseudoClass hasPseudoElement hasAttribute].
  unfold selectorInvariant in *.
  cbn [Specificity.ids Specificity.classes Specificity.elements
       Parser.SelectorFlags.hasId Parser.SelectorFlags.hasPseudoClass
       Parser.SelectorFlags.hasPseudoElement Parser.SelectorFlags.hasAttribute] in *.
  destruct Hinv as (Hi & Hc & He & Hid & Hattr & Hpe).
  destruct (Node.type node);
    repeat match goal with
           | |- context [if ?b then _ else _] => destruct b
           end;
    cbn [Specificity.ids Specificity.classes Specificity.elements
         Parser.SelectorFlags.hasId Parser.SelectorFlags.hasPseudoClass
         Parser.SelectorFlags.hasPseudoElement Parser.SelectorFlags.hasAttribute];
    (split; [lia|]); (split; [lia|]); (split; [lia|]);
    (split; [split; intros H; first [reflexivity | apply Hid in H; lia | apply Hid; lia
                                    | lia]|]);
    (split; intros H; first [lia | apply Hattr in H; lia | apply Hpe in H; lia]).
Qed.

(** X23.  What [parseSelector] returns is coherent, whether the selector
    parser accepts the selector or the regex fallback is used: the
    three specificity counts and the depth are not negative, [hasId]
    holds exactly when the id count is at least 1, an attribute means
    a class count of at least 1; on a selector the parser accepts a
    pseudo-element means an element count of at least 1 and the depth
    is at least 1. *)
Theorem parseSelector_consistent
    (processSync : string -> option Node.t) (selectorStr : string) :
  let parsed := Parser.parseSelector processSync selectorStr in
  ParsedSelector.raw parsed = selectorStr
  /\ 0 <= Specificity.ids (ParsedSelector.specificity parsed)
  /\ 0 <= Specificity.classes (ParsedSelector.specificity parsed)
  /\ 0 <= Specificity.elements (ParsedSelector.specificity parsed)
  /\ 0 <= ParsedSelector.depth parsed
  /\ (ParsedSelector.hasId parsed = true
      <-> 1 <= Specificity.ids (ParsedSelector.specificity parsed))
  /\ (ParsedSelector.hasAttribute parsed = true
      -> 1 <= Specificity.classes (ParsedSelector.specificity parsed))
  /\ (processSync selectorStr <> None ->
      1 <= ParsedSelector.depth parsed
      /\ (ParsedSelector.hasPseudoElement parsed = true
          -> 1 <= Specificity.elements (ParsedSelector.specificity parsed))).
Proof.
  cbv zeta. unfold Parser.parseSelector, Parser.calculateSpecificity,
    Parser.calculateSelectorDepth. cbv zeta.
  cbn [ParsedSelector.raw ParsedSelector.specificity ParsedSelector.depth
       ParsedSelector.hasId ParsedSelector.hasAttribute ParsedSelector.hasPseudoElement].
  destruct (processSync selectorStr) as [selectors|].
  - assert (selectorInvariant (Specificity.mk 0 0 0)
              (Parser.SelectorFlags.mk false false false false)) as Hstart.
    { unfold selectorInvariant. cbn. repeat split; try lia; discriminate. }
    pose proof (selector_walks (Node.walk selectors) _ _ Hstart) as Hinv.
    unfold selectorInvariant in Hinv.
    destruct Hinv as (Hi & Hc & He & Hid & Hattr & Hpe).
    assert (1 <= JS.forOf (Node.walk selectors) 1
                   (fun depth node => if Parser.isCombinator node then depth + 1 else depth))
      as Hdepth.
    { apply (forOf_invariant (fun depth => 1 <= depth)); [lia|].
      intros depth node Hd. destruct (Parser.isCombinator node); lia. }
    split; [reflexivity|]. split; [exact Hi|]. split; [exact Hc|]. split; [exact He|].
    split; [lia|]. split; [exact Hid|]. split; [exact Hattr|].
    intros _. split; [exact Hdepth|exact Hpe].
  - cbn [Specificity.ids Specificity.classes Specificity.elements
         Parser.SelectorFlags.hasId Parser.SelectorFlags.hasAttribute
         Parser.SelectorFlags.hasPseudoElement].
    pose proof (countNames_nonneg "#" selectorStr false).
    pose proof (countNames_nonneg "." selectorStr false).
    pose proof (countAttributes_nonneg selectorStr false).
    pose proof (countElements_nonneg selectorStr).
    split; [reflexivity|]. split; [assumption|]. split; [lia|]. split; [assumption|].
    split; [lia|]. split; [apply countNames_test|]. split.
    + intros Hattr. apply countAttributes_test in Hattr. lia.
    + intros Hnone. now contradiction Hnone.
Qed.

Lemma parseSelector_consistent_witness :
  1 <= ParsedSelector.depth (Parser.parseSelector notArgumentParser ".x:not(.a .b)")
  /\ (ParsedSelector.hasPseudoElement
        (Parser.parseSelector notArgumentParser ".x:not(.a .b)") = true
      -> 1 <= Specificity.elements
                (ParsedSelector.specificity
                   (Parser.parseSelector notArgumentParser ".x:not(.a .b)"))).
Proof.
  apply (parseSelector_consistent notArgumentParser ".x:not(.a .b)").
  vm_compute. discriminate.
Defined.

(** ** Style sheets *)

Lemma ChildNode_nested_ind (P : Postcss.ChildNode -> Prop) :
  (forall selectors start children,
      Forall P children -> P (Postcss.Rule selectors start children)) ->
  (forall name params children,
      Forall P children -> P (Postcss.AtRule name params children)) ->
  (forall prop value important, P (Postcss.Declaration prop value important)) ->
  (forall text, P (Postcss.Comment text)) ->
  forall n, P n.
Proof.
  intros Hrule Hat Hdecl Hcomment.
  fix IH 1. intros [selectors start children|name params children|prop value important|text].
  - apply Hrule. induction children as [|c cs IHcs]; constructor; [apply IH|exact IHcs].
  - apply Hat. induction children as [|c cs IHcs]; constructor; [apply IH|exact IHcs].
  - apply Hdecl.
  - apply Hcomment.
Qed.

(** An ancestor of a visited node is the start of the walk, one of
    its ancestors, or a visited node itself. *)
Lemma walkFrom_ancestors (n : Postcss.ChildNode) :
  forall ancestors visited,
    In visited (Postcss.walkFrom ancestors n) ->
    forall a, In a (fst visited) ->
      a = n \/ In a ancestors \/ In a (map snd (Postcss.walkFrom ancestors n)).
Proof.
  induction n as [selectors start children IH|name params children IH| |]
    using ChildNode_nested_ind; intros ancestors visited Hin a Ha;
    cbn [Postcss.walkFrom] in *; try (now destruct Hin).
  - apply in_flat_map in Hin. destruct Hin as (c & Hc & [<-|Hin]).
    + cbn [fst] in Ha. destruct Ha as [<-|Ha]; [now left|right; now left].
    + rewrite List.Forall_forall in IH.
      destruct (IH c Hc _ _ Hin a Ha) as [->|[[<-|Hanc]|Hsub]].
      * right; right. apply in_map_iff.
        exists (Postcss.Rule selectors start children :: ancestors, c).
        split; [reflexivity|]. apply in_flat_map. exists c. split; [exact Hc|now left].
      * now left.
      * right; now left.
      * right; right. apply in_map_iff in Hsub. destruct Hsub as (v & <- & Hv).
        apply in_map_iff. exists v. split; [reflexivity|].
        apply in_flat_map. exists c. split; [exact Hc|now right].
  - apply in_flat_map in Hin. destruct Hin as (c & Hc & [<-|Hin]).
    + cbn [fst] in Ha. destruct Ha as [<-|Ha]; [now left|right; now left].
    + rewrite List.Forall_forall in IH.
      destruct (IH c Hc _ _ Hin a Ha) as [->|[[<-|Hanc]|Hsub]].
      * right; right. apply in_map_iff.
        exists (Postcss.AtRule name params children :: ancestors, c).
        split; [reflexivity|]. apply in_flat_map. exists c. split; [exact Hc|now left].
      * now left.
      * right; now left.
      * right; right. apply in_map_iff in Hsub. destruct Hsub as (v & <- & Hv).
        apply in_map_iff. exists v. split; [reflexivity|].
        apply in_flat_map. exists c. split; [exact Hc|now right].
Qed.

Lemma walk_ancestors (root : Postcss.Root) visited a :
  In visited (Postcss.walk root) -> In a (fst visited) -> In a (nodesOf root).
Proof.
  unfold nodesOf, Postcss.walk. intros Hin Ha.
  apply in_flat_map in Hin. destruct Hin as (c & Hc & [<-|Hin]); [destruct Ha|].
  destruct (walkFrom_ancestors c [] visited Hin a Ha) as [->|[[]|Hsub]].
  - apply in_map_iff. exists ([], c). split; [reflexivity|].
    apply in_flat_map. exists c. split; [exact Hc|now left].
  - apply in_map_iff in Hsub. destruct Hsub as (v & <- & Hv).
    apply in_map_iff. exists v. split; [reflexivity|].
    apply in_flat_map. exists c. split; [exact Hc|now right].
Qed.

Lemma getLayerName_Some (ancestors : list Postcss.ChildNode) (layer : string) :
  Parser.getLayerName ancestors = Some layer ->
  exists a, In a ancestors /\ isLayerAtRule a = true.
Proof.
  induction ancestors as [|a ancestors IH]; cbn [Parser.getLayerName]; [discriminate|].
  intros H.
  assert (Parser.getLayerName ancestors = Some layer ->
          exists a', In a' (a :: ancestors) /\ isLayerAtRule a' = true) as Hrest.
  { intros H'. destruct (IH H') as (a' & Ha' & Hl). exists a'. split; [now right|exact Hl]. }
  destruct a as [| name params children | |]; try (now apply Hrest).
  destruct (String.eqb name "layer") eqn:E; [|now apply Hrest].
  exists (Postcss.AtRule name params children). split; [now left|exact E].
Qed.

Lemma walkAtRules_layer (root : Postcss.Root) :
  Postcss.walkAtRules "layer" root <> []
  <-> Exists (fun n => isLayerAtRule n = true) (nodesOf root).
Proof.
  unfold Postcss.walkAtRules, nodesOf.
  induction (Postcss.walk root) as [|[ancestors n] visited IH]; cbn [flat_map map snd].
  - split; [intros H; now contradiction H|intros H; inversion H].
  - rewrite List.Exists_cons.
    destruct n as [| name params children | |]; cbn [app isLayerAtRule];
      try (rewrite IH; split; [now right|intros [H|H]; [discriminate H|exact H]]).
    destruct (String.eqb name "layer") eqn:E; cbn [app].
    + split; [now left|discriminate].
    + rewrite IH. split; [now right|intros [H|H]; [discriminate H|exact H]].
Qed.

Lemma parseCSS_rules (processSync : string -> option Node.t) (file : string)
    (root : Postcss.Root) :
  JS.forOf (Postcss.walk root) [] (fun rules '(ancestors, node) =>
    match node with
    | Postcss.Rule ruleSelectors start _ =>
        rules ++ Parser.processRule processSync ancestors ruleSelectors start node file
    | _ => rules
    end)
  = flat_map (rulesOfNode processSync file) (Postcss.walk root).
Proof.
  transitivity (JS.forOf (Postcss.walk root) []
                  (fun rules visited => rules ++ rulesOfNode processSync file visited)).
  - apply forOf_ext. intros rules [ancestors node]. unfold rulesOfNode. cbn [fst snd].
    destruct node; try reflexivity; now rewrite app_nil_r.
  - apply (forOf_push (rulesOfNode processSync file)).
Qed.

Lemma layer_pass (paramsList : list string) (pass : Parser.LayerPass.t) :
  let final :=
    JS.forOf paramsList pass (fun pass atRuleParams =>
      let params := JS.trim atRuleParams in
      if JS.truthy params
      then
        let layerNames :=
          List.filter JS.truthy (map JS.trim (JS.split (Ascii.eqb ",") params)) in
        Parser.LayerPass.mk
          (JS.forOf layerNames (Parser.LayerPass.layers pass) (fun layers name =>
             if negb (JS.arrayIncludes layers name) then layers ++ [name] else layers))
          true
      else Parser.LayerPass.mk (Parser.LayerPass.layers pass) true) in
  (NoDup (Parser.LayerPass.layers pass)
   /\ Forall (fun l => JS.truthy l = true) (Parser.LayerPass.layers pass)
   /\ (Parser.LayerPass.layers pass <> [] -> Parser.LayerPass.usesLayers pass = true))
  -> (NoDup (Parser.LayerPass.layers final)
      /\ Forall (fun l => JS.truthy l = true) (Parser.LayerPass.layers final)
      /\ (Parser.LayerPass.layers final <> [] -> Parser.LayerPass.usesLayers final = true))
     /\ Parser.LayerPass.usesLayers final
        = match paramsList with
          | [] => Parser.LayerPass.usesLayers pass
          | _ => true
          end.
Proof.
  cbv zeta. revert pass.
  induction paramsList as [|p rest IH]; intros pass Hpass; [split; [exact Hpass|reflexivity]|].
  rewrite forOf_cons.
  match goal with
  | |- context [JS.forOf rest ?st _] => specialize (IH st)
  end.
  assert (forall names layers,
            Forall (fun l => JS.truthy l = true) names ->
            NoDup layers /\ Forall (fun l => JS.truthy l = true) layers ->
            let layers' :=
              JS.forOf names layers (fun layers name =>
                if negb (JS.arrayIncludes layers name) then layers ++ [name] else layers) in
            NoDup layers' /\ Forall (fun l => JS.truthy l = true) layers') as Hnames.
  { cbv zeta. induction names as [|name names IHn]; intros layers Hn Hl; [exact Hl|].
    rewrite forOf_cons. inversion Hn; subst. apply IHn; [assumption|].
    destruct Hl as [Hnd Hall].
    destruct (JS.arrayIncludes layers name) eqn:E; cbn [negb]; [now split|].
    split.
    - apply NoDup_app. split; [exact Hnd|]. split; [|apply NoDup_singleton].
      intros x Hx Hx'. apply list_elem_of_In in Hx, Hx'. destruct Hx' as [<-|[]].
      unfold JS.arrayIncludes in E.
      assert (existsb (String.eqb name) layers = true) as Hex.
      { apply existsb_exists. exists name. split; [exact Hx|apply String.eqb_refl]. }
      congruence.
    - apply Forall_app. split; [exact Hall|]. constructor; [assumption|constructor]. }
  destruct IH as [Hinv Huses].
  { destruct Hpass as (Hnd & Hall & _).
    destruct (JS.truthy (JS.trim p)); cbn [Parser.LayerPass.layers Parser.LayerPass.usesLayers].
    - destruct (Hnames
                  (List.filter JS.truthy (map JS.trim (JS.split (Ascii.eqb ",") (JS.trim p))))
                  (Parser.LayerPass.layers pass)) as [Hnd' Hall'].
      + apply List.Forall_forall. intros x Hx. apply filter_In in Hx. apply Hx.
      + now split.
      + split; [exact Hnd'|]. split; [exact Hall'|reflexivity].
    - split; [exact Hnd|]. split; [exact Hall|reflexivity]. }
  split; [exact Hinv|]. rewrite Huses.
  destruct rest; [|reflexivity].
  destruct (JS.truthy (JS.trim p)); reflexivity.
Qed.

Lemma processRule_rules (processSync : string -> option Node.t) ancestors
    ruleSelectors start rule file (parsed : ParsedRule.t) :
  In parsed (Parser.processRule processSync ancestors ruleSelectors start rule file) ->
  ParsedRule.file parsed = file
  /\ ParsedRule.selectors parsed = map (Parser.parseSelector processSync) ruleSelectors
  /\ ruleSelectors <> []
  /\ ParsedRule.layer parsed = Parser.getLayerName ancestors.
Proof.
  unfold Parser.processRule. cbv zeta. rewrite length_map.
  destruct ruleSelectors as [|s ss]; [intros []|].
  destruct (Z.gtb_spec (Z.of_nat (length (s :: ss))) 0) as [_|Hle];
    [|cbn [length] in Hle; lia].
  intros [<-|[]]. repeat split. discriminate.
Qed.

(** X24.  What [parseCSS] returns: the file name (input.css when none is
    given) on the result and on every rule; every rule has a
    selector, and as many as the style rule had, parsed in order; the
    layer names are distinct and not empty; layer names, or a rule
    inside a layer, mean [usesLayers]; on a parse error there is one
    error message and nothing else, otherwise no error, and
    [usesLayers] says whether the sheet has an at-rule named layer. *)
Theorem parseCSS_spec
    (processSync : string -> option Node.t)
    (parse : string -> string -> Postcss.Root + string)
    (css : string) (filename : option string) :
  let result := Parser.parseCSS processSync parse css filename in
  ParseResult.file result = fileNameOf filename
  /\ Forall (fun rule => ParsedRule.file rule = fileNameOf filename
                         /\ ParsedRule.selectors rule <> []) (ParseResult.rules result)
  /\ NoDup (ParseResult.layers result)
  /\ Forall (fun l => l <> "") (ParseResult.layers result)
  /\ (ParseResult.layers result <> [] -> ParseResult.usesLayers result = true)
  /\ Forall (fun rule => ParsedRule.layer rule <> None ->
                         ParseResult.usesLayers result = true) (ParseResult.rules result)
  /\ match parse css (fileNameOf filename) with
     | inr message =>
         ParseResult.errors result = ["Failed to parse CSS: " +:+ message]
         /\ ParseResult.rules result = []
         /\ ParseResult.layers result = []
         /\ ParseResult.usesLayers result = false
     | inl root =>
         ParseResult.errors result = []
         /\ ParseResult.rules result
            = flat_map (rulesOfNode processSync (fileNameOf filename)) (Postcss.walk root)
         /\ (ParseResult.usesLayers result = true
             <-> Exists (fun n => isLayerAtRule n = true) (nodesOf root))
         /\ (length (ParseResult.rules result)
             <= length (List.filter isRuleNode (nodesOf root)))%nat
     end.
Proof.
  cbv zeta. unfold Parser.parseCSS. cbv zeta. fold (fileNameOf filename).
  destruct (parse css (fileNameOf filename)) as [root|message];
    cbn [ParseResult.file ParseResult.rules ParseResult.errors ParseResult.layers
         ParseResult.usesLayers].
  2: { split; [reflexivity|]. split; [constructor|]. split; [constructor|].
       split; [constructor|]. split; [intros H; now contradiction H|].
       split; [constructor|]. repeat split. }
  rewrite parseCSS_rules.
  destruct (layer_pass (Postcss.walkAtRules "layer" root) (Parser.LayerPass.mk [] false))
    as ((Hnd & Hall & Hlayers) & Huses).
  { cbn. split; [constructor|]. split; [constructor|]. intros H. now contradiction H. }
  cbv zeta in Hnd, Hall, Hlayers, Huses.
  set (pass := JS.forOf (Postcss.walkAtRules "layer" root) _ _) in *.
  assert (Parser.LayerPass.usesLayers pass = true
          <-> Exists (fun n => isLayerAtRule n = true) (nodesOf root)) as Hiff.
  { rewrite Huses. pose proof (walkAtRules_layer root) as Hsome.
    destruct (Postcss.walkAtRules "layer" root) as [|p ps].
    - cbn [Parser.LayerPass.usesLayers]. split; [discriminate|].
      intros Hex. apply Hsome in Hex. now contradiction Hex.
    - split; [|reflexivity]. intros _. apply Hsome. discriminate. }
  split; [reflexivity|]. split.
  { apply List.Forall_forall. intros rule Hrule. apply in_flat_map in Hrule.
    destruct Hrule as ([ancestors node] & _ & Hrule). unfold rulesOfNode in Hrule.
    cbn [fst snd] in Hrule. destruct node; try (now destruct Hrule).
    apply processRule_rules in Hrule. destruct Hrule as (Hfile & Hsel & Hne & _).
    split; [exact Hfile|]. rewrite Hsel. now destruct selectors. }
  split; [exact Hnd|]. split.
  { eapply Forall_impl; [exact Hall|]. intros l Hl ->. discriminate Hl. }
  split; [exact Hlayers|]. split.
  { apply List.Forall_forall. intros rule Hrule Hlayer. apply in_flat_map in Hrule.
    destruct Hrule as ([ancestors node] & Hvisited & Hrule). unfold rulesOfNode in Hrule.
    cbn [fst snd] in Hrule. destruct node; try (now destruct Hrule).
    apply processRule_rules in Hrule. destruct Hrule as (_ & _ & _ & Hl).
    rewrite Hl in Hlayer.
    destruct (Parser.getLayerName ancestors) as [layer|] eqn:E;
      [|now contradiction Hlayer].
    apply getLayerName_Some in E. destruct E as (a & Ha & Hlayered).
    apply Hiff. apply Exists_exists. exists a. split; [|exact Hlayered].
    apply list_elem_of_In. apply (walk_ancestors root _ a Hvisited). exact Ha. }
  split; [reflexivity|]. split; [reflexivity|]. split; [exact Hiff|].
  unfold nodesOf. induction (Postcss.walk root) as [|[ancestors node] visited IH];
    [cbn; lia|].
  cbn [flat_map map snd List.filter]. rewrite length_app.
  unfold rulesOfNode at 1. cbn [fst snd].
  destruct node; cbn [isRuleNode length]; try lia.
  unfold Parser.processRule. cbv zeta.
  destruct (_ >? 0); cbn [length]; lia.
Qed.

Lemma parseCSS_spec_witness :
  ParseResult.usesLayers (Parser.parseCSS notArgumentParser layeredParse "" None) = true.
Proof.
  destruct (parseCSS_spec notArgumentParser layeredParse "" None)
    as (_ & _ & _ & _ & Hlayers & _).
  apply Hlayers. vm_compute. discriminate.
Defined.

(** ** Declaration pairs and blocks *)

Lemma forOf_ruleDeclarations {St}
    (g : St -> ParsedRule.t -> ParsedDeclaration.t -> St)
    (result : ParseResult.t) (st : St) :
  JS.forOf (ParseResult.rules result) st (fun st rule =>
    JS.forOf (ParsedRule.declarations rule) st (fun st decl => g st rule decl))
  = JS.forOf (pairItems result) st (fun st item => g st (fst item) (snd item)).
Proof.
  unfold pairItems. rewrite forOf_flat_map.
  apply forOf_ext. intros s rule. now rewrite forOf_map.
Qed.

Lemma length_withKey_cons {X} (keyOf : X -> string) (k : string) (x : X) (xs : list X) :
  Z.of_nat (length (withKey keyOf k (x :: xs)))
  = (if String.eqb (keyOf x) k then 1 else 0) + Z.of_nat (length (withKey keyOf k xs)).
Proof.
  unfold withKey. cbn [List.filter]. destruct (String.eqb (keyOf x) k); cbn [length]; lia.
Qed.

Lemma sum_key_indicator (k : string) (keys : list string) :
  NoDup keys ->
  sumList (map (fun k' => if String.eqb k k' then 1 else 0) keys)
  = if existsb (String.eqb k) keys then 1 else 0.
Proof.
  induction 1 as [|k' keys Hnotin Hnodup IH]; [reflexivity|].
  cbn [map existsb]. unfold sumList in *. cbn [fold_right]. rewrite IH.
  destruct (String.eqb_spec k k') as [->|Hne]; cbn [orb]; [|lia].
  destruct (existsb (String.eqb k') keys) eqn:E; [|lia].
  apply existsb_eqb_In in E. exfalso. apply Hnotin. now apply list_elem_of_In.
Qed.

Lemma sum_withKey {X} (keyOf : X -> string) (keys : list string) (xs : list X) :
  NoDup keys ->
  sumList (map (fun k => Z.of_nat (length (withKey keyOf k xs))) keys)
  = Z.of_nat (length (List.filter (fun x => existsb (String.eqb (keyOf x)) keys) xs)).
Proof.
  intros Hnodup. induction xs as [|x xs IH].
  - cbn. induction keys as [|k keys IHk]; [reflexivity|].
    unfold sumList in *. cbn [map fold_right]. inversion Hnodup; subst.
    rewrite IHk by assumption. reflexivity.
  - cbn [List.filter].
    assert (sumList (map (fun k => Z.of_nat (length (withKey keyOf k (x :: xs)))) keys)
            = sumList (map (fun k => if String.eqb (keyOf x) k then 1 else 0) keys)
              + sumList (map (fun k => Z.of_nat (length (withKey keyOf k xs))) keys)) as ->.
    { clear. induction keys as [|k keys IHk]; [reflexivity|].
      unfold sumList in *. cbn [map fold_right]. rewrite IHk, length_withKey_cons. lia. }
    rewrite IH, (sum_key_indicator _ _ Hnodup).
    destruct (existsb (String.eqb (keyOf x)) keys); cbn [length]; lia.
Qed.

Lemma sum_groups {X} (keyOf : X -> string) (xs : list X) :
  sumList (map (fun k => Z.of_nat (length (withKey keyOf k xs)))
             (firstKeys (map keyOf xs)))
  = Z.of_nat (length xs).
Proof.
  rewrite sum_withKey by apply firstKeys_NoDup. f_equal. f_equal.
  apply forallb_filter_id. apply forallb_forall. intros x Hx.
  apply existsb_eqb_In, firstKeys_In, in_map. exact Hx.
Qed.

Lemma extractDeclarationPairs_groups (result : ParseResult.t) :
  Parser.extractDeclarationPairs result = groupsBy pairKey pairGroup (pairItems result).
Proof.
  unfold Parser.extractDeclarationPairs. cbv zeta.
  rewrite (forOf_ruleDeclarations (fun pairs rule decl =>
    match JS.Map.get pairs
            (ParsedDeclaration.property decl +:+ ":" +:+ ParsedDeclaration.value decl) with
    | Some existing =>
        JS.Map.set pairs
          (ParsedDeclaration.property decl +:+ ":" +:+ ParsedDeclaration.value decl)
          (Parser.DeclarationPair.mk (Parser.DeclarationPair.count existing + 1)
             (Parser.DeclarationPair.locations existing
              ++ [ {| Parser.PairLocation.file := ParsedRule.file rule;
                      Parser.PairLocation.line := ParsedRule.line rule;
                      Parser.PairLocation.selector :=
                        JS.orElse (option_map ParsedSelector.raw
                                     (head (ParsedRule.selectors rule))) "" |} ]))
    | None =>
        JS.Map.set pairs
          (ParsedDeclaration.property decl +:+ ":" +:+ ParsedDeclaration.value decl)
          (Parser.DeclarationPair.mk 1
             [ {| Parser.PairLocation.file := ParsedRule.file rule;
                  Parser.PairLocation.line := ParsedRule.line rule;
                  Parser.PairLocation.selector :=
                    JS.orElse (option_map ParsedSelector.raw
                                 (head (ParsedRule.selectors rule))) "" |} ])
    end)).
  change (JS.forOf (pairItems result) [] _)
    with (JS.forOf (pairItems result) []
            (upsert pairKey
               (fun item => Parser.DeclarationPair.mk 1 [pairLocation item])
               (fun existing item =>
                  Parser.DeclarationPair.mk (Parser.DeclarationPair.count existing + 1)
                    (Parser.DeclarationPair.locations existing ++ [pairLocation item])))).
  apply (forOf_upsert pairKey _ _ pairGroup).
  - intros item. reflexivity.
  - intros items item _. unfold pairGroup. cbn.
    rewrite length_app, map_app, Nat2Z.inj_add. reflexivity.
Qed.

(** X25.  [extractDeclarationPairs] groups the declarations of a parse
    result by the text property:value (as written, not normalised):
    the keys are distinct and in order of first appearance, the count
    of a key is the number of declarations with that key, at least 1,
    with one location each, and the counts add up to the number of
    declarations. *)
Theorem extractDeclarationPairs_spec (result : ParseResult.t) :
  let pairs := Parser.extractDeclarationPairs result in
  keysOf pairs = firstKeys (map pairKey (pairItems result))
  /\ NoDup (keysOf pairs)
  /\ Forall (fun entry =>
               Parser.DeclarationPair.count (snd entry)
               = Z.of_nat (length (withKey pairKey (fst entry) (pairItems result)))
               /\ Parser.DeclarationPair.locations (snd entry)
                  = map pairLocation (withKey pairKey (fst entry) (pairItems result))
               /\ 1 <= Parser.DeclarationPair.count (snd entry)) pairs
  /\ sumList (map (fun entry => Parser.DeclarationPair.count (snd entry)) pairs)
     = Z.of_nat (length (pairItems result)).
Proof.
  cbv zeta. rewrite extractDeclarationPairs_groups.
  split; [apply groupsBy_keys|]. split; [rewrite groupsBy_keys; apply firstKeys_NoDup|].
  split.
  - unfold groupsBy. apply List.Forall_forall. intros entry Hin.
    apply in_map_iff in Hin. destruct Hin as (k & <- & Hk). cbn [fst snd pairGroup
      Parser.DeclarationPair.count Parser.DeclarationPair.locations].
    split; [reflexivity|]. split; [reflexivity|].
    apply (proj1 (firstKeys_In _ _)) in Hk.
    destruct (withKey pairKey k (pairItems result)) eqn:E; [|cbn [length]; lia].
    apply withKey_nil_iff in E. now contradiction E.
  - unfold groupsBy. rewrite map_map. cbn [snd pairGroup Parser.DeclarationPair.count].
    apply sum_groups.
Qed.

Lemma forOf_blockItems {V} (minProperties : Z)
    (step : JS.Map.t V -> RuleOccurrence.t * Z -> JS.Map.t V)
    (parseResults : list ParseResult.t) :
  JS.forOf (ruleOccurrences parseResults) [] (fun blockMap o =>
    if Z.of_nat (length (ParsedRule.declarations (RuleOccurrence.rule o))) <? minProperties
    then blockMap
    else JS.forOf (Metrics.sizesFrom minProperties
                     (Z.of_nat (length (pairsOf (RuleOccurrence.rule o))))) blockMap
           (fun blockMap size => step blockMap (o, size)))
  = JS.forOf (blockItems minProperties parseResults) [] step.
Proof.
  unfold blockItems. rewrite forOf_flat_map. apply forOf_ext. intros blockMap o.
  unfold blockItemsOf.
  destruct (Z.of_nat (length (ParsedRule.declarations (RuleOccurrence.rule o)))
            <? minProperties); [reflexivity|].
  now rewrite forOf_map.
Qed.

Lemma detectDuplicateBlocks_groups
    (parseResults : list ParseResult.t) (minProperties minOccurrences : option Z) :
  Metrics.detectDuplicateBlocks parseResults minProperties minOccurrences
  = JS.sort (fun a b => occurrencesOf b - occurrencesOf a)
      (List.filter (fun block => occurrencesOf block >=? orDefault minOccurrences 2)
         (map snd (groupsBy blockKey blockOf
                     (blockItems (orDefault minProperties 3) parseResults)))).
Proof.
  unfold Metrics.detectDuplicateBlocks. cbv zeta.
  fold (orDefault minProperties 3). fold (orDefault minOccurrences 2).
  rewrite forOf_ruleOccurrences.
  rewrite <- (forOf_upsert blockKey
                (fun item => Metrics.Block.mk (blockProperties item) [blockLocation item])
                (fun existing item =>
                   Metrics.Block.mk (Metrics.Block.properties existing)
                     (Metrics.Block.occurrences existing ++ [blockLocation item]))
                blockOf).
  - rewrite <- (forOf_blockItems (orDefault minProperties 3)). reflexivity.
  - intros item. reflexivity.
  - intros items item Hne. unfold blockOf. rewrite map_app.
    destruct items; [now contradiction Hne|reflexivity].
Qed.

Lemma sizesFrom_bounds (minProperties n size : Z) :
  In size (Metrics.sizesFrom minProperties n) -> minProperties <= size <= n.
Proof.
  unfold Metrics.sizesFrom. intros Hin. apply in_map_iff in Hin.
  destruct Hin as (i & <- & Hi). apply in_seq in Hi. lia.
Qed.

Lemma blockItems_In (minProperties : Z) (parseResults : list ParseResult.t)
    (item : RuleOccurrence.t * Z) :
  In item (blockItems minProperties parseResults) ->
  In (fst item) (ruleOccurrences parseResults)
  /\ minProperties <= snd item
     <= Z.of_nat (length (pairsOf (RuleOccurrence.rule (fst item)))).
Proof.
  unfold blockItems. intros Hin. apply in_flat_map in Hin.
  destruct Hin as (o & Ho & Hin). unfold blockItemsOf in Hin.
  destruct (_ <? minProperties); [destruct Hin|].
  apply in_map_iff in Hin. destruct Hin as (size & <- & Hsize). cbn [fst snd].
  split; [exact Ho|]. now apply sizesFrom_bounds.
Qed.

Lemma withKey_head {X} (keyOf : X -> string) (k : string) (xs : list X) :
  In k (map keyOf xs) ->
  exists x rest, withKey keyOf k xs = x :: rest /\ In x xs /\ keyOf x = k.
Proof.
  intros Hin. destruct (withKey keyOf k xs) as [|x rest] eqn:E.
  - apply withKey_nil_iff in E. now contradiction E.
  - exists x, rest. split; [reflexivity|].
    assert (In x (withKey keyOf k xs)) as Hx by (rewrite E; now left).
    unfold withKey in Hx. apply filter_In in Hx. destruct Hx as [Hx Hk].
    split; [exact Hx|]. now apply String.eqb_eq.
Qed.

(** X26.  [detectDuplicateBlocks] returns the blocks with the most
    occurrences first; every block has at least [minOccurrences]
    occurrences (2 by default) and at least one; its properties are
    the first [size] sorted pairs of a rule, for a size from
    [minProperties] (3 by default) up to the number of declarations
    of the rule, so at least [minProperties] many when that is not
    negative; and no two blocks have the same joined properties. *)
Theorem detectDuplicateBlocks_spec
    (parseResults : list ParseResult.t) (minProperties minOccurrences : option Z) :
  let blocks := Metrics.detectDuplicateBlocks parseResults minProperties minOccurrences in
  let items := blockItems (orDefault minProperties 3) parseResults in
  StronglySorted moreOccurrences blocks
  /\ Forall (fun block =>
               orDefault minOccurrences 2 <= occurrencesOf block
               /\ 1 <= occurrencesOf block) blocks
  /\ Forall (fun block =>
               exists item,
                 In item items
                 /\ Metrics.Block.properties block = blockProperties item
                 /\ Metrics.Block.occurrences block
                    = map blockLocation (withKey blockKey (blockKey item) items)
                 /\ orDefault minProperties 3 <= snd item
                    <= Z.of_nat (length (ParsedRule.declarations
                                           (RuleOccurrence.rule (fst item))))) blocks
  /\ (0 <= orDefault minProperties 3 ->
      Forall (fun block =>
                orDefault minProperties 3
                <= Z.of_nat (length (Metrics.Block.properties block))) blocks)
  /\ NoDup (map (fun block => JS.join "|" (Metrics.Block.properties block)) blocks).
Proof.
  cbv zeta. rewrite detectDuplicateBlocks_groups.
  set (items := blockItems (orDefault minProperties 3) parseResults).
  set (kept := List.filter (fun block => occurrencesOf block >=? orDefault minOccurrences 2)
                 (map snd (groupsBy blockKey blockOf items))).
  assert (forall rule, length (pairsOf rule) = length (ParsedRule.declarations rule))
    as Hpairs.
  { intros rule. unfold pairsOf, Metrics.sortStrings. now rewrite sort_length, length_map. }
  assert (Forall (fun block =>
            exists item,
              In item items
              /\ Metrics.Block.properties block = blockProperties item
              /\ Metrics.Block.occurrences block
                 = map blockLocation (withKey blockKey (blockKey item) items)
              /\ orDefault minProperties 3 <= snd item
                 <= Z.of_nat (length (ParsedRule.declarations
                                        (RuleOccurrence.rule (fst item)))))
            (map snd (groupsBy blockKey blockOf items))) as Hgroups.
  { unfold groupsBy. rewrite map_map. cbn [snd]. apply List.Forall_forall.
    intros block Hin. apply in_map_iff in Hin. destruct Hin as (k & <- & Hk).
    apply (proj1 (firstKeys_In _ _)) in Hk.
    destruct (withKey_head blockKey k items Hk) as (item & rest & E & Hitem & Hkey).
    exists item. rewrite Hkey, E. split; [exact Hitem|].
    split; [reflexivity|]. split; [reflexivity|].
    destruct (blockItems_In _ _ _ Hitem) as [_ Hsize]. now rewrite Hpairs in Hsize. }
  assert (Forall (fun block =>
            exists item,
              In item items
              /\ Metrics.Block.properties block = blockProperties item
              /\ Metrics.Block.occurrences block
                 = map blockLocation (withKey blockKey (blockKey item) items)
              /\ orDefault minProperties 3 <= snd item
                 <= Z.of_nat (length (ParsedRule.declarations
                                        (RuleOccurrence.rule (fst item))))) kept)
    as Hkept.
  { unfold kept. apply List.Forall_forall. intros block Hin. apply filter_In in Hin.
    rewrite List.Forall_forall in Hgroups. now apply Hgroups. }
  split.
  { eapply StronglySorted_weaken;
      [|apply (sort_StronglySorted (fun a b => occurrencesOf b - occurrencesOf a))].
    - intros a b. unfold before, moreOccurrences. lia.
    - intros a b. unfold before. lia.
    - intros a b c. unfold before. lia. }
  split.
  { eapply Permutation_Forall; [symmetry; apply sort_Permutation|].
    apply List.Forall_forall. intros block Hin.
    pose proof Hin as Hin'. unfold kept in Hin'. apply filter_In in Hin'.
    destruct Hin' as [_ Hmin]. split; [lia|].
    rewrite List.Forall_forall in Hkept.
    destruct (Hkept block Hin) as (item & Hitem & _ & Hocc & _).
    unfold occurrencesOf. rewrite Hocc, length_map.
    destruct (withKey_head blockKey (blockKey item) items) as (x & rest & E & _);
      [now apply in_map|].
    rewrite E. cbn [length]. lia. }
  split.
  { eapply Permutation_Forall; [symmetry; apply sort_Permutation|exact Hkept]. }
  split.
  { intros Hnonneg.
    eapply Permutation_Forall; [symmetry; apply sort_Permutation|].
    eapply Forall_impl; [exact Hkept|].
    intros block (item & _ & Hprops & _ & Hlo & Hhi). cbv beta.
    rewrite Hprops. unfold blockProperties, JS.slice0.
    destruct (Z.ltb_spec (snd item) 0) as [Hneg|_]; [lia|].
    rewrite length_firstn, Hpairs. lia. }
  assert (Permutation
            (map (fun block => JS.join "|" (Metrics.Block.properties block))
               (JS.sort (fun a b => occurrencesOf b - occurrencesOf a) kept))
            (map (fun block => JS.join "|" (Metrics.Block.properties block)) kept))
    as Hperm by (apply Permutation_map, sort_Permutation).
  rewrite Hperm. clear Hperm. unfold kept.
  assert (NoDup (map (fun block => JS.join "|" (Metrics.Block.properties block))
                   (map snd (groupsBy blockKey blockOf items)))) as Hnodup.
  { replace (map (fun block => JS.join "|" (Metrics.Block.properties block))
               (map snd (groupsBy blockKey blockOf items)))
      with (firstKeys (map blockKey items)); [apply firstKeys_NoDup|].
    unfold groupsBy. rewrite !map_map. cbn [snd]. symmetry.
    rewrite <- (map_id (firstKeys (map blockKey items))) at 2.
    apply map_ext_in. intros k Hk. apply (proj1 (firstKeys_In _ _)) in Hk.
    destruct (withKey_head blockKey k items Hk) as (item & rest & E & _ & Hkey).
    rewrite E. cbn [blockOf Metrics.Block.properties]. exact Hkey. }
  revert Hnodup. generalize (map snd (groupsBy blockKey blockOf items)).
  intros blocks. induction blocks as [|block blocks IH]; [intros _; constructor|].
  cbn [map List.filter]. intros Hnodup. apply NoDup_cons in Hnodup.
  destruct Hnodup as [Hnotin Hnodup].
  destruct (occurrencesOf block >=? orDefault minOccurrences 2); [|now apply IH].
  cbn [map]. apply NoDup_cons. split; [|now apply IH].
  intros Hin. apply Hnotin. apply list_elem_of_In in Hin. apply list_elem_of_In.
  apply in_map_iff in Hin. destruct Hin as (b & Hb & Hin). apply filter_In in Hin.
  apply in_map_iff. exists b. split; [exact Hb|apply Hin].
Qed.

Lemma detectDuplicateBlocks_spec_witness :
  Forall (fun block => 3 <= Z.of_nat (length (Metrics.Block.properties block)))
    (Metrics.detectDuplicateBlocks twoBoxes None None).
Proof.
  apply (detectDuplicateBlocks_spec twoBoxes None None). cbn. lia.
Defined.

(** ** Entry points *)

Lemma forOf_skip {A St} (xs : list A) (st : St) (body : St -> A -> St) :
  (forall s x, In x xs -> body s x = s) -> JS.forOf xs st body = st.
Proof.
  intros Hskip. induction xs as [|x xs IH]; [reflexivity|].
  rewrite forOf_cons, (Hskip st x) by now left.
  apply IH. intros s y Hy. apply Hskip. now right.
Qed.

Lemma runAllRules_no_rules (parseResults : list ParseResult.t) (config : AnalyzerConfig.t) :
  (forall r, In r parseResults -> ParseResult.rules r = []) ->
  Rules.runAllRules parseResults config = [].
Proof.
  intros Hnone.
  assert (forall {St} (st : St) (body : St -> ParseResult.t -> St),
            (forall s r, ParseResult.rules r = [] -> body s r = s) ->
            JS.forOf parseResults st body = st) as Hskip.
  { intros St st body Hbody. apply forOf_skip. intros s r Hin.
    apply Hbody. now apply Hnone. }
  assert (Rules.checkDeepSelectors parseResults config = []) as H1.
  { unfold Rules.checkDeepSelectors. cbv zeta.
    apply Hskip. intros s r ->. reflexivity. }
  assert (Rules.checkHighSpecificity parseResults config = []) as H2.
  { unfold Rules.checkHighSpecificity. cbv zeta.
    apply Hskip. intros s r ->. reflexivity. }
  assert (Rules.checkImportantAbuse parseResults config = []) as H3.
  { unfold Rules.checkImportantAbuse. cbv zeta.
    rewrite Hskip by (intros s r ->; reflexivity).
    rewrite Hskip by (intros s r ->; reflexivity). reflexivity. }
  assert (Rules.checkDuplicateDeclarations parseResults config = []) as H4.
  { unfold Rules.checkDuplicateDeclarations, Metrics.detectDuplicateDeclarations. cbv zeta.
    rewrite Hskip by (intros s r ->; reflexivity). reflexivity. }
  assert (Rules.checkLayoutRiskHotspot parseResults config = []) as H5.
  { unfold Rules.checkLayoutRiskHotspot. cbv zeta.
    apply Hskip. intros s r ->. reflexivity. }
  assert (Rules.checkOverridePressure parseResults config = []) as H6.
  { unfold Rules.checkOverridePressure, Metrics.detectOverridePressure. cbv zeta.
    rewrite Hskip by (intros s r ->; reflexivity). reflexivity. }
  assert (Rules.checkMissingLayers parseResults config = []) as H7.
  { unfold Rules.checkMissingLayers. cbv zeta.
    rewrite Hskip.
    - cbn [Rules.LayerLoop.totalRules Rules.LayerLoop.totalImportant
           Rules.LayerLoop.filesWithManyRules].
      now destruct (existsb ParseResult.usesLayers parseResults).
    - intros [a b c] r ->. cbn. now rewrite Z.add_0_r. }
  rewrite runAllRules_unfold. unfold emittedIssues, whenEnabled.
  rewrite H1, H2, H3, H4, H5, H6, H7.
  repeat match goal with
         | |- context [if ?b then _ else _] => destruct b
         end; reflexivity.
Qed.

Lemma parseCSS_file processSync parse css (filename : option string) :
  ParseResult.file (Parser.parseCSS processSync parse css filename) = fileNameOf filename.
Proof.
  unfold Parser.parseCSS. cbv zeta. fold (fileNameOf filename).
  now destruct (parse css (fileNameOf filename)).
Qed.

Lemma parseCSSFile_file processSync parse readFile (filePath : string) :
  ParseResult.file (Parser.parseCSSFile processSync parse readFile filePath) = filePath.
Proof.
  unfold Parser.parseCSSFile. destruct (readFile filePath); [|reflexivity].
  apply parseCSS_file.
Qed.

(** X27.  A style sheet that postcss rejects is reported like an empty one:
    one file, no rules, no issues, no recommendations, score 0 and
    grade A; the check against the thresholds passes unless the score
    0 is above the maximum score, so it passes for a maximum that is
    0 or more, or [NaN].  The error message is in the parse result
    only. *)
Theorem analyzeCSS_unparsable
    (otherToString : Q -> string)
    (processSync : string -> option Node.t)
    (parse : string -> string -> Postcss.Root + string)
    (css : string) (config : option AnalyzerConfig.t) (filename : option string)
    (now message : string) :
  parse css (Analyzer.orInputCss filename) = inr message ->
  let report := Analyzer.analyzeCSS processSync parse css config filename now in
  ParseResult.errors
    (Parser.parseCSS processSync parse css (Some (Analyzer.orInputCss filename)))
  = ["Failed to parse CSS: " +:+ message]
  /\ map FileMetrics.file (Report.fileMetrics report) = [Analyzer.orInputCss filename]
  /\ GlobalMetrics.totalRules (Report.globalMetrics report) = 0
  /\ Report.issues report = []
  /\ Report.recommendations report = []
  /\ Report.topSelectors report = []
  /\ Summary.overallScore (Report.summary report) = 0
  /\ Summary.grade (Report.summary report) = Grade.A
  /\ (Analyzer.ThresholdCheck.passed
        (Analyzer.checkThresholds otherToString report (Analyzer.orEmpty config)) = true
      <-> notAbove 0
            (RequiredConfig.maxScore (Analyzer.mergeConfig (Analyzer.orEmpty config)))).
Proof.
  intros Hfail. cbv zeta. unfold Analyzer.analyzeCSS. cbv zeta.
  assert (Parser.parseCSS processSync parse css (Some (Analyzer.orInputCss filename))
          = {| ParseResult.file := Analyzer.orInputCss filename;
               ParseResult.rules := [];
               ParseResult.errors := ["Failed to parse CSS: " +:+ message];
               ParseResult.layers := [];
               ParseResult.usesLayers := false |}) as ->.
  { unfold Parser.parseCSS. cbv zeta. now rewrite Hfail. }
  set (result := {| ParseResult.file := Analyzer.orInputCss filename;
                    ParseResult.rules := [];
                    ParseResult.errors := ["Failed to parse CSS: " +:+ message];
                    ParseResult.layers := [];
                    ParseResult.usesLayers := false |}).
  assert (Rules.runAllRules [result]
            (RequiredConfig.widen (Analyzer.mergeConfig (Analyzer.orEmpty config))) = [])
    as Hissues.
  { apply runAllRules_no_rules. intros r [<-|[]]. reflexivity. }
  unfold Analyzer.checkThresholds. cbv zeta.
  cbn [Analyzer.generateReport Report.fileMetrics Report.globalMetrics Report.issues
       Report.recommendations Report.topSelectors Report.summary].
  rewrite Hissues.
  assert (Summary.overallScore
            (Scoring.generateSummary
               (Metrics.calculateGlobalMetrics [Metrics.calculateFileMetrics result]) []) = 0)
    as Hscore by (vm_compute; reflexivity).
  cbn [map]. rewrite Hscore.
  split; [reflexivity|]. split; [reflexivity|]. split; [vm_compute; reflexivity|].
  split; [reflexivity|]. split; [reflexivity|]. split; [reflexivity|].
  split; [reflexivity|]. split; [vm_compute; reflexivity|].
  change (SeverityCounts.critical
            (Summary.issuesBySeverity
               (Scoring.generateSummary
                  (Metrics.calculateGlobalMetrics [Metrics.calculateFileMetrics result]) [])))
    with 0.
  generalize (RequiredConfig.maxScore (Analyzer.mergeConfig (Analyzer.orEmpty config))).
  intros maxScore.
  pose proof (integerExceeds_notAbove 0 maxScore) as Habove.
  destruct (JS.Number.integerExceeds 0 maxScore);
    cbn [Z.gtb Z.compare app length Nat.eqb Analyzer.ThresholdCheck.passed];
    split; intros H';
    first [discriminate H' | reflexivity | now apply Habove
          | apply Habove in H'; discriminate H'].
Qed.

Lemma analyzeCSS_unparsable_witness :
  Report.issues (Analyzer.analyzeCSS notArgumentParser failingParse "a {" None None "now")
  = [].
Proof.
  apply (analyzeCSS_unparsable fractionText notArgumentParser failingParse "a {" None None
           "now" "Unclosed block").
  reflexivity.
Defined.

Lemma analyze_results processSync parse readFile (inputs : list AnalysisInput.t) :
  map ParseResult.file
    (JS.forOf inputs [] (fun parseResults input =>
       match AnalysisInput.type input with
       | InputType.file =>
           match AnalysisInput.path input with
           | Some path =>
               if JS.truthy path
               then parseResults ++ [Parser.parseCSSFile processSync parse readFile path]
               else parseResults
           | None => parseResults
           end
       | InputType.content =>
           match AnalysisInput.content input with
           | Some content =>
               if JS.truthy content
               then parseResults
                    ++ [Parser.parseCSS processSync parse content
                          (Some (Analyzer.orInputCss (AnalysisInput.filename input)))]
               else parseResults
           | None => parseResults
           end
       end))
  = flat_map acceptedFile inputs.
Proof.
  transitivity
    (map ParseResult.file
       (JS.forOf inputs [] (fun parseResults input =>
          parseResults
          ++ match AnalysisInput.type input with
             | InputType.file =>
                 match AnalysisInput.path input with
                 | Some path =>
                     if JS.truthy path
                     then [Parser.parseCSSFile processSync parse readFile path]
                     else []
                 | None => []
                 end
             | InputType.content =>
                 match AnalysisInput.content input with
                 | Some content =>
                     if JS.truthy content
                     then [Parser.parseCSS processSync parse content
                             (Some (Analyzer.orInputCss (AnalysisInput.filename input)))]
                     else []
                 | None => []
                 end
             end))).
  - f_equal. apply forOf_ext. intros parseResults input.
    destruct (AnalysisInput.type input).
    + destruct (AnalysisInput.path input) as [path|]; [|now rewrite app_nil_r].
      destruct (JS.truthy path); [reflexivity|now rewrite app_nil_r].
    + destruct (AnalysisInput.content input) as [content|]; [|now rewrite app_nil_r].
      destruct (JS.truthy content); [reflexivity|now rewrite app_nil_r].
  - rewrite forOf_push. cbn [app].
    induction inputs as [|input inputs IH]; [reflexivity|].
    cbn [flat_map]. rewrite map_app, IH. f_equal. unfold acceptedFile.
    destruct (AnalysisInput.type input).
    + destruct (AnalysisInput.path input) as [path|]; [|reflexivity].
      destruct (JS.truthy path); [|reflexivity]. cbn [map].
      now rewrite parseCSSFile_file.
    + destruct (AnalysisInput.content input) as [content|]; [|reflexivity].
      destruct (JS.truthy content); [|reflexivity]. cbn [map].
      now rewrite parseCSS_file.
Qed.

(** X28.  [analyze] reports one file per input it takes, in input order: a
    file input under its path, a content input under its file name or
    input.css; a file input without a path and a content input
    without content, or with the empty string, are skipped.  On one
    content input that is not empty it agrees with [analyzeCSS];
    [analyzeCSS] takes the empty string too.  [parseFiles] gives one
    result per path, also for a file that cannot be read. *)
Theorem analyze_files
    (processSync : string -> option Node.t)
    (parse : string -> string -> Postcss.Root + string)
    (readFile : string -> string + string)
    (inputs : list AnalysisInput.t) (config : option AnalyzerConfig.t) (now : string)
    (css : string) (filename : option string) (filePaths : list string) :
  map FileMetrics.file
    (Report.fileMetrics (Analyzer.analyze processSync parse readFile inputs config now))
  = flat_map acceptedFile inputs
  /\ (JS.truthy css = true ->
      Analyzer.analyze processSync parse readFile [contentInput css filename] config now
      = Analyzer.analyzeCSS processSync parse css config filename now)
  /\ Report.fileMetrics
       (Analyzer.analyze processSync parse readFile [contentInput "" filename] config now)
     = []
  /\ map FileMetrics.file
       (Report.fileMetrics (Analyzer.analyzeCSS processSync parse "" config filename now))
     = [Analyzer.orInputCss filename]
  /\ map ParseResult.file (Analyzer.parseFiles processSync parse readFile filePaths)
     = filePaths.
Proof.
  split.
  { unfold Analyzer.analyze. cbv zeta. cbn [Analyzer.generateReport Report.fileMetrics].
    rewrite (map_calculateFileMetrics FileMetrics.file ParseResult.file)
      by (intros r; now rewrite calculateFileMetrics_loop).
    apply analyze_results. }
  split.
  { intros Hcss. unfold Analyzer.analyze, Analyzer.analyzeCSS, contentInput. cbv zeta.
    unfold JS.forOf.
    cbn [fold_left AnalysisInput.type AnalysisInput.content AnalysisInput.filename].
    now rewrite Hcss. }
  split; [reflexivity|]. split.
  { unfold Analyzer.analyzeCSS. cbv zeta.
    cbn [Analyzer.generateReport Report.fileMetrics].
    rewrite (map_calculateFileMetrics FileMetrics.file ParseResult.file)
      by (intros r; now rewrite calculateFileMetrics_loop).
    cbn [map]. now rewrite parseCSS_file. }
  unfold Analyzer.parseFiles. cbv zeta.
  rewrite (forOf_push (fun filePath =>
             [Parser.parseCSSFile processSync parse readFile filePath])).
  cbn [app]. induction filePaths as [|p ps IH]; [reflexivity|].
  cbn [flat_map app map]. now rewrite parseCSSFile_file, IH.
Qed.

Lemma analyze_files_witness :
  Analyzer.analyze notArgumentParser layeredParse noFiles
    [contentInput ".x:not(.a .b) { color: red }" None] None "now"
  = Analyzer.analyzeCSS notArgumentParser layeredParse ".x:not(.a .b) { color: red }"
      None None "now".
Proof.
  apply (analyze_files notArgumentParser layeredParse noFiles [] None "now"
           ".x:not(.a .b) { color: red }" None []).
  reflexivity.
Defined.

(** ** Highest specificity *)

Lemma findMaxSpecificity_bounds (specificities : list (Specificity.t Z)) :
  Forall (fun s => lexLe s (Metrics.findMaxSpecificity specificities)) specificities
  /\ (specificities = [] /\ Metrics.findMaxSpecificity specificities = zeroSpecificity
      \/ In (Metrics.findMaxSpecificity specificities) specificities).
Proof.
  destruct specificities as [|first rest].
  - split; [constructor|left; now split].
  - unfold Metrics.findMaxSpecificity.
    destruct (fold_maxStep rest first) as (Hin & Hfirst & Hrest).
    split; [constructor; assumption|right; exact Hin].
Qed.

(** X29.  The highest specificity of a file is the specificity of one of
    its selectors (0,0,0 for a file without selectors) and no
    selector of the file has a higher one in the order of
    [compareSpecificity]; the global one is the highest of the files'
    and bounds every selector of the input. *)
Theorem maxSpecificity_spec (parseResults : list ParseResult.t) (parseResult : ParseResult.t) :
  Forall (fun s => Parser.compareSpecificity s
                     (FileMetrics.maxSpecificity (Metrics.calculateFileMetrics parseResult))
                   <= 0) (specificitiesOf parseResult)
  /\ (specificitiesOf parseResult = []
      /\ FileMetrics.maxSpecificity (Metrics.calculateFileMetrics parseResult)
         = zeroSpecificity
      \/ In (FileMetrics.maxSpecificity (Metrics.calculateFileMetrics parseResult))
           (specificitiesOf parseResult))
  /\ Forall (fun o => Parser.compareSpecificity
                        (ParsedSelector.specificity (Occurrence.selector o))
                        (GlobalMetrics.maxSpecificity (globalMetricsOf parseResults))
                      <= 0) (occurrences parseResults)
  /\ (GlobalMetrics.maxSpecificity (globalMetricsOf parseResults) = zeroSpecificity
      \/ Exists (fun o => ParsedSelector.specificity (Occurrence.selector o)
                          = GlobalMetrics.maxSpecificity (globalMetricsOf parseResults))
           (occurrences parseResults)).
Proof.
  assert (forall r, FileMetrics.maxSpecificity (Metrics.calculateFileMetrics r)
                    = Metrics.findMaxSpecificity (specificitiesOf r)) as Hfile
    by (intros r; now rewrite calculateFileMetrics_loop).
  rewrite Hfile.
  destruct (findMaxSpecificity_bounds (specificitiesOf parseResult)) as [Hall Hcase].
  split.
  { eapply Forall_impl; [exact Hall|]. intros s Hs. now apply compareSpecificity_le. }
  split; [exact Hcase|].
  assert (GlobalMetrics.maxSpecificity (globalMetricsOf parseResults)
          = Metrics.findMaxSpecificity
              (map (fun r => Metrics.findMaxSpecificity (specificitiesOf r)) parseResults))
    as ->.
  { unfold globalMetricsOf. destruct parseResults as [|r rest]; [reflexivity|].
    cbn [map]. unfold Metrics.calculateGlobalMetrics. cbv zeta.
    cbn [GlobalMetrics.maxSpecificity map]. rewrite Hfile, map_map.
    f_equal. f_equal. apply map_ext. intros r'. apply Hfile. }
  destruct (findMaxSpecificity_bounds
              (map (fun r => Metrics.findMaxSpecificity (specificitiesOf r)) parseResults))
    as [Hfiles Hglobal].
  set (M := Metrics.findMaxSpecificity
              (map (fun r => Metrics.findMaxSpecificity (specificitiesOf r)) parseResults))
    in *.
  split.
  - apply List.Forall_forall. intros o Ho. unfold occurrences in Ho.
    apply in_flat_map in Ho. destruct Ho as (r & Hr & Ho). apply in_flat_map in Ho.
    destruct Ho as (rule & Hrule & Ho). apply in_map_iff in Ho.
    destruct Ho as (s & <- & Hs). cbn [Occurrence.selector].
    apply compareSpecificity_le.
    apply lexLe_trans with (Metrics.findMaxSpecificity (specificitiesOf r)).
    + destruct (findMaxSpecificity_bounds (specificitiesOf r)) as [Hr' _].
      rewrite List.Forall_forall in Hr'. apply Hr'. unfold specificitiesOf.
      apply in_map. unfold selectorsOf. apply in_flat_map. now exists rule.
    + rewrite List.Forall_forall in Hfiles. apply Hfiles.
      apply in_map_iff. now exists r.
  - destruct Hglobal as [[_ Hzero]|Hin]; [now left|].
    apply in_map_iff in Hin. destruct Hin as (r & HM & Hr).
    destruct (findMaxSpecificity_bounds (specificitiesOf r)) as [_ [[_ Hzero]|Hin]].
    + left. now rewrite <- HM.
    + right. rewrite HM in Hin. unfold specificitiesOf in Hin.
      apply in_map_iff in Hin. destruct Hin as (s & Hs & Hin).
      unfold selectorsOf in Hin. apply in_flat_map in Hin.
      destruct Hin as (rule & Hrule & Hin).
      apply Exists_exists. exists (Occurrence.mk r rule s). split; [|exact Hs].
      apply list_elem_of_In. unfold occurrences. apply in_flat_map. exists r.
      split; [exact Hr|]. apply in_flat_map. exists rule. split; [exact Hrule|].
      now apply in_map.
Qed.

(** X30.  While the class and element counts of two specificities are
    digits (0 to 9), [specificityToScore] orders them as
    [compareSpecificity] does. *)
Theorem specificityToScore_order (a b : Specificity.t Z) :
  isDigitCount (Specificity.classes a) -> isDigitCount (Specificity.elements a) ->
  isDigitCount (Specificity.classes b) -> isDigitCount (Specificity.elements b) ->
  (Parser.compareSpecificity a b > 0
   <-> Parser.specificityToScore a > Parser.specificityToScore b)
  /\ (Parser.compareSpecificity a b = 0
      <-> Parser.specificityToScore a = Parser.specificityToScore b).
Proof.
  unfold isDigitCount, Parser.specificityToScore, Parser.compareSpecificity.
  intros Hca Hea Hcb Heb.
  destruct (Z.eqb_spec (Specificity.ids a) (Specificity.ids b)) as [Hi|Hi]; cbn [negb].
  - destruct (Z.eqb_spec (Specificity.classes a) (Specificity.classes b)) as [Hc|Hc];
      cbn [negb]; lia.
  - lia.
Qed.

Lemma specificityToScore_order_witness :
  Parser.specificityToScore (Specificity.mk 1 0 0)
  > Parser.specificityToScore (Specificity.mk 0 9 9).
Proof.
  apply (specificityToScore_order (Specificity.mk 1 0 0) (Specificity.mk 0 9 9));
    first [reflexivity | unfold isDigitCount; cbn; lia].
Defined.
